(** * Cache-aside user repository: a shallow embedding and its properties

    The development embeds [app/core/cache.py] (the Redis adapter) and
    [app/services/user.py] (retry wrapper, cache-entry validator and the
    user repository) and proves properties of them.

    Conventions of the embedding.
    - Python values are the inductive [pyval]; a [dict] with string keys is
      a [gmap string pyval].
    - Strings are byte strings; [str.lower] acts on the ASCII letters.
    - Effects are threaded through the monad [M]: a state ([World]) and an
      exception ([exn]).  An exception does not undo state changes, as in
      Python.
    - Everything the program does with Redis or the database is appended to
      the [trace] of the world, in program order. *)

From Stdlib Require Import ZArith QArith String Ascii List Lia.
From stdpp Require Import gmap strings list fin_maps pretty.

Close Scope Q_scope.
Set Warnings "-register-all".
Local Open Scope string_scope.
Local Open Scope Z_scope.

(** ** Python values *)

(** [PyFloat] and [PyDatetime] carry the text that [str()] prints for them:
    the program never computes with either, it only prints them, tests their
    truth value and their type. *)
Inductive pyval : Type :=
| PyNone
| PyBool (b : bool)
| PyInt (z : Z)
| PyFloat (r : string)
| PyStr (s : string)
| PyDatetime (r : string)
| PyList (l : list pyval)
| PyDict (d : gmap string pyval).

(** [bool(v)]. *)
Definition py_truthy (v : pyval) : bool :=
  match v with
  | PyNone => false
  | PyBool b => b
  | PyInt z => negb (z =? 0)
  | PyFloat r => negb (String.eqb r "0.0" || String.eqb r "-0.0")
  | PyStr s => negb (String.eqb s "")
  | PyDatetime _ => true
  | PyList l => match l with [] => false | _ => true end
  | PyDict d => negb (bool_decide (d = ∅))
  end.

(** [isinstance(v, int)]: [bool] is a subclass of [int] in Python. *)
Definition isinstance_int (v : pyval) : bool :=
  match v with PyInt _ | PyBool _ => true | _ => false end.

(** [isinstance(v, str)]. *)
Definition isinstance_str (v : pyval) : bool :=
  match v with PyStr _ => true | _ => false end.

Definition join_comma (parts : list string) : string :=
  match parts with
  | [] => ""
  | p :: ps => fold_left (fun acc q => acc ++ ", " ++ q) ps p
  end.

(** [repr(v)].  Scalars print as Python prints them.  A string is printed
    between single quotes without escapes, and a dict prints its items in
    the iteration order of the map (Python: insertion order); no property
    below depends on the text of a printed container. *)
Fixpoint py_repr (v : pyval) : string :=
  match v with
  | PyNone => "None"
  | PyBool true => "True"
  | PyBool false => "False"
  | PyInt z => pretty z
  | PyFloat r => r
  | PyStr s => "'" ++ s ++ "'"
  | PyDatetime r => r
  | PyList l => "[" ++ join_comma (map py_repr l) ++ "]"
  | PyDict d =>
      "{" ++ join_comma
               (map_fold (fun k x acc => ("'" ++ k ++ "': " ++ py_repr x) :: acc) [] d)
          ++ "}"
  end.

(** [str(v)], also what ["{}".format(v)] inserts. *)
Definition py_str (v : pyval) : string :=
  match v with
  | PyStr s => s
  | _ => py_repr v
  end.

(** [json.dumps] accepts every value built from the JSON types; a
    [datetime] anywhere inside makes it raise [TypeError]. *)
Fixpoint json_serializable (v : pyval) : bool :=
  match v with
  | PyDatetime _ => false
  | PyList l => forallb json_serializable l
  | PyDict d => map_fold (fun _ x acc => json_serializable x && acc) true d
  | _ => true
  end.

(** ** Strings *)

(** A string is the sequence of its code points, which are below 256
    here.  On them [str.lower] maps [A]-[Z] and the capital letters of
    Latin-1 (192-222 but the multiplication sign, 215) to the letter 32
    places further, and leaves the others alone. *)
Definition ascii_lower (c : ascii) : ascii :=
  let n := nat_of_ascii c in
  if (((65 <=? n) && (n <=? 90))
      || ((192 <=? n) && (n <=? 222) && negb (n =? 215)))%nat
  then ascii_of_nat (n + 32) else c.

(** [s.lower()]. *)
Fixpoint str_lower (s : string) : string :=
  match s with
  | EmptyString => EmptyString
  | String c r => String (ascii_lower c) (str_lower r)
  end.

(** [sub in s]. *)
Fixpoint str_contains (sub s : string) : bool :=
  String.prefix sub s ||
  match s with
  | EmptyString => false
  | String _ r => str_contains sub r
  end.

(** SQL [LIKE] with the wildcards [%] and [_] (no escape character). *)
Fixpoint like_match (fuel : nat) (pat s : string) : bool :=
  match fuel with
  | O => false
  | S fuel =>
      match pat with
      | EmptyString => match s with EmptyString => true | _ => false end
      | String p pat' =>
          if Ascii.eqb p "%" then
            like_match fuel pat' s ||
            match s with
            | EmptyString => false
            | String _ s' => like_match fuel pat s'
            end
          else
            match s with
            | EmptyString => false
            | String c s' =>
                (Ascii.eqb p "_" || Ascii.eqb p c) && like_match fuel pat' s'
            end
      end
  end.

(** [column ILIKE pat]: [lower(column) LIKE lower(pat)].  Each step of the
    matcher consumes a character of the pattern or of the subject, so
    the fuel given is enough. *)
Definition sql_ilike (col pat : string) : bool :=
  like_match (S (String.length pat + String.length col))
             (str_lower pat) (str_lower col).

(** Redis glob matching with [*] and [?]; the repository's only pattern,
    [users:list:*:*], has no bracket class and no escape. *)
Fixpoint glob_match (fuel : nat) (pat s : string) : bool :=
  match fuel with
  | O => false
  | S fuel =>
      match pat with
      | EmptyString => match s with EmptyString => true | _ => false end
      | String p pat' =>
          if Ascii.eqb p "*" then
            glob_match fuel pat' s ||
            match s with
            | EmptyString => false
            | String _ s' => glob_match fuel pat s'
            end
          else
            match s with
            | EmptyString => false
            | String c s' =>
                (Ascii.eqb p "?" || Ascii.eqb p c) && glob_match fuel pat' s'
            end
      end
  end.

Definition redis_glob (pat key : string) : bool :=
  glob_match (S (String.length pat + String.length key)) pat key.

(** ** Exceptions, events and the world *)

(** The exception classes the two modules raise or catch.  Every error of
    the Redis client ([ConnectionError], [TimeoutError], [ResponseError],
    [DataError]) is a subclass of [RedisError]. *)
Inductive exn : Type :=
| RedisError (msg : string)
| ValueError (msg : string)
| TypeError (msg : string)
| OperationalError (detail : string)
| IntegrityError (detail : string)
| InvalidRequestError (msg : string).

Inductive outcome (A : Type) : Type :=
| Ok (a : A)
| Raised (e : exn).
Arguments Ok {A} a.
Arguments Raised {A} e.

(** One round trip to Redis. *)
Inductive redis_cmd : Type :=
| GET (key : string)
| SETEX (key : string) (ttl : Z)
| DEL (keys : list string)
| KEYS (pattern : string)
| EXEC (queued : list string).

(** One round trip to the database. *)
Inductive db_cmd : Type :=
| SELECT (what : string)
| SAVEPOINT
| RELEASE
| ROLLBACK_TO
| COMMIT
| ROLLBACK.

Inductive event : Type :=
| EvRedis (c : redis_cmd)
| EvDb (c : db_cmd)
| EvSleep (seconds : Q).

(** What a Redis key holds: the stored text stands for the value it parses
    to ([Json v] is the document [json.dumps v]), or it is text that is not
    a JSON document. *)
Inductive stored : Type :=
| Json (v : pyval)
| Text (s : string).

Record entry : Type := mkEntry { payload : stored; ttl : Z }.

(** SQLAlchemy's states of a mapped instance. *)
Inductive inst_state : Type := Transient | Pending | Persistent.

#[global] Instance inst_state_eq_dec : EqDecision inst_state.
Proof. solve_decision. Defined.

(** The mapped class [User] ([app/models/user.py], with the two timestamp
    columns of [BaseModel]).  Python attributes are dynamically typed. *)
Module User.
Record t : Type := mk {
  sa_state : inst_state;
  id : pyval;
  email : pyval;
  username : pyval;
  hashed_password : pyval;
  full_name : pyval;
  is_active : pyval;
  is_superuser : pyval;
  created_at : pyval;
  updated_at : pyval
}.

Definition columns : list string :=
  ["id"; "email"; "username"; "hashed_password"; "full_name";
   "is_active"; "is_superuser"; "created_at"; "updated_at"].

(** An instance with every attribute unset. *)
Definition blank : t :=
  mk Transient PyNone PyNone PyNone PyNone PyNone PyNone PyNone PyNone PyNone.

(** [setattr(u, field, value)] for a column attribute. *)
Definition setattr (u : t) (field : string) (v : pyval) : t :=
  if String.eqb field "id" then
    mk (sa_state u) v (email u) (username u) (hashed_password u) (full_name u)
       (is_active u) (is_superuser u) (created_at u) (updated_at u)
  else if String.eqb field "email" then
    mk (sa_state u) (id u) v (username u) (hashed_password u) (full_name u)
       (is_active u) (is_superuser u) (created_at u) (updated_at u)
  else if String.eqb field "username" then
    mk (sa_state u) (id u) (email u) v (hashed_password u) (full_name u)
       (is_active u) (is_superuser u) (created_at u) (updated_at u)
  else if String.eqb field "hashed_password" then
    mk (sa_state u) (id u) (email u) (username u) v (full_name u)
       (is_active u) (is_superuser u) (created_at u) (updated_at u)
  else if String.eqb field "full_name" then
    mk (sa_state u) (id u) (email u) (username u) (hashed_password u) v
       (is_active u) (is_superuser u) (created_at u) (updated_at u)
  else if String.eqb field "is_active" then
    mk (sa_state u) (id u) (email u) (username u) (hashed_password u) (full_name u)
       v (is_superuser u) (created_at u) (updated_at u)
  else if String.eqb field "is_superuser" then
    mk (sa_state u) (id u) (email u) (username u) (hashed_password u) (full_name u)
       (is_active u) v (created_at u) (updated_at u)
  else if String.eqb field "created_at" then
    mk (sa_state u) (id u) (email u) (username u) (hashed_password u) (full_name u)
       (is_active u) (is_superuser u) v (updated_at u)
  else if String.eqb field "updated_at" then
    mk (sa_state u) (id u) (email u) (username u) (hashed_password u) (full_name u)
       (is_active u) (is_superuser u) (created_at u) v
  else u.

Definition with_state (st : inst_state) (u : t) : t :=
  mk st (id u) (email u) (username u) (hashed_password u) (full_name u)
     (is_active u) (is_superuser u) (created_at u) (updated_at u).
End User.

(** The state of the program and of its two collaborators.
    - [redis]: the key space of the Redis database.
    - [redis_faults]: one flag per coming Redis round trip; [true] makes
      that command raise [RedisError].  An exhausted list means no fault.
    - [table]: the committed rows of table [user], in primary-key order;
      [next_id]: the next auto-increment value.
    - [db_faults]: one slot per coming database round trip; [Some d] makes
      it raise [OperationalError] with detail [d].
    - [sess_new], [sess_dirty], [sess_deleted]: the unit of work of the
      SQLAlchemy session; [in_transaction]: whether it has begun one.
    - [now]: what [str(datetime.now(UTC))] prints.
    - [pwd_hash]: [pwd_context.hash], the password hashing collaborator. *)
Record World : Type := mkWorld {
  redis : gmap string entry;
  redis_faults : list bool;
  table : list User.t;
  next_id : Z;
  db_faults : list (option string);
  sess_new : list User.t;
  sess_dirty : list User.t;
  sess_deleted : list pyval;
  in_transaction : bool;
  now : string;
  pwd_hash : string -> string;
  trace : list event
}.

Definition set_redis (r : gmap string entry) (w : World) : World :=
  mkWorld r (redis_faults w) (table w) (next_id w) (db_faults w) (sess_new w)
          (sess_dirty w) (sess_deleted w) (in_transaction w) (now w) (pwd_hash w) (trace w).

Definition set_redis_faults (f : list bool) (w : World) : World :=
  mkWorld (redis w) f (table w) (next_id w) (db_faults w) (sess_new w)
          (sess_dirty w) (sess_deleted w) (in_transaction w) (now w) (pwd_hash w) (trace w).

Definition set_db_faults (f : list (option string)) (w : World) : World :=
  mkWorld (redis w) (redis_faults w) (table w) (next_id w) f (sess_new w)
          (sess_dirty w) (sess_deleted w) (in_transaction w) (now w) (pwd_hash w) (trace w).

Definition set_session (n d : list User.t) (x : list pyval) (b : bool) (w : World) : World :=
  mkWorld (redis w) (redis_faults w) (table w) (next_id w) (db_faults w) n d x b
          (now w) (pwd_hash w) (trace w).

Definition set_table (t : list User.t) (n : Z) (w : World) : World :=
  mkWorld (redis w) (redis_faults w) t n (db_faults w) (sess_new w)
          (sess_dirty w) (sess_deleted w) (in_transaction w) (now w) (pwd_hash w) (trace w).

Definition log (e : event) (w : World) : World :=
  mkWorld (redis w) (redis_faults w) (table w) (next_id w) (db_faults w) (sess_new w)
          (sess_dirty w) (sess_deleted w) (in_transaction w) (now w) (pwd_hash w)
          (trace w ++ [e]).

(** ** The monad of the program *)

Definition M (A : Type) : Type := World -> outcome A * World.

Definition ret {A} (a : A) : M A := fun w => (Ok a, w).

Definition raise {A} (e : exn) : M A := fun w => (Raised e, w).

Definition bind {A B} (m : M A) (k : A -> M B) : M B :=
  fun w =>
    match m w with
    | (Ok a, w') => k a w'
    | (Raised e, w') => (Raised e, w')
    end.

#[global] Instance M_ret : MRet M := @ret.
#[global] Instance M_bind : MBind M := fun A B k m => bind m k.

(** [try: body except <classes>: handler]; [handles] says which exceptions
    the except clause names. *)
Definition try_except {A} (body : M A) (handles : exn -> bool)
    (handler : exn -> M A) : M A :=
  fun w =>
    match body w with
    | (Ok a, w') => (Ok a, w')
    | (Raised e, w') => if handles e then handler e w' else (Raised e, w')
    end.

Definition get_world : M World := fun w => (Ok w, w).
Definition modify (f : World -> World) : M unit := fun w => (Ok tt, f w).

Definition is_RedisError (e : exn) : bool :=
  match e with RedisError _ => true | _ => false end.
Definition is_ValueError (e : exn) : bool :=
  match e with ValueError _ => true | _ => false end.
Definition is_TypeError (e : exn) : bool :=
  match e with TypeError _ => true | _ => false end.
Definition is_OperationalError (e : exn) : bool :=
  match e with OperationalError _ => true | _ => false end.
Definition is_IntegrityError (e : exn) : bool :=
  match e with IntegrityError _ => true | _ => false end.

(** [str(e)]. *)
Definition exn_str (e : exn) : string :=
  match e with
  | RedisError m | ValueError m | TypeError m | OperationalError m
  | IntegrityError m | InvalidRequestError m => m
  end.

(** ** The Redis adapter ([app/core/cache.py]) *)

Module Cache.

(** A command sent through the client: it is recorded, and it raises
    [RedisError] when the fault plan says so. *)
Definition redis_call (c : redis_cmd) : M unit :=
  fun w =>
    let w1 := log (EvRedis c) w in
    match redis_faults w with
    | true :: rest =>
        (Raised (RedisError "Error connecting to Redis"), set_redis_faults rest w1)
    | false :: rest => (Ok tt, set_redis_faults rest w1)
    | [] => (Ok tt, w1)
    end.

(** [client.get(key)]. *)
Definition client_get (key : string) : M (option stored) :=
  _ ← redis_call (GET key);
  w ← get_world;
  ret (payload <$> redis w !! key).

(** [client.setex(key, expire, serialized)]; Redis rejects a
    non-positive expiry. *)
Definition client_setex (key : string) (expire : Z) (serialized : stored) : M bool :=
  _ ← redis_call (SETEX key expire);
  if expire <=? 0 then raise (RedisError "invalid expire time in 'setex' command")
  else
    _ ← modify (fun w => set_redis (<[key := mkEntry serialized expire]> (redis w)) w);
    ret true.

(** [client.delete( *keys )]: the number of keys that were removed. *)
Definition client_delete (keys : list string) : M Z :=
  _ ← redis_call (DEL keys);
  w ← get_world;
  let present := filter (fun k => is_Some (redis w !! k)) (remove_dups keys) in
  _ ← modify (set_redis (foldr delete (redis w) keys));
  ret (Z.of_nat (length present)).

(** [client.keys(pattern)]. *)
Definition client_keys (pattern : string) : M (list string) :=
  _ ← redis_call (KEYS pattern);
  w ← get_world;
  ret (filter (fun k => redis_glob pattern k = true) (map fst (map_to_list (redis w)))).

Definition serialize_value (value : pyval) : M stored :=
  if json_serializable value then ret (Json value)
  else raise (ValueError "Could not serialize value").

Definition deserialize_value (value : stored) : M pyval :=
  match value with
  | Json v => ret v
  | Text _ => raise (ValueError "Could not deserialize value")
  end.

(** The text of a stored value is empty only for [Text ""]. *)
Definition stored_truthy (value : stored) : bool :=
  match value with
  | Json _ => true
  | Text s => negb (String.eqb s "")
  end.

(** [cache_get]: the [except RedisError] clause logs and re-raises. *)
Definition cache_get (key : string) : M pyval :=
  try_except
    (value ← client_get key;
     match value with
     | Some v => if stored_truthy v then deserialize_value v else ret PyNone
     | None => ret PyNone
     end)
    is_RedisError
    (fun e => raise e).

Definition cache_set (key : string) (value : pyval) (expire : Z) : M bool :=
  try_except
    (serialized ← serialize_value value;
     client_setex key expire serialized)
    (fun e => is_RedisError e || is_ValueError e)
    (fun _ => ret false).

Definition cache_delete (key : string) : M bool :=
  try_except
    (n ← client_delete [key]; ret (0 <? n))
    is_RedisError
    (fun _ => ret false).

(** [cache_multi_set]: values that do not serialize are skipped; the
    pipeline is sent in one round trip and every queued [setex] answers
    [True]. *)
Definition cache_multi_set (data : gmap string pyval) (expire : Z) : M bool :=
  try_except
    (let queued := filter (fun kv => json_serializable kv.2 = true) (map_to_list data) in
     _ ← redis_call (EXEC (map fst queued));
     if (expire <=? 0) && negb (bool_decide (queued = []))
     then raise (RedisError "invalid expire time in 'setex' command")
     else
       _ ← modify (fun w =>
             set_redis
               (foldr (fun kv r => <[kv.1 := mkEntry (Json kv.2) expire]> r)
                      (redis w) queued) w);
       ret true)
    is_RedisError
    (fun _ => ret false).

Definition cache_clear_pattern (pattern : string) : M bool :=
  try_except
    (keys ← client_keys pattern;
     match keys with
     | [] => ret true
     | _ => n ← client_delete keys; ret (0 <? n)
     end)
    is_RedisError
    (fun _ => ret false).

End Cache.

(** ** The database session (SQLAlchemy [Session] over table [user])

    The session is created with [autoflush=False] and
    [expire_on_commit=False] ([app/core/database.py]).  The engine is
    MySQL and the columns are [String(n)] without a collation of their own,
    so that [=] on them and the unique indexes of [email] and [username]
    compare as the default collation does: without regard to letter case. *)

Module Db.

(** A statement sent to the database: it is recorded, it begins the
    session's transaction, and it raises [OperationalError] when the fault
    plan says so. *)
Definition db_call (c : db_cmd) : M unit :=
  fun w =>
    let w1 := set_session (sess_new w) (sess_dirty w) (sess_deleted w) true
                          (log (EvDb c) w) in
    match db_faults w with
    | Some d :: rest => (Raised (OperationalError d), set_db_faults rest w1)
    | None :: rest => (Ok tt, set_db_faults rest w1)
    | [] => (Ok tt, w1)
    end.

(** [a = b] of two texts under the collation of the columns. *)
Definition collate_eq (a b : string) : bool :=
  String.eqb (str_lower a) (str_lower b).

Definition col_eq (v : pyval) (s : string) : bool :=
  match v with PyStr c => collate_eq c s | _ => false end.

Definition col_ilike (v : pyval) (pat : string) : bool :=
  match v with PyStr c => sql_ilike c pat | _ => false end.

Definition id_eq (v : pyval) (i : Z) : bool :=
  match v with PyInt z => z =? i | _ => false end.

Definition is_null (v : pyval) : bool :=
  match v with PyNone => true | _ => false end.

(** [a == b] of Python on two strings. *)
Definition same_text (a b : pyval) : bool :=
  match a, b with
  | PyStr x, PyStr y => String.eqb x y
  | _, _ => false
  end.

(** Two values that a unique index takes for the same key. *)
Definition same_key (a b : pyval) : bool :=
  match a, b with
  | PyStr x, PyStr y => collate_eq x y
  | _, _ => false
  end.

Definition same_id (a b : pyval) : bool :=
  match a, b with
  | PyInt x, PyInt y => x =? y
  | _, _ => false
  end.

(** [db.query(User).filter(p).first()]. *)
Definition query_first (what : string) (p : User.t -> bool) : M (option User.t) :=
  _ ← db_call (SELECT what);
  w ← get_world;
  ret (head (List.filter p (table w))).

(** [db.query(User).offset(skip).limit(limit).all()]. *)
Definition query_page (skip limit : Z) : M (list User.t) :=
  _ ← db_call (SELECT "offset/limit");
  w ← get_world;
  ret (take (Z.to_nat limit) (drop (Z.to_nat skip) (table w))).

(** [db.add(u)]: the instance becomes pending; nothing is sent. *)
Definition add (u : User.t) : M User.t :=
  let u' := User.with_state Pending u in
  _ ← modify (fun w => set_session (sess_new w ++ [u']) (sess_dirty w)
                                   (sess_deleted w) (in_transaction w) w);
  ret u'.

(** The session notices an attribute change of a persistent instance. *)
Definition mark_dirty (u : User.t) : M unit :=
  modify (fun w =>
    set_session (sess_new w)
                (List.filter (fun r => negb (same_id (User.id r) (User.id u)))
                             (sess_dirty w) ++ [u])
                (sess_deleted w) (in_transaction w) w).

(** [db.delete(u)]: only a persistent instance can be marked. *)
Definition delete (u : User.t) : M unit :=
  match User.sa_state u with
  | Persistent =>
      modify (fun w => set_session (sess_new w) (sess_dirty w)
                                   (sess_deleted w ++ [User.id u]) (in_transaction w) w)
  | _ => raise (InvalidRequestError "Instance is not persisted")
  end.

(** The constraints of table [user] on a row that is written, against
    the other rows. *)
Definition check_row (others : list User.t) (u : User.t) : option exn :=
  if is_null (User.email u) then
    Some (IntegrityError "Column 'email' cannot be null")
  else if is_null (User.username u) then
    Some (IntegrityError "Column 'username' cannot be null")
  else if is_null (User.hashed_password u) then
    Some (IntegrityError "Column 'hashed_password' cannot be null")
  else if existsb (fun r => same_key (User.email r) (User.email u)) others then
    Some (IntegrityError "Duplicate entry for key 'user.email'")
  else if existsb (fun r => same_key (User.username r) (User.username u)) others then
    Some (IntegrityError "Duplicate entry for key 'user.username'")
  else None.

Definition or_default (v dflt : pyval) : pyval :=
  if is_null v then dflt else v.

(** INSERT of the pending instances: the key and the column defaults are
    generated and written back into the instance. *)
Fixpoint flush_new (stamp : string) (pending : list User.t)
    (rows : list User.t) (next : Z) : exn + (list User.t * Z * list User.t) :=
  match pending with
  | [] => inr (rows, next, [])
  | u :: rest =>
      match check_row rows u with
      | Some e => inl e
      | None =>
          let row := User.mk Persistent (PyInt next) (User.email u) (User.username u)
                       (User.hashed_password u) (User.full_name u)
                       (or_default (User.is_active u) (PyBool true))
                       (or_default (User.is_superuser u) (PyBool false))
                       (PyDatetime stamp) (PyDatetime stamp) in
          match flush_new stamp rest (rows ++ [row]) (next + 1) with
          | inl e => inl e
          | inr (rows', next', done) => inr (rows', next', row :: done)
          end
      end
  end.

(** UPDATE of the dirty instances; [onupdate] refreshes [updated_at]. *)
Fixpoint flush_dirty (stamp : string) (dirty : list User.t)
    (rows : list User.t) : exn + (list User.t * list User.t) :=
  match dirty with
  | [] => inr (rows, [])
  | u :: rest =>
      let others := List.filter (fun r => negb (same_id (User.id r) (User.id u))) rows in
      match check_row others u with
      | Some e => inl e
      | None =>
          let row := User.setattr u "updated_at" (PyDatetime stamp) in
          let rows1 := map (fun r => if same_id (User.id r) (User.id u) then row else r) rows in
          match flush_dirty stamp rest rows1 with
          | inl e => inl e
          | inr (rows', done) => inr (rows', row :: done)
          end
      end
  end.

Definition flush_deleted (gone : list pyval) (rows : list User.t) : list User.t :=
  List.filter (fun r => negb (existsb (same_id (User.id r)) gone)) rows.

(** What a flush wrote back into the instances of the session. *)
Record flushed : Type := mkFlushed { inserted : list User.t; updated : list User.t }.

Definition nothing_flushed : flushed := mkFlushed [] [].

Definition has_work (w : World) : bool :=
  negb (bool_decide (length (sess_new w) = 0%nat)
        && bool_decide (length (sess_dirty w) = 0%nat)
        && bool_decide (length (sess_deleted w) = 0%nat)).

(** [db.rollback()]: the unit of work is dropped. *)
Definition rollback : M unit :=
  fun w =>
    let w1 := if in_transaction w then log (EvDb ROLLBACK) w else w in
    (Ok tt, set_session [] [] [] false w1).

(** [db.commit()]: flush, then COMMIT.  With nothing to flush and no
    transaction begun it sends nothing. *)
Definition commit : M flushed :=
  fun w =>
    if negb (in_transaction w || has_work w) then (Ok nothing_flushed, w)
    else
      match db_call COMMIT w with
      | (Raised e, w1) => (Raised e, w1)
      | (Ok _, w1) =>
          match flush_new (now w1) (sess_new w1) (table w1) (next_id w1) with
          | inl e => (Raised e, w1)
          | inr (rows1, next1, ins) =>
              match flush_dirty (now w1) (sess_dirty w1) rows1 with
              | inl e => (Raised e, w1)
              | inr (rows2, upd) =>
                  let rows3 := flush_deleted (sess_deleted w1) rows2 in
                  (Ok (mkFlushed ins upd),
                   set_session [] [] [] false (set_table rows3 next1 w1))
              end
          end
      end.

(** The state of instance [u] after a flush: a pending instance is the
    row inserted for it (an operation adds at most one), a persistent one
    the row updated under its key, any other is untouched. *)
Definition synced (f : flushed) (u : User.t) : User.t :=
  match User.sa_state u with
  | Pending => match inserted f with r :: _ => r | [] => u end
  | Persistent =>
      match List.filter (fun r => same_id (User.id r) (User.id u)) (updated f) with
      | r :: _ => r
      | [] => u
      end
  | Transient => u
  end.

End Db.

(** ** The user repository ([app/services/user.py]) *)

(** Cache key patterns: ["user:{}".format(x)] and its siblings. *)
Definition USER_KEY (x : pyval) : string := "user:" ++ py_str x.
Definition USER_EMAIL_KEY (x : pyval) : string := "user:email:" ++ py_str x.
Definition USERS_LIST_KEY (x y : pyval) : string :=
  "users:list:" ++ py_str x ++ ":" ++ py_str y.

Definition USER_CACHE_EXPIRE : Z := 3600.
Definition USERS_LIST_CACHE_EXPIRE : Z := 300.

Definition MAX_RETRIES : Z := 3.
Definition RETRY_BACKOFF : Q := Qmake 1 10.

(** [transaction_context(db, nested)], wrapped around [body].  The result
    carries what the commit flushed, so that the caller can read the
    instances as the flush left them. *)
Definition transaction_context {A} (nested : bool) (body : M A) : M (A * Db.flushed) :=
  w ← get_world;
  if nested && in_transaction w then
    _ ← Db.db_call SAVEPOINT;
    a ← try_except body (fun _ => true)
          (fun e => _ ← Db.db_call ROLLBACK_TO; raise e);
    _ ← Db.db_call RELEASE;
    ret (a, Db.nothing_flushed)
  else
    try_except
      (a ← body; f ← Db.commit; ret (a, f))
      (fun _ => true)
      (fun e => _ ← Db.rollback; raise e).

(** The body of [wrapper] in [with_transaction_retry]: the [while True]
    loop, started with [retries] retries already made.  It leaves the loop
    after at most [MAX_RETRIES - retries] sleeps; [budget] bounds the
    remaining ones. *)
Fixpoint retry_loop {A} (budget : nat) (retries : Z) (func : M A) : M A :=
  try_except func is_OperationalError
    (fun e =>
       if (retries >=? MAX_RETRIES) || negb (str_contains "deadlock" (str_lower (exn_str e)))
       then raise e
       else
         match budget with
         | O => raise e
         | S budget' =>
             let retries := retries + 1 in
             _ ← modify (log (EvSleep (Qmult RETRY_BACKOFF (inject_Z retries))));
             retry_loop budget' retries func
         end).

Definition with_transaction_retry {A} (func : M A) : M A :=
  retry_loop (Z.to_nat MAX_RETRIES) 0 func.

Definition _user_to_dict (user : User.t) : gmap string pyval :=
  list_to_map
    [("id", User.id user);
     ("email", User.email user);
     ("username", User.username user);
     ("full_name", User.full_name user);
     ("is_active", User.is_active user);
     ("is_superuser", User.is_superuser user);
     ("created_at", PyStr (py_str (User.created_at user)));
     ("updated_at", PyStr (py_str (User.updated_at user)));
     ("_cache_version", PyStr "1.1")].

Definition required_fields : list string :=
  ["id"; "email"; "username"; "full_name"; "is_active";
   "is_superuser"; "created_at"; "updated_at"; "_cache_version"].

Definition field (d : gmap string pyval) (k : string) : pyval :=
  default PyNone (d !! k).

(** [_validate_cache_data].  For a value that is not a dict, the membership
    test or the subscript [data["id"]] raises [TypeError] (or the
    membership test fails), and the function answers [False]. *)
Definition _validate_cache_data (data : pyval) : bool :=
  match data with
  | PyDict d =>
      if negb (forallb (fun f => bool_decide (is_Some (d !! f))) required_fields) then false
      else if negb (isinstance_int (field d "id")) then false
      else if negb (isinstance_str (field d "email")) then false
      else if negb (isinstance_str (field d "username")) then false
      else if negb (isinstance_str (field d "_cache_version")) then false
      else if negb (existsb (Db.same_text (field d "_cache_version")) [PyStr "1.0"; PyStr "1.1"])
           then false
      else true
  | _ => false
  end.

(** [User( **kwargs )], the default constructor of a declarative class: a
    keyword that is not an attribute of the class raises [TypeError], the
    others are set.  The attributes considered are the columns. *)
Definition User_init (kwargs : gmap string pyval) : M User.t :=
  match List.filter (fun k => negb (bool_decide (k ∈ User.columns)))
                    (map fst (map_to_list kwargs)) with
  | k :: _ => raise (TypeError ("'" ++ k ++ "' is an invalid keyword argument for User"))
  | [] =>
      ret (User.mk Transient (field kwargs "id") (field kwargs "email")
             (field kwargs "username") (field kwargs "hashed_password")
             (field kwargs "full_name") (field kwargs "is_active")
             (field kwargs "is_superuser") (field kwargs "created_at")
             (field kwargs "updated_at"))
  end.

(** [User( **v )] for an arbitrary value: only a mapping can be unpacked. *)
Definition User_of (v : pyval) : M User.t :=
  match v with
  | PyDict d => User_init d
  | _ => raise (TypeError "argument after ** must be a mapping")
  end.

Definition get_password_hash (password : string) : M string :=
  w ← get_world; ret (pwd_hash w password).

Record UserCreate : Type := mkUserCreate {
  uc_email : string;
  uc_username : string;
  uc_full_name : option string;
  uc_is_active : bool;
  uc_is_superuser : bool;
  uc_password : string
}.

(** [UserUpdate]: [None] is a field that was not set.  The schema's
    [EmailStr] has already validated an email (it lower-cases the domain
    and keeps the local part as typed). *)
Record UserUpdate : Type := mkUserUpdate {
  uu_email : option string;
  uu_username : option string;
  uu_full_name : option (option string);
  uu_is_active : option bool;
  uu_is_superuser : option bool;
  uu_password : option string
}.

Definition py_opt_str (o : option string) : pyval :=
  match o with Some s => PyStr s | None => PyNone end.

Definition put_if {A} (k : string) (f : A -> pyval) (o : option A)
    (d : gmap string pyval) : gmap string pyval :=
  match o with Some a => <[k := f a]> d | None => d end.

(** [user_data.model_dump(exclude_unset=True)]. *)
Definition model_dump (u : UserUpdate) : gmap string pyval :=
  put_if "email" PyStr (uu_email u)
    (put_if "username" PyStr (uu_username u)
      (put_if "full_name" py_opt_str (uu_full_name u)
        (put_if "is_active" PyBool (uu_is_active u)
          (put_if "is_superuser" PyBool (uu_is_superuser u)
            (put_if "password" PyStr (uu_password u) ∅))))).

Definition create_user_body (user_data : UserCreate) : M User.t :=
  existing_email_user ←
    Db.query_first "email ilike" (fun r => Db.col_ilike (User.email r) (uc_email user_data));
  if bool_decide (is_Some existing_email_user) then
    raise (ValueError ("Email address '" ++ uc_email user_data
             ++ "' is already registered. Please use a different email address or try logging in."))
  else
  existing_username_user ←
    Db.query_first "username ==" (fun r => Db.col_eq (User.username r) (uc_username user_data));
  if bool_decide (is_Some existing_username_user) then
    raise (ValueError ("Username '" ++ uc_username user_data
             ++ "' is already taken. Please choose a different username."))
  else
  hashed_password ← get_password_hash (uc_password user_data);
  db_user ← Db.add
    (User.mk Transient PyNone (PyStr (str_lower (uc_email user_data)))
       (PyStr (uc_username user_data)) (PyStr hashed_password)
       (py_opt_str (uc_full_name user_data)) (PyBool (uc_is_active user_data))
       (PyBool (uc_is_superuser user_data)) PyNone PyNone);
  _ ← try_except
        (let user_dict := PyDict (_user_to_dict db_user) in
         _ ← Cache.cache_set (USER_KEY (User.id db_user)) user_dict USER_CACHE_EXPIRE;
         _ ← Cache.cache_set (USER_EMAIL_KEY (User.email db_user)) user_dict USER_CACHE_EXPIRE;
         _ ← Cache.cache_clear_pattern (USERS_LIST_KEY (PyStr "*") (PyStr "*"));
         ret tt)
        (fun e => is_RedisError e || is_ValueError e)
        (fun _ => ret tt);
  ret db_user.

Definition create_user_once (user_data : UserCreate) : M User.t :=
  try_except
    (r ← transaction_context false (create_user_body user_data);
     ret (Db.synced (snd r) (fst r)))
    is_IntegrityError
    (fun e =>
       _ ← Db.rollback;
       if str_contains "email" (str_lower (exn_str e)) then
         raise (ValueError ("User with email " ++ uc_email user_data ++ " already exists"))
       else if str_contains "username" (str_lower (exn_str e)) then
         raise (ValueError ("User with username " ++ uc_username user_data ++ " already exists"))
       else raise (ValueError "User with this email or username already exists")).

Definition create_user (user_data : UserCreate) : M User.t :=
  with_transaction_retry (create_user_once user_data).

Definition get_user (user_id : Z) : M (option User.t) :=
  let cache_key := USER_KEY (PyInt user_id) in
  cr ← try_except
         (v ← Cache.cache_get cache_key; ret (v, true))
         is_RedisError
         (fun _ => ret (PyNone, false));
  let cached_user : pyval := fst cr in
  let redis_available : bool := snd cr in
  hit ←
    (if py_truthy cached_user then
       r ← (if _validate_cache_data cached_user then
              match cached_user with
              | PyDict d =>
                  try_except
                    (u ← User_init (delete "_cache_version" d); ret (Some u))
                    (fun e => is_TypeError e || is_ValueError e)
                    (fun _ => ret None)
              | _ => ret None
              end
            else ret None);
       match r with
       | Some u => ret (Some u)
       | None =>
           _ ← try_except (_ ← Cache.cache_delete cache_key; ret tt)
                 is_RedisError (fun _ => ret tt);
           ret None
       end
     else ret None);
  match hit with
  | Some u => ret (Some u)
  | None =>
      db_user ← Db.query_first "id ==" (fun r => Db.id_eq (User.id r) user_id);
      match db_user with
      | Some u =>
          if redis_available then
            _ ← try_except
                  (_ ← Cache.cache_set cache_key (PyDict (_user_to_dict u)) USER_CACHE_EXPIRE;
                   ret tt)
                  is_RedisError (fun _ => ret tt);
            ret (Some u)
          else ret (Some u)
      | None => ret None
      end
  end.

Definition get_user_by_email (email : string) : M (option User.t) :=
  let cache_key := USER_EMAIL_KEY (PyStr email) in
  hit ← try_except
          (cached_user ← Cache.cache_get cache_key;
           if py_truthy cached_user then
             try_except
               (u ← User_of cached_user; ret (Some u))
               (fun e => is_TypeError e || is_ValueError e)
               (fun _ => _ ← Cache.cache_delete cache_key; ret None)
           else ret None)
          is_RedisError
          (fun _ => ret None);
  match hit with
  | Some u => ret (Some u)
  | None =>
      db_user ← Db.query_first "email ==" (fun r => Db.col_eq (User.email r) email);
      match db_user with
      | Some u =>
          _ ← try_except
                (let user_dict := PyDict (_user_to_dict u) in
                 _ ← Cache.cache_set cache_key user_dict USER_CACHE_EXPIRE;
                 _ ← Cache.cache_set (USER_KEY (User.id u)) user_dict USER_CACHE_EXPIRE;
                 ret tt)
                (fun e => is_RedisError e || is_ValueError e)
                (fun _ => ret tt);
          ret (Some u)
      | None => ret None
      end
  end.

(** [[User( **user_data ) for user_data in cached_users]]: anything but a
    list either is not iterable or yields items that are not mappings. *)
Fixpoint users_of_items (items : list pyval) : M (list User.t) :=
  match items with
  | [] => ret []
  | x :: rest => u ← User_of x; us ← users_of_items rest; ret (u :: us)
  end.

Definition users_of (cached_users : pyval) : M (list User.t) :=
  match cached_users with
  | PyList l => users_of_items l
  | _ => raise (TypeError "argument after ** must be a mapping")
  end.

Definition get_users (skip limit : Z) : M (list User.t) :=
  if skip <? 0 then raise (ValueError "skip must be non-negative")
  else if limit <=? 0 then raise (ValueError "limit must be positive")
  else
    let cache_key := USERS_LIST_KEY (PyInt skip) (PyInt limit) in
    hit ← try_except
            (cached_users ← Cache.cache_get cache_key;
             if py_truthy cached_users then
               try_except
                 (us ← users_of cached_users; ret (Some us))
                 (fun e => is_TypeError e || is_ValueError e)
                 (fun _ => _ ← Cache.cache_delete cache_key; ret None)
             else ret None)
            is_RedisError
            (fun _ => ret None);
    match hit with
    | Some us => ret us
    | None =>
        db_users ← Db.query_page skip limit;
        match db_users with
        | [] => ret db_users
        | _ =>
            _ ← try_except
                  (let users_data := PyList (map (fun u => PyDict (_user_to_dict u)) db_users) in
                   _ ← Cache.cache_set cache_key users_data USERS_LIST_CACHE_EXPIRE;
                   let user_cache_data : gmap string pyval :=
                     foldl (fun d u => <[USER_KEY (User.id u) := PyDict (_user_to_dict u)]> d)
                           ∅ db_users in
                   _ ← Cache.cache_multi_set user_cache_data USER_CACHE_EXPIRE;
                   ret tt)
                  (fun e => is_RedisError e || is_ValueError e)
                  (fun _ => ret tt);
            ret db_users
        end
    end.

(** [a != b] where [a] is a string. *)
Definition py_ne_str (a : string) (b : pyval) : bool :=
  match b with PyStr s => negb (String.eqb a s) | _ => true end.

Definition getattr (u : User.t) (k : string) : pyval :=
  if String.eqb k "id" then User.id u
  else if String.eqb k "email" then User.email u
  else if String.eqb k "username" then User.username u
  else if String.eqb k "hashed_password" then User.hashed_password u
  else if String.eqb k "full_name" then User.full_name u
  else if String.eqb k "is_active" then User.is_active u
  else if String.eqb k "is_superuser" then User.is_superuser u
  else if String.eqb k "created_at" then User.created_at u
  else if String.eqb k "updated_at" then User.updated_at u
  else PyNone.

(** Whether a column value differs from the loaded one (the values written
    by an update are strings, booleans or [None]). *)
Definition differs (old new : pyval) : bool :=
  match old, new with
  | PyNone, PyNone => false
  | PyBool a, PyBool b => negb (Bool.eqb a b)
  | PyStr a, PyStr b => negb (String.eqb a b)
  | PyInt a, PyInt b => negb (a =? b)
  | _, _ => true
  end.

(** [for _ in range(2): if cache_delete(key): break]. *)
Definition cache_delete_retry (key : string) : M unit :=
  r ← Cache.cache_delete key;
  if r : bool then ret tt else (_ ← Cache.cache_delete key; ret tt).

Definition update_user_once (user_id : Z) (user_data : UserUpdate) : M (option User.t) :=
  found ← get_user user_id;
  match found with
  | None => ret None
  | Some db_user =>
      let old_email := User.email db_user in
      let dumped := model_dump user_data in
      update_data ←
        match dumped !! "password" with
        | Some p =>
            h ← get_password_hash (py_str p);
            ret (<["hashed_password" := PyStr h]> (delete "password" dumped))
        | None => ret dumped
        end;
      r ← transaction_context false
            (_ ← transaction_context true
                   (_ ← match update_data !! "email" with
                         | Some (PyStr new) =>
                             if py_ne_str new old_email then
                               existing_user ← Db.query_first "email ==, id !="
                                 (fun r => Db.col_eq (User.email r) new
                                           && negb (Db.id_eq (User.id r) user_id));
                               if bool_decide (is_Some existing_user)
                               then raise (ValueError ("Email " ++ new ++ " is already in use"))
                               else ret tt
                             else ret tt
                         | _ => ret tt
                         end;
                    match update_data !! "username" with
                    | Some (PyStr new) =>
                        existing_user ← Db.query_first "username ==, id !="
                          (fun r => Db.col_eq (User.username r) new
                                    && negb (Db.id_eq (User.id r) user_id));
                        if bool_decide (is_Some existing_user)
                        then raise (ValueError ("Username " ++ new ++ " is already in use"))
                        else ret tt
                    | _ => ret tt
                    end);
             let changed :=
               existsb (fun kv => differs (getattr db_user (fst kv)) (snd kv))
                       (map_to_list update_data) in
             let db_user' :=
               foldr (fun kv u => User.setattr u (fst kv) (snd kv)) db_user
                     (map_to_list update_data) in
             _ ← (if bool_decide (User.sa_state db_user = Persistent) && changed
                  then Db.mark_dirty db_user' else ret tt);
             _ ← try_except
                   (_ ← cache_delete_retry (USER_KEY (PyInt user_id));
                    _ ← cache_delete_retry (USER_EMAIL_KEY old_email);
                    let user_dict := PyDict (_user_to_dict db_user') in
                    _ ← Cache.cache_set (USER_KEY (PyInt user_id)) user_dict USER_CACHE_EXPIRE;
                    _ ← Cache.cache_set (USER_EMAIL_KEY (User.email db_user')) user_dict
                          USER_CACHE_EXPIRE;
                    _ ← Cache.cache_clear_pattern (USERS_LIST_KEY (PyStr "*") (PyStr "*"));
                    ret tt)
                   is_RedisError
                   (fun _ => ret tt);
             ret db_user');
      ret (Some (Db.synced (snd r) (fst r)))
  end.

Definition update_user (user_id : Z) (user_data : UserUpdate) : M (option User.t) :=
  with_transaction_retry (update_user_once user_id user_data).

Definition delete_user_once (user_id : Z) : M bool :=
  found ← get_user user_id;
  match found with
  | None => ret false
  | Some db_user =>
      let email := User.email db_user in
      _ ← transaction_context false (Db.delete db_user);
      _ ← try_except
            (_ ← Cache.cache_delete (USER_KEY (PyInt user_id));
             _ ← Cache.cache_delete (USER_EMAIL_KEY email);
             _ ← Cache.cache_clear_pattern (USERS_LIST_KEY (PyStr "*") (PyStr "*"));
             ret tt)
            is_RedisError
            (fun _ => ret tt);
      ret true
  end.

Definition delete_user (user_id : Z) : M bool :=
  with_transaction_retry (delete_user_once user_id).

(** ** Worlds to run the program in *)

Definition empty_world : World :=
  mkWorld ∅ [] [] 1 [] [] [] [] false "2024-02-19 12:00:00+00:00"
          (fun p => "$argon2id$" ++ p) [].

Definition alice : UserCreate :=
  mkUserCreate "a@x.com" "alice" (Some "Alice") true false "password1".
Definition bob : UserCreate :=
  mkUserCreate "b@x.com" "bob" None true false "password2".

(** One request of the route layer: [get_db] opens a session for it and
    closes it afterwards, whatever the outcome. *)
Definition request {A} (m : M A) : M A :=
  fun w =>
    let '(r, w') := m (set_session [] [] [] false w) in
    (r, set_session [] [] [] false w').

(** A persistence operation that dead-locks on every execution (the
    [commit] of the test-suite's mocked session). *)
Definition deadlocked_commit : M unit :=
  _ ← modify (log (EvDb COMMIT));
  raise (OperationalError "Deadlock found when trying to get lock").

(** ** Vocabulary of the properties *)

(** The world after [time.sleep(RETRY_BACKOFF * k)]. *)
Definition slept (k : Z) (w : World) : World :=
  log (EvSleep (Qmult RETRY_BACKOFF (inject_Z k))) w.

(** Every execution of the operation raises a store error whose detail
    mentions a deadlock. *)
Definition always_deadlocks {A} (func : M A) : Prop :=
  forall w, exists d w',
    func w = (Raised (OperationalError d), w')
    /\ str_contains "deadlock" (str_lower d) = true.

(** The number of commits sent to the database. *)
Definition commits (t : list event) : nat :=
  length (List.filter (fun e => match e with EvDb COMMIT => true | _ => false end) t).

(** The exceptions an operation can raise: [raises_only P m] says that
    every exception [m] raises satisfies [P]. *)
Definition raises_only {A} (P : exn -> bool) (m : M A) : Prop :=
  forall w e w', m w = (Raised e, w') -> P e = true.

(** The two errors of the pagination preconditions. *)
Definition invalid_argument (e : exn) : bool :=
  match e with
  | ValueError m =>
      String.eqb m "skip must be non-negative" || String.eqb m "limit must be positive"
  | _ => false
  end.

(** What the read operations can raise: a store error, or the
    [ValueError] of [deserialize_value]. *)
Definition store_or_decode_error (e : exn) : bool :=
  match e with
  | OperationalError _ => true
  | ValueError m => String.eqb m "Could not deserialize value"
  | _ => false
  end.

(** A persisted entity used in examples. *)
Definition carol : User.t :=
  User.mk Persistent (PyInt 7) (PyStr "carol@x.com") (PyStr "carol")
          (PyStr "$argon2id$v=19$secret") (PyStr "Carol") (PyBool true) (PyBool false)
          (PyDatetime "2024-02-19 12:00:00+00:00") (PyDatetime "2024-02-19 12:00:00+00:00").

(** The cache entry of [u] with its version tag replaced by [v]. *)
Definition tagged (v : string) (u : User.t) : gmap string pyval :=
  <["_cache_version" := PyStr v]> (_user_to_dict u).

(** The instance [get_user] builds from the cache entry of [u]: the
    timestamps are the printed ones and no credential is set. *)
Definition rebuilt (u : User.t) : User.t :=
  User.mk Transient (User.id u) (User.email u) (User.username u) PyNone
          (User.full_name u) (User.is_active u) (User.is_superuser u)
          (PyStr (py_str (User.created_at u))) (PyStr (py_str (User.updated_at u))).

(** The column types of table [user]. *)
Definition row_ok (u : User.t) : bool :=
  match User.id u, User.email u, User.username u, User.is_active u,
        User.is_superuser u, User.created_at u, User.updated_at u with
  | PyInt _, PyStr _, PyStr _, PyBool _, PyBool _, PyDatetime _, PyDatetime _ =>
      match User.full_name u with PyStr _ | PyNone => true | _ => false end
  | _, _, _, _, _, _, _ => false
  end.

(** The events an operation appended to the trace of [w]. *)
Definition events_of {A} (m : M A) (w : World) : list event :=
  drop (length (trace w)) (trace (snd (m w))).

Definition is_select (e : event) : bool :=
  match e with EvDb (SELECT _) => true | _ => false end.

Definition is_cache_write (e : event) : bool :=
  match e with EvRedis (SETEX _ _) | EvRedis (EXEC _) => true | _ => false end.





(** A world whose Redis holds one page of the user list. *)
Definition world_with_page : World :=
  set_redis {[ "users:list:0:100" := mkEntry (Json (PyList [PyDict (_user_to_dict carol)])) 300 ]}
            empty_world.

(** A world that persists [alice] under id 1 and whose Redis holds, under
    [user:1], text that is not a JSON document. *)
Definition world_with_garbage : World :=
  set_redis {[ "user:1" := mkEntry (Text "{'id': 1") 3600 ]}
            (snd (request (create_user alice) empty_world)).

(** The row that [create_user alice] persists in an empty store. *)
Definition alice_row : User.t :=
  User.mk Persistent (PyInt 1) (PyStr "a@x.com") (PyStr "alice")
          (PyStr "$argon2id$password1") (PyStr "Alice") (PyBool true) (PyBool false)
          (PyDatetime "2024-02-19 12:00:00+00:00") (PyDatetime "2024-02-19 12:00:00+00:00").

(** [alice] as [create_user] holds her before the commit: no key and no
    timestamps yet. *)
Definition alice_pending : User.t :=
  User.mk Pending PyNone (PyStr "a@x.com") (PyStr "alice")
          (PyStr "$argon2id$password1") (PyStr "Alice") (PyBool true) (PyBool false)
          PyNone PyNone.

(** The store after [alice] and [bob] have been created. *)
Definition two_users : World :=
  snd (request (create_user bob) (snd (request (create_user alice) empty_world))).

(** An update of the email alone. *)
Definition new_email (e : string) : UserUpdate :=
  mkUserUpdate (Some e) None None None None None.

(** The world after [create_user alice], and after one more
    [get_user_by_email]. *)
Definition after_create : World := snd (request (create_user alice) empty_world).
Definition after_read : World :=
  snd (request (get_user_by_email "a@x.com") after_create).

(** The world after [create_user alice] with, under [user:1], the cache
    entry of the persisted row tagged with version [v]. *)
Definition world_tagged (v : string) : World :=
  set_redis {[ "user:1" := mkEntry (Json (PyDict (tagged v alice_row))) 3600 ]}
            (set_session [] [] [] false after_create).

(** A run from [w] to [w'] that sent the events [evs] and wrote no cache
    entry: no [SETEX] and no pipeline among the events, and every key of
    Redis holds what it held or nothing. *)
Definition quiet_by (evs : list event) (w w' : World) : Prop :=
  trace w' = (trace w ++ evs)%list
  /\ forallb (fun e => negb (is_cache_write e)) evs = true
  /\ (forall k, redis w' !! k = redis w !! k \/ redis w' !! k = None)
  /\ table w' = table w.





(** What a stored value means to a read whose decoder is [f]: an answer,
    an entry to evict, nothing, or a failure. *)
Inductive lookup_result (X : Type) : Type :=
| Answer (x : X)
| Unusable
| Nothing
| Fails (e : exn).
Arguments Answer {X} x.
Arguments Unusable {X}.
Arguments Nothing {X}.
Arguments Fails {X} e.

Definition cached_answer {X} (f : pyval -> outcome X) (held : option stored)
    : lookup_result X :=
  match held with
  | Some (Json v) =>
      if py_truthy v then
        match f v with
        | Ok x => Answer x
        | Raised e => if is_TypeError e || is_ValueError e then Unusable else Fails e
        end
      else Nothing
  | Some (Text s) =>
      if String.eqb s "" then Nothing
      else Fails (ValueError "Could not deserialize value")
  | None => Nothing
  end.

(** Every run of [m] relates the world it starts in to the world it ends
    in by [R]. *)
Definition steps (R : World -> World -> Prop) {A} (m : M A) : Prop :=
  forall w r w', m w = (r, w') -> R w w'.

(** From [w] to [w'] the trace has only grown, and a Redis that had no
    fault planned has none planned. *)
Definition onward (w w' : World) : Prop :=
  (exists evs, trace w' = (trace w ++ evs)%list)
  /\ (redis_faults w = [] -> redis_faults w' = []).

(** The entity [get_user] builds from a cached value, when the value is
    valid and the constructor accepts it. *)
Definition usable_hit (v : pyval) : option User.t :=
  if _validate_cache_data v then
    match v with
    | PyDict d =>
        match fst (User_init (delete "_cache_version" d) empty_world) with
        | Ok u => Some u
        | Raised _ => None
        end
    | _ => None
    end
  else None.


(** A commit that dead-locks while the database plans a deadlock for it,
    and passes otherwise (the [commit] of the test-suite's mocked session
    with a list of side effects). *)
Definition flaky_commit : M unit := Db.db_call COMMIT.

(** A world whose database dead-locks on its next two round trips. *)
Definition two_deadlocks : World :=
  set_db_faults [Some "Deadlock found"; Some "Deadlock found"] empty_world.

(** The world after [create_user alice], with nothing under [user:1]. *)
Definition world_without_entry : World :=
  set_redis (delete "user:1" (redis after_create)) after_create.

(** From [w] to [w'] the database is untouched: same rows, same next id,
    and nothing more staged in the session. *)
Definition same_store (w w' : World) : Prop :=
  table w' = table w
  /\ next_id w' = next_id w
  /\ sess_new w' = sess_new w
  /\ sess_dirty w' = sess_dirty w
  /\ sess_deleted w' = sess_deleted w.

(** The database answers and the session has nothing staged. *)
Definition clean (w : World) : Prop :=
  db_faults w = [] /\ sess_new w = [] /\ sess_dirty w = [] /\ sess_deleted w = [].

(** Run in a clean world, [m] leaves the world clean and the table as it
    was, and it raises no [OperationalError]. *)
Definition db_quiet {A} (m : M A) : Prop :=
  forall w r w',
    clean w ->
    m w = (r, w') ->
    clean w' /\ table w' = table w /\ next_id w' = next_id w
    /\ (forall e, r = Raised e -> is_OperationalError e = false).

(** From [w] to [w'] nothing of the database side has changed: the rows,
    the next id, the fault plan of the database, the session's unit of
    work and transaction, the clock and the hash function. *)
Definition db_side_kept (w w' : World) : Prop :=
  table w' = table w /\ next_id w' = next_id w /\ db_faults w' = db_faults w
  /\ sess_new w' = sess_new w /\ sess_dirty w' = sess_dirty w
  /\ sess_deleted w' = sess_deleted w /\ in_transaction w' = in_transaction w
  /\ now w' = now w /\ pwd_hash w' = pwd_hash w.

(** The row that [create_user] inserts in world [w]: the attributes the
    function sets, the generated key and the column defaults. *)
Definition inserted_row (user_data : UserCreate) (w : World) : User.t :=
  User.mk Persistent (PyInt (next_id w)) (PyStr (str_lower (uc_email user_data)))
    (PyStr (uc_username user_data)) (PyStr (pwd_hash w (uc_password user_data)))
    (py_opt_str (uc_full_name user_data)) (PyBool (uc_is_active user_data))
    (PyBool (uc_is_superuser user_data)) (PyDatetime (now w)) (PyDatetime (now w)).

(** [m] fails with [e] over the rows [rows]: run in a fresh session with
    the database reachable, it raises [e] and leaves the rows and a fresh
    session. *)
Definition fails_with {A} (e : exn) (rows : list User.t) (m : M A) : Prop :=
  forall w, clean w -> table w = rows ->
    exists w', m w = (Raised e, w') /\ clean w' /\ table w' = rows.

(** ** The route layer ([app/routes/user.py]) *)

(** What a handler hands to the framework: the value it returns or the
    [HTTPException] it raises; [Unprocessable] is the framework's answer
    (status 422) to a parameter outside its [Query] bounds, given without
    calling the handler.  Any other exception goes through the handler and
    stays an exception of the monad. *)
Inductive response (A : Type) : Type :=
| Returned (a : A)
| HTTPException (status_code : Z) (detail : string)
| Unprocessable.
Arguments Returned {A} a.
Arguments HTTPException {A} status_code detail.
Arguments Unprocessable {A}.

Module Routes.

Definition create_user (user_data : UserCreate) : M (response User.t) :=
  request
    (try_except
       (u ← create_user user_data; ret (Returned u))
       is_ValueError
       (fun e => ret (HTTPException 400 (exn_str e)))).

Definition get_user (user_id : Z) : M (response User.t) :=
  request
    (db_user ← get_user user_id;
     match db_user with
     | None => ret (HTTPException 404 "User not found")
     | Some u => ret (Returned u)
     end).

(** [skip: int = Query(0, ge=0)], [limit: int = Query(100, ge=1, le=100)]. *)
Definition get_users (skip limit : Z) : M (response (list User.t)) :=
  if (skip <? 0) || (limit <? 1) || (100 <? limit) then ret Unprocessable
  else request (us ← get_users skip limit; ret (Returned us)).

Definition update_user (user_id : Z) (user_data : UserUpdate) : M (response User.t) :=
  request
    (try_except
       (db_user ← update_user user_id user_data;
        match db_user with
        | None => ret (HTTPException 404 "User not found")
        | Some u => ret (Returned u)
        end)
       is_ValueError
       (fun e => ret (HTTPException 400 (exn_str e)))).

Definition delete_user (user_id : Z) : M (response unit) :=
  request
    (deleted ← delete_user user_id;
     if deleted : bool then ret (Returned tt)
     else ret (HTTPException 404 "User not found")).

End Routes.

(** The world a request leaves when all it did was to look [user:{id}] up
    in Redis. *)
Definition after_lookup (user_id : Z) (w : World) : World :=
  set_session [] [] [] false
    (log (EvRedis (GET (USER_KEY (PyInt user_id)))) (set_session [] [] [] false w)).


(** A pattern made of literal characters, [*] and [?]: it has neither of
    the two other constructs of the patterns of Redis, the bracket class and
    the escape by a backslash. *)
Definition glob_plain (pat : string) : bool :=
  forallb (fun c => negb (Ascii.eqb c "[" || Ascii.eqb c "092"))
          (list_ascii_of_string pat).


(** ** The operations that write, in sequence *)

(** A request that writes. *)
Inductive op : Type :=
| Create (user_data : UserCreate)
| Update (user_id : Z) (user_data : UserUpdate)
| Delete (user_id : Z).

Definition run_op (o : op) (w : World) : World :=
  match o with
  | Create user_data => snd (request (create_user user_data) w)
  | Update user_id user_data => snd (request (update_user user_id user_data) w)
  | Delete user_id => snd (request (delete_user user_id) w)
  end.

Definition run_ops (ops : list op) (w : World) : World :=
  foldl (fun w o => run_op o w) w ops.








(** The row that [create_user bob] persists after [alice]. *)
Definition bob_row : User.t :=
  User.mk Persistent (PyInt 2) (PyStr "b@x.com") (PyStr "bob")
          (PyStr "$argon2id$password2") PyNone (PyBool true) (PyBool false)
          (PyDatetime "2024-02-19 12:00:00+00:00") (PyDatetime "2024-02-19 12:00:00+00:00").

(** * Properties *)

(** ** The monad *)

Lemma bind_ok {A B} (m : M A) (k : A -> M B) w a w' :
  m w = (Ok a, w') -> (x ← m; k x) w = k a w'.
Proof. intros H. unfold mbind, M_bind, bind. rewrite H. reflexivity. Qed.

Lemma bind_raised {A B} (m : M A) (k : A -> M B) w e w' :
  m w = (Raised e, w') -> (x ← m; k x) w = (Raised e, w').
Proof. intros H. unfold mbind, M_bind, bind. rewrite H. reflexivity. Qed.

Lemma try_except_ok {A} (m : M A) h k w a w' :
  m w = (Ok a, w') -> try_except m h k w = (Ok a, w').
Proof. intros H. unfold try_except. rewrite H. reflexivity. Qed.

Lemma try_except_caught {A} (m : M A) h k w e w' :
  m w = (Raised e, w') -> h e = true -> try_except m h k w = k e w'.
Proof. intros H He. unfold try_except. rewrite H, He. reflexivity. Qed.

Lemma try_except_passed {A} (m : M A) h k w e w' :
  m w = (Raised e, w') -> h e = false -> try_except m h k w = (Raised e, w').
Proof. intros H He. unfold try_except. rewrite H, He. reflexivity. Qed.

(** ** String matching *)

Example ilike_ignores_case : sql_ilike "a@x.com" "A@X.COM" = true.
Proof. vm_compute. reflexivity. Qed.

Example ilike_underscore_is_a_wildcard : sql_ilike "axb@x.com" "a_b@x.com" = true.
Proof. vm_compute. reflexivity. Qed.

Example ilike_other_address : sql_ilike "b@x.com" "a@x.com" = false.
Proof. vm_compute. reflexivity. Qed.

Example glob_list_keys :
  redis_glob "users:list:*:*" "users:list:0:100" = true
  /\ redis_glob "users:list:*:*" "user:1" = false.
Proof. split; vm_compute; reflexivity. Qed.

Example deadlock_is_found_in_any_case :
  str_contains "deadlock" (str_lower "(1213, 'Deadlock found when trying to get lock')") = true.
Proof. vm_compute. reflexivity. Qed.

(** ** The retry wrapper *)

Section Retry.
Context {A : Type}.
Variable func : M A.

Lemma retry_loop_deadlock_step budget retries w d w' :
  func w = (Raised (OperationalError d), w') ->
  str_contains "deadlock" (str_lower d) = true ->
  retries < MAX_RETRIES ->
  retry_loop (S budget) retries func w
  = retry_loop budget (retries + 1) func (slept (retries + 1) w').
Proof.
  intros Hf Hd Hr. simpl.
  rewrite (try_except_caught _ _ _ _ _ _ Hf eq_refl).
  simpl. rewrite Hd. simpl.
  destruct (Z.geb_spec retries MAX_RETRIES) as [Hge | _]; [lia |].
  reflexivity.
Qed.

Lemma retry_loop_exhausted budget retries w e w' :
  func w = (Raised e, w') ->
  MAX_RETRIES <= retries ->
  retry_loop budget retries func w = (Raised e, w').
Proof.
  intros Hf Hr.
  assert (Hgeb : (retries >=? MAX_RETRIES) = true).
  { destruct (Z.geb_spec retries MAX_RETRIES); [reflexivity | lia]. }
  destruct budget; simpl; unfold try_except; rewrite Hf;
    destruct (is_OperationalError e); try reflexivity;
    rewrite Hgeb; reflexivity.
Qed.

Lemma retry_loop_not_deadlock budget retries w d w' :
  func w = (Raised (OperationalError d), w') ->
  str_contains "deadlock" (str_lower d) = false ->
  retry_loop budget retries func w = (Raised (OperationalError d), w').
Proof.
  intros Hf Hd.
  destruct budget; simpl; unfold try_except; rewrite Hf; simpl; rewrite Hd;
    rewrite orb_true_r; reflexivity.
Qed.

Lemma retry_loop_success budget retries w a w' :
  func w = (Ok a, w') -> retry_loop budget retries func w = (Ok a, w').
Proof.
  intros Hf. destruct budget; simpl; unfold try_except; rewrite Hf; reflexivity.
Qed.

(** The budget of [with_transaction_retry] is never the reason to stop:
    a larger one gives the same run. *)
Lemma retry_loop_budget_enough budget retries w :
  (Z.to_nat (MAX_RETRIES - retries) <= budget)%nat ->
  retry_loop (S budget) retries func w = retry_loop budget retries func w.
Proof.
  revert retries w. induction budget as [| budget IH]; intros retries w Hb.
  - assert (Hr : MAX_RETRIES <= retries) by lia.
    destruct (func w) as [[a | e] w'] eqn:Hf.
    + rewrite !(retry_loop_success _ _ _ _ _ Hf). reflexivity.
    + rewrite !(retry_loop_exhausted _ _ _ _ _ Hf Hr). reflexivity.
  - destruct (func w) as [[a | e] w'] eqn:Hf.
    + rewrite !(retry_loop_success _ _ _ _ _ Hf). reflexivity.
    + destruct (Z_lt_le_dec retries MAX_RETRIES) as [Hlt | Hge].
      * destruct e as [m | m | m | d | d | m];
          try (cbn [retry_loop]; unfold try_except; rewrite Hf; reflexivity).
        destruct (str_contains "deadlock" (str_lower d)) eqn:Hd.
        -- rewrite (retry_loop_deadlock_step (S budget) _ _ _ _ Hf Hd Hlt).
           rewrite (retry_loop_deadlock_step budget _ _ _ _ Hf Hd Hlt).
           apply IH. lia.
        -- rewrite !(retry_loop_not_deadlock _ _ _ _ _ Hf Hd). reflexivity.
      * rewrite !(retry_loop_exhausted _ _ _ _ _ Hf Hge). reflexivity.
Qed.
End Retry.

(** C2 (as amended).  When every execution of the wrapped operation raises
    a store error whose detail mentions a deadlock, [with_transaction_retry]
    executes the operation exactly four times (the first attempt and
    [MAX_RETRIES] = 3 retries), sleeping [RETRY_BACKOFF] x k before the k-th
    retry (k = 1, 2, 3), and then propagates the error of the fourth
    execution unchanged. *)
Theorem with_transaction_retry_deadlock_bound {A} (func : M A) (w : World) :
  always_deadlocks func ->
  exists e1 w1 e2 w2 e3 w3 e4 w4,
    func w = (Raised e1, w1)
    /\ func (slept 1 w1) = (Raised e2, w2)
    /\ func (slept 2 w2) = (Raised e3, w3)
    /\ func (slept 3 w3) = (Raised e4, w4)
    /\ with_transaction_retry func w = (Raised e4, w4).
Proof.
  intros H.
  destruct (H w) as (d1 & w1 & Hf1 & Hd1).
  destruct (H (slept 1 w1)) as (d2 & w2 & Hf2 & Hd2).
  destruct (H (slept 2 w2)) as (d3 & w3 & Hf3 & Hd3).
  destruct (H (slept 3 w3)) as (d4 & w4 & Hf4 & Hd4).
  exists (OperationalError d1), w1, (OperationalError d2), w2,
         (OperationalError d3), w3, (OperationalError d4), w4.
  repeat split; try assumption.
  unfold with_transaction_retry.
  change (Z.to_nat MAX_RETRIES) with 3%nat.
  rewrite (retry_loop_deadlock_step func 2 0 w d1 w1 Hf1 Hd1) by (unfold MAX_RETRIES; lia).
  change (0 + 1) with 1.
  rewrite (retry_loop_deadlock_step func 1 1 _ d2 w2 Hf2 Hd2) by (unfold MAX_RETRIES; lia).
  change (1 + 1) with 2.
  rewrite (retry_loop_deadlock_step func 0 2 _ d3 w3 Hf3 Hd3) by (unfold MAX_RETRIES; lia).
  change (2 + 1) with 3.
  apply retry_loop_exhausted; [exact Hf4 | unfold MAX_RETRIES; lia].
Qed.

Lemma deadlocked_commit_always_deadlocks : always_deadlocks deadlocked_commit.
Proof.
  intros w. eexists _, _. split; [reflexivity | vm_compute; reflexivity].
Defined.

Lemma with_transaction_retry_deadlock_bound_witness :
  exists e1 w1 e2 w2 e3 w3 e4 w4,
    deadlocked_commit empty_world = (Raised e1, w1)
    /\ deadlocked_commit (slept 1 w1) = (Raised e2, w2)
    /\ deadlocked_commit (slept 2 w2) = (Raised e3, w3)
    /\ deadlocked_commit (slept 3 w3) = (Raised e4, w4)
    /\ with_transaction_retry deadlocked_commit empty_world = (Raised e4, w4).
Proof.
  apply (with_transaction_retry_deadlock_bound deadlocked_commit empty_world).
  intros w. eexists _, _. split; [reflexivity | vm_compute; reflexivity].
Defined.

(** C2 (as stated) fails: the wrapper runs a dead-locking operation four
    times, not three.  The run below counts the commits of
    [deadlocked_commit]. *)
Lemma with_transaction_retry_runs_four_times :
  always_deadlocks deadlocked_commit
  /\ fst (with_transaction_retry deadlocked_commit empty_world)
     = Raised (OperationalError "Deadlock found when trying to get lock")
  /\ trace (snd (with_transaction_retry deadlocked_commit empty_world))
     = [EvDb COMMIT; EvSleep (Qmult RETRY_BACKOFF (inject_Z 1));
        EvDb COMMIT; EvSleep (Qmult RETRY_BACKOFF (inject_Z 2));
        EvDb COMMIT; EvSleep (Qmult RETRY_BACKOFF (inject_Z 3));
        EvDb COMMIT]
  /\ commits (trace (snd (with_transaction_retry deadlocked_commit empty_world))) = 4%nat
  /\ commits (trace (snd (with_transaction_retry deadlocked_commit empty_world))) <> 3%nat.
Proof.
  split; [exact deadlocked_commit_always_deadlocks |].
  repeat split; try (vm_compute; reflexivity).
  vm_compute. discriminate.
Qed.

(** ** The cache-entry validator *)

Lemma validate_not_dict (v : pyval) :
  (forall d, v <> PyDict d) -> _validate_cache_data v = false.
Proof. intros H. destruct v; try reflexivity. contradiction (H d eq_refl). Qed.

Lemma field_some (d : gmap string pyval) k v : d !! k = Some v -> field d k = v.
Proof. intros H. unfold field. rewrite H. reflexivity. Qed.

(** What [_validate_cache_data] checks of a dictionary, in the order of
    the code: the presence of the required fields, then the four types,
    then the version. *)
Lemma validate_cache_data_spec (d : gmap string pyval) :
  _validate_cache_data (PyDict d) = true <->
  (forall f, In f required_fields -> is_Some (d !! f))
  /\ (exists v, d !! "id" = Some v /\ isinstance_int v = true)
  /\ (exists s, d !! "email" = Some (PyStr s))
  /\ (exists s, d !! "username" = Some (PyStr s))
  /\ (d !! "_cache_version" = Some (PyStr "1.0")
      \/ d !! "_cache_version" = Some (PyStr "1.1")).
Proof.
  unfold _validate_cache_data. split.
  - intros H.
    destruct (forallb _ required_fields) eqn:Hall; [| discriminate H].
    rewrite forallb_forall in Hall.
    assert (Hin : forall f, In f required_fields -> is_Some (d !! f)).
    { intros f Hf. specialize (Hall f Hf). apply bool_decide_eq_true in Hall. exact Hall. }
    split; [exact Hin |].
    cbn [negb] in H.
    destruct (Hin "id") as [vid Hid]; [cbn; tauto |].
    destruct (Hin "email") as [vem Hem]; [cbn; tauto |].
    destruct (Hin "username") as [vun Hun]; [cbn; tauto |].
    destruct (Hin "_cache_version") as [vcv Hcv]; [cbn; tauto |].
    rewrite (field_some _ _ _ Hid), (field_some _ _ _ Hem),
            (field_some _ _ _ Hun), (field_some _ _ _ Hcv) in H.
    destruct (isinstance_int vid) eqn:Hint; [| discriminate H].
    destruct vem as [| | | | sem | | |]; try discriminate H.
    destruct vun as [| | | | sun | | |]; try discriminate H.
    destruct vcv as [| | | | scv | | |]; try discriminate H.
    cbn in H.
    repeat split; eauto.
    destruct (String.eqb_spec scv "1.0") as [-> | _]; [left; exact Hcv |].
    destruct (String.eqb_spec scv "1.1") as [-> | _]; [right; exact Hcv |].
    discriminate H.
  - intros (Hin & (vid & Hid & Hint) & (sem & Hem) & (sun & Hun) & Hcv).
    assert (Hall : forallb (fun f => bool_decide (is_Some (d !! f))) required_fields = true).
    { apply forallb_forall. intros f Hf. apply bool_decide_eq_true. auto. }
    rewrite Hall. cbn [negb].
    rewrite (field_some _ _ _ Hid), (field_some _ _ _ Hem), (field_some _ _ _ Hun), Hint.
    destruct Hcv as [Hcv | Hcv]; rewrite (field_some _ _ _ Hcv); reflexivity.
Qed.

(** An entry that lacks a required field is invalid. *)
Lemma validate_missing_field (d : gmap string pyval) f :
  In f required_fields -> d !! f = None -> _validate_cache_data (PyDict d) = false.
Proof.
  intros Hf Hnone.
  destruct (_validate_cache_data (PyDict d)) eqn:Hv; [| reflexivity].
  apply validate_cache_data_spec in Hv.
  destruct Hv as (Hin & _). destruct (Hin f Hf) as [v Hv]. congruence.
Qed.

(** An entry with any other version value is invalid. *)
Lemma validate_other_version (d : gmap string pyval) v :
  d !! "_cache_version" = Some v -> v <> PyStr "1.0" -> v <> PyStr "1.1" ->
  _validate_cache_data (PyDict d) = false.
Proof.
  intros Hcv H10 H11.
  destruct (_validate_cache_data (PyDict d)) eqn:Hv; [| reflexivity].
  apply validate_cache_data_spec in Hv.
  destruct Hv as (_ & _ & _ & _ & [H | H]); congruence.
Qed.

(** C7 (as amended).  For every dictionary [d], [_validate_cache_data]
    answers true if and only if [d] has the nine fields [id], [email],
    [username], [full_name], [is_active], [is_superuser], [created_at],
    [updated_at] and [_cache_version], [id] is an integer or a boolean
    ([isinstance(_, int)] holds of both), [email] and [username] are
    strings, and the version tag is the string ["1.0"] or ["1.1"]. *)
Theorem validate_cache_data_characterization (d : gmap string pyval) :
  _validate_cache_data (PyDict d) = true <->
  ((exists z, d !! "id" = Some (PyInt z)) \/ (exists b, d !! "id" = Some (PyBool b)))
  /\ (exists s, d !! "email" = Some (PyStr s))
  /\ (exists s, d !! "username" = Some (PyStr s))
  /\ is_Some (d !! "full_name")
  /\ is_Some (d !! "is_active")
  /\ is_Some (d !! "is_superuser")
  /\ is_Some (d !! "created_at")
  /\ is_Some (d !! "updated_at")
  /\ (d !! "_cache_version" = Some (PyStr "1.0")
      \/ d !! "_cache_version" = Some (PyStr "1.1")).
Proof.
  rewrite validate_cache_data_spec. split.
  - intros (Hin & (v & Hid & Hint) & Hem & Hun & Hcv).
    split; [| split; [exact Hem | split; [exact Hun |]]].
    + destruct v; try discriminate Hint; [right | left]; eauto.
    + repeat split; try exact Hcv; apply Hin; cbn; tauto.
  - intros (Hid & Hem & Hun & Hfn & Hia & His & Hca & Hua & Hcv).
    split; [| split; [| split; [exact Hem | split; [exact Hun | exact Hcv]]]].
    + intros f Hf. cbn in Hf.
      destruct Hf as [<- | [<- | [<- | [<- | [<- | [<- | [<- | [<- | [<- | []]]]]]]]]];
        try assumption.
      * destruct Hid as [[z Hz] | [b Hb]]; eauto.
      * destruct Hem as [x Hx]; eauto.
      * destruct Hun as [x Hx]; eauto.
      * destruct Hcv as [Hx | Hx]; eauto.
    + destruct Hid as [[z Hz] | [b Hb]]; eauto.
Qed.

(** C7 (the claim as stated fails).  The projection of [carol] with the
    boolean [True] as [id] is valid for [_validate_cache_data], and its [id]
    is not an integer. *)
Lemma validate_cache_data_accepts_a_boolean_id :
  _validate_cache_data (PyDict (<["id" := PyBool true]> (_user_to_dict carol))) = true
  /\ (<["id" := PyBool true]> (_user_to_dict carol)) !! "id" = Some (PyBool true)
  /\ ~ (exists z, (<["id" := PyBool true]> (_user_to_dict carol)) !! "id" = Some (PyInt z)).
Proof.
  split; [vm_compute; reflexivity |]. split; [vm_compute; reflexivity |].
  intros [z Hz]. vm_compute in Hz. discriminate Hz.
Qed.

(** Python's [True] passes [isinstance(_, int)]: such an id is accepted. *)
Example validate_accepts_bool_id :
  _validate_cache_data (PyDict (<["id" := PyBool true]> (_user_to_dict carol))) = true.
Proof. vm_compute. reflexivity. Qed.

(** The entry of the test-suite with a field missing, and one with an
    unsupported version. *)
Example validate_rejects_missing_fields :
  _validate_cache_data
    (PyDict (list_to_map [("id", PyInt 1); ("email", PyStr "test@example.com");
                          ("_cache_version", PyStr "1.1")])) = false.
Proof. vm_compute. reflexivity. Qed.

Example validate_rejects_old_version :
  _validate_cache_data (PyDict (tagged "0.8" carol)) = false.
Proof. vm_compute. reflexivity. Qed.

(** ** The cache projection of an entity *)

Lemma user_to_dict_lookup (u : User.t) k v :
  _user_to_dict u !! k = Some v ->
  (k = "id" /\ v = User.id u)
  \/ (k = "email" /\ v = User.email u)
  \/ (k = "username" /\ v = User.username u)
  \/ (k = "full_name" /\ v = User.full_name u)
  \/ (k = "is_active" /\ v = User.is_active u)
  \/ (k = "is_superuser" /\ v = User.is_superuser u)
  \/ (k = "created_at" /\ v = PyStr (py_str (User.created_at u)))
  \/ (k = "updated_at" /\ v = PyStr (py_str (User.updated_at u)))
  \/ (k = "_cache_version" /\ v = PyStr "1.1").
Proof.
  unfold _user_to_dict. cbn [list_to_map foldr fst snd].
  intros H.
  repeat (rewrite lookup_insert in H; case_decide as Hk;
          [ injection H as <-; subst k;
            solve [ repeat (first [ left; split; reflexivity | right ]);
                    split; reflexivity ] | clear Hk ]).
  rewrite lookup_empty in H. discriminate H.
Qed.

(** C8 (as amended).  For every entity, the cache entry that
    [_user_to_dict] builds has exactly the nine fields [id], [email],
    [username], [full_name], [is_active], [is_superuser], [created_at],
    [updated_at] and [_cache_version]; it has no [hashed_password] field and
    it does not depend on the entity's secret credential. *)
Theorem user_to_dict_omits_credential (u : User.t) :
  (forall k, is_Some (_user_to_dict u !! k) <-> In k required_fields)
  /\ _user_to_dict u !! "hashed_password" = None
  /\ (forall h, _user_to_dict (User.setattr u "hashed_password" h) = _user_to_dict u).
Proof.
  split; [| split].
  - intros k. split.
    + intros [v Hv]. apply user_to_dict_lookup in Hv. cbn.
      destruct Hv as [[-> _] | [[-> _] | [[-> _] | [[-> _] | [[-> _] |
                     [[-> _] | [[-> _] | [[-> _] | [-> _]]]]]]]]]; tauto.
    + cbn. intros Hk.
      destruct Hk as [<- | [<- | [<- | [<- | [<- | [<- | [<- | [<- | [<- | []]]]]]]]]];
        vm_compute; eauto.
  - destruct (_user_to_dict u !! "hashed_password") as [v |] eqn:Hv; [| reflexivity].
    apply user_to_dict_lookup in Hv.
    destruct Hv as [[Hk _] | [[Hk _] | [[Hk _] | [[Hk _] | [[Hk _] |
                   [[Hk _] | [[Hk _] | [[Hk _] | [Hk _]]]]]]]]]; discriminate Hk.
  - intros h. reflexivity.
Qed.

(** C8 (as stated) fails: no field of the entry built for [carol] holds her
    password hash. *)
Lemma user_to_dict_has_no_credential :
  ~ (forall u : User.t, exists k, _user_to_dict u !! k = Some (User.hashed_password u)).
Proof.
  intros H. destruct (H carol) as [k Hk].
  apply user_to_dict_lookup in Hk. cbn in Hk.
  destruct Hk as [[_ Hv] | [[_ Hv] | [[_ Hv] | [[_ Hv] | [[_ Hv] |
                 [[_ Hv] | [[_ Hv] | [[_ Hv] | [_ Hv]]]]]]]]]; discriminate Hv.
Qed.

(** ** Which exceptions the operations raise *)

Lemma raises_only_ret {A} P (a : A) : raises_only P (ret a).
Proof. intros w e w' H. discriminate H. Qed.

Lemma raises_only_raise {A} (P : exn -> bool) e :
  P e = true -> raises_only P (@raise A e).
Proof. intros HP w e' w' H. injection H as <- _. exact HP. Qed.

Lemma raises_only_bind {A B} P (m : M A) (k : A -> M B) :
  raises_only P m -> (forall a, raises_only P (k a)) -> raises_only P (m ≫= k).
Proof.
  intros Hm Hk w e w' H. unfold mbind, M_bind, bind in H.
  destruct (m w) as [[a | e1] w1] eqn:E.
  - exact (Hk a _ _ _ H).
  - injection H as <- <-. exact (Hm _ _ _ E).
Qed.

Lemma raises_only_try {A} (P : exn -> bool) (body : M A) h handler :
  raises_only (fun e => P e || h e) body ->
  (forall e, h e = true -> raises_only P (handler e)) ->
  raises_only P (try_except body h handler).
Proof.
  intros Hb Hh w e w' H. unfold try_except in H.
  destruct (body w) as [[a | e1] w1] eqn:E; [discriminate H |].
  destruct (h e1) eqn:He.
  - exact (Hh e1 He _ _ _ H).
  - injection H as <- <-. specialize (Hb _ _ _ E). cbn in Hb.
    rewrite He, orb_false_r in Hb. exact Hb.
Qed.

Lemma raises_only_weaken {A} (P Q : exn -> bool) (m : M A) :
  raises_only P m -> (forall e, P e = true -> Q e = true) -> raises_only Q m.
Proof. intros H HPQ w e w' E. apply HPQ. exact (H _ _ _ E). Qed.

Lemma raises_only_modify P f : raises_only P (modify f).
Proof. intros w e w' H. discriminate H. Qed.

Lemma raises_only_get_world P : raises_only P get_world.
Proof. intros w e w' H. discriminate H. Qed.

Lemma raises_only_redis_call (P : exn -> bool) c :
  (forall m, P (RedisError m) = true) -> raises_only P (Cache.redis_call c).
Proof.
  intros HP w e w' H. unfold Cache.redis_call in H.
  destruct (redis_faults w) as [| [|] rest]; try discriminate H.
  injection H as <- _. apply HP.
Qed.

Lemma raises_only_db_call (P : exn -> bool) c :
  (forall d, P (OperationalError d) = true) -> raises_only P (Db.db_call c).
Proof.
  intros HP w e w' H. unfold Db.db_call in H.
  destruct (db_faults w) as [| [d |] rest]; try discriminate H.
  injection H as <- _. apply HP.
Qed.

(** An exception is in the class at hand. *)
Ltac class_ok :=
  intros; cbn;
  solve [ reflexivity
        | repeat rewrite orb_true_r; reflexivity
        | auto using orb_true_r, orb_true_intro ].

(** Structural steps of a [raises_only] goal. *)
Ltac raises_step :=
  first
    [ apply raises_only_ret
    | apply raises_only_modify
    | apply raises_only_get_world
    | apply raises_only_raise; class_ok
    | apply raises_only_redis_call; class_ok
    | apply raises_only_db_call; class_ok
    | apply raises_only_bind; [| intros ? ]
    | apply raises_only_try; [| intros ? ? ]
    | match goal with
      | |- raises_only _ (if ?b then _ else _) => destruct b
      | |- raises_only _ (match ?x with _ => _ end) => destruct x
      end ].

Ltac raises_auto := repeat raises_step.

Lemma raises_only_try_reraise {A} (P : exn -> bool) (body : M A) h :
  raises_only P body -> raises_only P (try_except body h (fun e => raise e)).
Proof.
  intros Hb w e w' H. unfold try_except in H.
  destruct (body w) as [[a | e1] w1] eqn:E; [discriminate H |].
  destruct (h e1); injection H as <- _; exact (Hb _ _ _ E).
Qed.

Lemma raises_only_cache_get (P : exn -> bool) key :
  (forall m, P (RedisError m) = true) ->
  P (ValueError "Could not deserialize value") = true ->
  raises_only P (Cache.cache_get key).
Proof.
  intros HR HV. unfold Cache.cache_get.
  apply raises_only_try_reraise.
  unfold Cache.client_get, Cache.deserialize_value.
  repeat first
    [ apply raises_only_redis_call; exact HR
    | apply raises_only_raise; exact HV
    | raises_step ].
Qed.

Lemma raises_only_cache_set P key value expire :
  raises_only P (Cache.cache_set key value expire).
Proof.
  unfold Cache.cache_set, Cache.serialize_value, Cache.client_setex.
  raises_auto.
Qed.

Lemma raises_only_cache_delete P key : raises_only P (Cache.cache_delete key).
Proof. unfold Cache.cache_delete, Cache.client_delete. raises_auto. Qed.

Lemma raises_only_cache_multi_set P data expire :
  raises_only P (Cache.cache_multi_set data expire).
Proof. unfold Cache.cache_multi_set. raises_auto. Qed.

Lemma raises_only_cache_clear_pattern P pattern :
  raises_only P (Cache.cache_clear_pattern pattern).
Proof.
  unfold Cache.cache_clear_pattern, Cache.client_keys, Cache.client_delete.
  raises_auto.
Qed.

Lemma raises_only_User_init (P : exn -> bool) kwargs :
  (forall m, P (TypeError m) = true) -> raises_only P (User_init kwargs).
Proof.
  intros HP. unfold User_init.
  destruct (List.filter _ _); [apply raises_only_ret | apply raises_only_raise, HP].
Qed.

Lemma raises_only_User_of (P : exn -> bool) v :
  (forall m, P (TypeError m) = true) -> raises_only P (User_of v).
Proof.
  intros HP. destruct v; cbn [User_of];
    try (apply raises_only_raise, HP). apply raises_only_User_init, HP.
Qed.

Lemma raises_only_users_of (P : exn -> bool) v :
  (forall m, P (TypeError m) = true) -> raises_only P (users_of v).
Proof.
  intros HP. destruct v; cbn [users_of]; try (apply raises_only_raise, HP).
  induction l as [| x l IH]; cbn [users_of_items].
  - apply raises_only_ret.
  - apply raises_only_bind; [apply raises_only_User_of, HP |].
    intros u. apply raises_only_bind; [exact IH |]. intros us. apply raises_only_ret.
Qed.

Lemma raises_only_query_first (P : exn -> bool) what p :
  (forall d, P (OperationalError d) = true) -> raises_only P (Db.query_first what p).
Proof.
  intros HP. unfold Db.query_first.
  apply raises_only_bind; [apply raises_only_db_call, HP |].
  intros _. raises_auto.
Qed.

Lemma raises_only_query_page (P : exn -> bool) skip limit :
  (forall d, P (OperationalError d) = true) -> raises_only P (Db.query_page skip limit).
Proof.
  intros HP. unfold Db.query_page.
  apply raises_only_bind; [apply raises_only_db_call, HP |].
  intros _. raises_auto.
Qed.

(** Steps of a [raises_only] goal about the repository. *)
Ltac raises_repo :=
  repeat first
    [ apply raises_only_cache_set
    | apply raises_only_cache_delete
    | apply raises_only_cache_multi_set
    | apply raises_only_cache_clear_pattern
    | apply raises_only_cache_get; class_ok
    | apply raises_only_User_init; class_ok
    | apply raises_only_User_of; class_ok
    | apply raises_only_users_of; class_ok
    | apply raises_only_query_first; class_ok
    | apply raises_only_query_page; class_ok
    | raises_step ].

(** The three read operations raise nothing but a store error or the
    decoding error of [cache_get]: no [RedisError] leaves them. *)
Lemma get_user_raises user_id : raises_only store_or_decode_error (get_user user_id).
Proof. unfold get_user. raises_repo. Qed.

Lemma get_user_by_email_raises email :
  raises_only store_or_decode_error (get_user_by_email email).
Proof. unfold get_user_by_email. raises_repo. Qed.

Lemma get_users_raises skip limit :
  0 <= skip -> 0 < limit -> raises_only store_or_decode_error (get_users skip limit).
Proof.
  intros Hs Hl. unfold get_users.
  destruct (Z.ltb_spec skip 0); [lia |].
  destruct (Z.leb_spec limit 0); [lia |].
  raises_repo.
Qed.

(** ** Pagination preconditions *)

(** C9.  With [skip < 0] (whatever the limit) or [limit <= 0] (whatever the
    skip), [get_users] raises an invalid-argument [ValueError] and leaves
    the world as it was: no Redis command and no database statement has been
    sent.  With [skip >= 0] and [limit > 0] it raises no invalid-argument
    error. *)
Theorem get_users_pagination_preconditions (skip limit : Z) (w : World) :
  (skip < 0 ->
     get_users skip limit w = (Raised (ValueError "skip must be non-negative"), w))
  /\ (limit <= 0 ->
        exists e, invalid_argument e = true /\ get_users skip limit w = (Raised e, w))
  /\ (0 <= skip -> 0 < limit ->
        forall e w', get_users skip limit w = (Raised e, w') -> invalid_argument e = false).
Proof.
  split; [| split].
  - intros Hs. unfold get_users.
    destruct (Z.ltb_spec skip 0); [reflexivity | lia].
  - intros Hl. unfold get_users.
    destruct (Z.ltb_spec skip 0).
    + eexists. split; [| reflexivity]. reflexivity.
    + destruct (Z.leb_spec limit 0); [| lia].
      eexists. split; [| reflexivity]. reflexivity.
  - intros Hs Hl e w' H.
    pose proof (get_users_raises skip limit Hs Hl _ _ _ H) as Hc.
    destruct e as [m | m | m | m | m | m]; try reflexivity.
    cbn in Hc. apply String.eqb_eq in Hc. subst m. reflexivity.
Qed.

Lemma get_users_pagination_preconditions_witness :
  get_users (-1) 10 empty_world
    = (Raised (ValueError "skip must be non-negative"), empty_world)
  /\ (exists e, invalid_argument e = true
                /\ get_users 0 0 empty_world = (Raised e, empty_world))
  /\ (forall e w', get_users 0 100 empty_world = (Raised e, w') ->
                   invalid_argument e = false).
Proof.
  split; [| split].
  - apply (proj1 (get_users_pagination_preconditions (-1) 10 empty_world)). lia.
  - apply (proj1 (proj2 (get_users_pagination_preconditions 0 0 empty_world))). lia.
  - apply (proj2 (proj2 (get_users_pagination_preconditions 0 100 empty_world))); lia.
Defined.

(** ** Runs of the repository *)

Example create_then_read_trace :
  events_of (request (get_user_by_email "a@x.com"))
            (snd (request (create_user alice) empty_world))
  = [EvRedis (GET "user:email:a@x.com"); EvRedis (DEL ["user:email:a@x.com"]);
     EvDb (SELECT "email =="); EvRedis (SETEX "user:email:a@x.com" 3600);
     EvRedis (SETEX "user:1" 3600)].
Proof. vm_compute. reflexivity. Qed.

(** The constructor rejects the version tag of a cache entry, whatever the
    entity: [get_user] removes the tag before it calls the constructor,
    [get_user_by_email] and [get_users] do not. *)
Lemma User_of_projection_raises (u : User.t) (w : World) :
  User_of (PyDict (_user_to_dict u)) w
  = (Raised (TypeError "'_cache_version' is an invalid keyword argument for User"), w).
Proof. reflexivity. Qed.

(** C4 (the code at a failing input).  After [create_user alice] and one
    [get_user_by_email], the key [user:email:a@x.com] holds the projection
    that the repository wrote for the persisted row.  The next
    [get_user_by_email "a@x.com"] does not answer with the entity rebuilt
    from that entry: it deletes the key, queries the database and answers
    with the row. *)
Theorem get_user_by_email_misses_its_own_entry :
  redis after_read !! "user:email:a@x.com"
  = Some (mkEntry (Json (PyDict (_user_to_dict alice_row))) 3600)
  /\ fst (request (get_user_by_email "a@x.com") after_read) = Ok (Some alice_row)
  /\ alice_row <> rebuilt alice_row
  /\ events_of (request (get_user_by_email "a@x.com")) after_read
     = [EvRedis (GET "user:email:a@x.com"); EvRedis (DEL ["user:email:a@x.com"]);
        EvDb (SELECT "email =="); EvRedis (SETEX "user:email:a@x.com" 3600);
        EvRedis (SETEX "user:1" 3600)]
  /\ existsb is_select (events_of (request (get_user_by_email "a@x.com")) after_read) = true.
Proof.
  split; [vm_compute; reflexivity |].
  split; [vm_compute; reflexivity |].
  split; [discriminate |].
  split; vm_compute; reflexivity.
Qed.

(** C5 (the code at a failing input).  [create_user alice] returns the
    entity with id 1, but the cache was written before the commit assigned
    the id: the primary entry is under [user:None], it holds a projection
    whose id is [None] and whose timestamps print as [None], and there is no
    entry under [user:1].  The secondary key is [user:email:a@x.com] and the
    cached page [users:list:0:100] is gone. *)
Theorem create_user_caches_before_the_id_exists :
  fst (request (create_user alice) world_with_page) = Ok alice_row
  /\ redis (snd (request (create_user alice) world_with_page)) !! "user:1" = None
  /\ redis (snd (request (create_user alice) world_with_page)) !! "user:None"
     = Some (mkEntry (Json (PyDict (_user_to_dict alice_pending))) 3600)
  /\ redis (snd (request (create_user alice) world_with_page)) !! "user:email:a@x.com"
     = Some (mkEntry (Json (PyDict (_user_to_dict alice_pending))) 3600)
  /\ _user_to_dict alice_pending !! "id" = Some PyNone
  /\ _user_to_dict alice_pending !! "created_at" = Some (PyStr "None")
  /\ redis world_with_page !! "users:list:0:100" <> None
  /\ redis (snd (request (create_user alice) world_with_page)) !! "users:list:0:100" = None.
Proof.
  do 6 (split; [vm_compute; reflexivity |]).
  split; [vm_compute; discriminate | vm_compute; reflexivity].
Qed.

(** [create_user] refuses an email that differs from a stored one by letter
    case only. *)
Example create_user_refuses_a_case_variant_email :
  request (create_user (mkUserCreate "A@x.com" "dave" None true false "password3")) two_users
  = (Raised (ValueError
       "Email address 'A@x.com' is already registered. Please use a different email address or try logging in."),
     log (EvDb ROLLBACK) (log (EvDb (SELECT "email ilike")) two_users)).
Proof. vm_compute. reflexivity. Qed.

(** C3 (the code at a failing input).  [alice] is persisted under id 1 and
    the key [user:1] holds text that is not JSON: [get_user], [update_user]
    and [delete_user] all fail with the [ValueError] of the cache layer
    instead of answering from the database. *)
Theorem undecodable_entry_fails_the_operation :
  table world_with_garbage = [alice_row]
  /\ fst (request (get_user 1) world_with_garbage)
     = Raised (ValueError "Could not deserialize value")
  /\ fst (request (update_user 1 (new_email "z@x.com")) world_with_garbage)
     = Raised (ValueError "Could not deserialize value")
  /\ fst (request (delete_user 1) world_with_garbage)
     = Raised (ValueError "Could not deserialize value")
  /\ table (snd (request (delete_user 1) world_with_garbage)) = [alice_row].
Proof.
  do 4 (split; [vm_compute; reflexivity |]).
  vm_compute; reflexivity.
Qed.

(** ** The cache and the database without faults *)

Lemma redis_call_healthy c w :
  redis_faults w = [] -> Cache.redis_call c w = (Ok tt, log (EvRedis c) w).
Proof. intros H. unfold Cache.redis_call. rewrite H. reflexivity. Qed.

Lemma db_call_healthy c w :
  db_faults w = [] ->
  Db.db_call c w
  = (Ok tt, set_session (sess_new w) (sess_dirty w) (sess_deleted w) true (log (EvDb c) w)).
Proof. intros H. unfold Db.db_call. rewrite H. reflexivity. Qed.

Lemma cache_get_healthy key w :
  redis_faults w = [] ->
  Cache.cache_get key w
  = (match payload <$> redis w !! key with
     | Some (Json v) => Ok v
     | Some (Text s) =>
         if String.eqb s "" then Ok PyNone
         else Raised (ValueError "Could not deserialize value")
     | None => Ok PyNone
     end, log (EvRedis (GET key)) w).
Proof.
  intros H. unfold Cache.cache_get, Cache.client_get, try_except, mbind, M_bind, bind.
  rewrite (redis_call_healthy _ _ H). cbn.
  destruct (redis w !! key) as [[[v | s] t] |]; cbn; try reflexivity.
  destruct (String.eqb s ""); reflexivity.
Qed.

Lemma cache_delete_healthy key w :
  redis_faults w = [] ->
  exists b,
    Cache.cache_delete key w
    = (Ok b, set_redis (delete key (redis w)) (log (EvRedis (DEL [key])) w)).
Proof.
  intros H. unfold Cache.cache_delete, Cache.client_delete, try_except, mbind, M_bind, bind.
  rewrite (redis_call_healthy _ _ H). cbn. eexists. reflexivity.
Qed.

Lemma cache_set_healthy key value expire w :
  redis_faults w = [] -> json_serializable value = true -> 0 < expire ->
  Cache.cache_set key value expire w
  = (Ok true,
     set_redis (<[key := mkEntry (Json value) expire]> (redis w))
               (log (EvRedis (SETEX key expire)) w)).
Proof.
  intros H Hj He.
  unfold Cache.cache_set, Cache.serialize_value, Cache.client_setex,
         try_except, mbind, M_bind, bind.
  rewrite Hj. cbn. rewrite (redis_call_healthy _ _ H).
  destruct (Z.leb_spec expire 0); [lia |]. reflexivity.
Qed.

Lemma query_first_healthy what p w :
  db_faults w = [] ->
  Db.query_first what p w
  = (Ok (head (List.filter p (table w))),
     set_session (sess_new w) (sess_dirty w) (sess_deleted w) true
                 (log (EvDb (SELECT what)) w)).
Proof.
  intros H. unfold Db.query_first, mbind, M_bind, bind.
  rewrite (db_call_healthy _ _ H). reflexivity.
Qed.

(** ** Version tolerance of [get_user] *)

Lemma tagged_truthy v u : py_truthy (PyDict (tagged v u)) = true.
Proof. reflexivity. Qed.

Lemma validate_tagged_current u :
  isinstance_int (User.id u) = true ->
  isinstance_str (User.email u) = true ->
  isinstance_str (User.username u) = true ->
  _validate_cache_data (PyDict (tagged "1.0" u)) = true.
Proof.
  intros Hi He Hn. apply validate_cache_data_spec.
  split; [| split; [| split; [| split]]].
  - intros f Hf. cbn in Hf.
    destruct Hf as [<- | [<- | [<- | [<- | [<- | [<- | [<- | [<- | [<- | []]]]]]]]]];
      vm_compute; eauto.
  - exists (User.id u). split; [reflexivity | exact Hi].
  - destruct (User.email u) eqn:E; try discriminate He.
    eexists. unfold tagged, _user_to_dict. rewrite E. reflexivity.
  - destruct (User.username u) eqn:E; try discriminate Hn.
    eexists. unfold tagged, _user_to_dict. rewrite E. reflexivity.
  - left. reflexivity.
Qed.

Lemma validate_tagged_old u : _validate_cache_data (PyDict (tagged "0.9" u)) = false.
Proof.
  apply (validate_other_version _ (PyStr "0.9")); [reflexivity | discriminate | discriminate].
Qed.

Lemma User_init_tagged v u w :
  User_init (delete "_cache_version" (tagged v u)) w = (Ok (rebuilt u), w).
Proof. reflexivity. Qed.

Lemma row_ok_serializable row :
  row_ok row = true -> json_serializable (PyDict (_user_to_dict row)) = true.
Proof.
  destruct row as [st i e n h f a s c m]. unfold row_ok. cbn [User.id User.email
    User.username User.full_name User.is_active User.is_superuser User.created_at
    User.updated_at].
  intros H.
  destruct i; try discriminate H; destruct e; try discriminate H;
    destruct n; try discriminate H; destruct a; try discriminate H;
    destruct s; try discriminate H; destruct c; try discriminate H;
    destruct m; try discriminate H; destruct f; try discriminate H; reflexivity.
Qed.

(** C6.  Let the key [user:{id}] hold a cache entry that is the repository's
    projection of an entity (with an integer id and string email and
    username, as the validator requires) but for its version tag, and let
    Redis answer without faults.
    - With tag ["1.0"], [get_user] returns the entity rebuilt from the entry;
      it sends Redis the one [GET] and leaves the key space as it was: the
      entry is not evicted.
    - With tag ["0.9"], and a database that answers without faults and
      holds the entity, [get_user] deletes the key, reads the entity from
      the database and writes under the key the projection of the row read,
      which is tagged ["1.1"]. *)
Theorem get_user_version_tolerance (user_id : Z) (u row : User.t) (t : Z) (w : World) :
  isinstance_int (User.id u) = true ->
  isinstance_str (User.email u) = true ->
  isinstance_str (User.username u) = true ->
  redis_faults w = [] ->
  (redis w !! USER_KEY (PyInt user_id) = Some (mkEntry (Json (PyDict (tagged "1.0" u))) t) ->
     exists w',
       get_user user_id w = (Ok (Some (rebuilt u)), w')
       /\ redis w' = redis w
       /\ trace w' = (trace w ++ [EvRedis (GET (USER_KEY (PyInt user_id)))])%list)
  /\ (redis w !! USER_KEY (PyInt user_id) = Some (mkEntry (Json (PyDict (tagged "0.9" u))) t) ->
      db_faults w = [] ->
      head (List.filter (fun r => Db.id_eq (User.id r) user_id) (table w)) = Some row ->
      row_ok row = true ->
        exists w',
          get_user user_id w = (Ok (Some row), w')
          /\ redis w'
             = <[USER_KEY (PyInt user_id) :=
                   mkEntry (Json (PyDict (_user_to_dict row))) USER_CACHE_EXPIRE]>
                 (delete (USER_KEY (PyInt user_id)) (redis w))
          /\ _user_to_dict row !! "_cache_version" = Some (PyStr "1.1")
          /\ trace w'
             = (trace w ++ [EvRedis (GET (USER_KEY (PyInt user_id)));
                            EvRedis (DEL [USER_KEY (PyInt user_id)]);
                            EvDb (SELECT "id ==");
                            EvRedis (SETEX (USER_KEY (PyInt user_id)) USER_CACHE_EXPIRE)])%list).
Proof.
  intros Hi He Hn Hrf. split.
  - intros Hentry. eexists.
    unfold get_user, mbind, M_bind, bind, try_except.
    rewrite (cache_get_healthy _ _ Hrf), Hentry.
    cbv beta iota zeta delta [ret fst snd fmap option_fmap option_map payload].
    rewrite tagged_truthy, (validate_tagged_current u Hi He Hn).
    rewrite User_init_tagged.
    cbv beta iota zeta delta [ret fst snd].
    split; [reflexivity | split; reflexivity].
  - intros Hentry Hdf Hrow Hok.
    unfold get_user, mbind, M_bind, bind, try_except.
    rewrite (cache_get_healthy _ _ Hrf), Hentry.
    cbv beta iota zeta delta [ret fst snd fmap option_fmap option_map payload].
    rewrite tagged_truthy, validate_tagged_old.
    cbv beta iota zeta delta [ret fst snd].
    destruct (cache_delete_healthy (USER_KEY (PyInt user_id))
                (log (EvRedis (GET (USER_KEY (PyInt user_id)))) w) Hrf) as [b Hdel].
    rewrite Hdel.
    cbv beta iota zeta delta [ret fst snd].
    rewrite query_first_healthy by exact Hdf.
    change (table (set_redis _ _)) with (table w).
    rewrite Hrow.
    cbv beta iota zeta delta [ret fst snd].
    rewrite cache_set_healthy;
      [ | exact Hrf | exact (row_ok_serializable _ Hok) | reflexivity ].
    eexists. split; [reflexivity |].
    split; [reflexivity |].
    split; [reflexivity |].
    cbn [trace log set_redis set_session]. rewrite <- !app_assoc. reflexivity.
Qed.

Lemma get_user_version_tolerance_witness :
  (exists w',
     get_user 1 (world_tagged "1.0") = (Ok (Some (rebuilt alice_row)), w')
     /\ redis w' = redis (world_tagged "1.0")
     /\ trace w' = (trace (world_tagged "1.0") ++ [EvRedis (GET (USER_KEY (PyInt 1)))])%list)
  /\ (exists w',
        get_user 1 (world_tagged "0.9") = (Ok (Some alice_row), w')
        /\ redis w'
           = <[USER_KEY (PyInt 1) :=
                 mkEntry (Json (PyDict (_user_to_dict alice_row))) USER_CACHE_EXPIRE]>
               (delete (USER_KEY (PyInt 1)) (redis (world_tagged "0.9")))
        /\ _user_to_dict alice_row !! "_cache_version" = Some (PyStr "1.1")
        /\ trace w'
           = (trace (world_tagged "0.9")
                ++ [EvRedis (GET (USER_KEY (PyInt 1)));
                    EvRedis (DEL [USER_KEY (PyInt 1)]);
                    EvDb (SELECT "id ==");
                    EvRedis (SETEX (USER_KEY (PyInt 1)) USER_CACHE_EXPIRE)])%list).
Proof.
  split.
  - apply (proj1 (get_user_version_tolerance 1 alice_row alice_row 3600
                    (world_tagged "1.0") eq_refl eq_refl eq_refl eq_refl)).
    vm_compute. reflexivity.
  - apply (proj2 (get_user_version_tolerance 1 alice_row alice_row 3600
                    (world_tagged "0.9") eq_refl eq_refl eq_refl eq_refl)).
    + vm_compute. reflexivity.
    + reflexivity.
    + vm_compute. reflexivity.
    + reflexivity.
Defined.

(** ** Reads that find nothing *)

Lemma bind_inv {A B} (m : M A) (k : A -> M B) w r w' :
  (m ≫= k) w = (r, w') ->
  (exists a w1, m w = (Ok a, w1) /\ k a w1 = (r, w'))
  \/ (exists e, m w = (Raised e, w') /\ r = Raised e).
Proof.
  unfold mbind, M_bind, bind. destruct (m w) as [[a | e] w1]; intros H.
  - left. eauto.
  - right. injection H as <- <-. eauto.
Qed.

Lemma try_except_inv {A} (body : M A) h handler w r w' :
  try_except body h handler w = (r, w') ->
  (exists a, body w = (Ok a, w') /\ r = Ok a)
  \/ (exists e w1, body w = (Raised e, w1) /\ h e = true /\ handler e w1 = (r, w'))
  \/ (exists e, body w = (Raised e, w') /\ h e = false /\ r = Raised e).
Proof.
  unfold try_except. destruct (body w) as [[a | e] w1]; intros H.
  - left. injection H as <- <-. eauto.
  - destruct (h e) eqn:He.
    + right. left. eauto.
    + right. right. injection H as <- <-. eauto.
Qed.






Lemma db_call_run c w r w' :
  Db.db_call c w = (r, w') ->
  trace w' = (trace w ++ [EvDb c])%list /\ redis w' = redis w /\ table w' = table w.
Proof.
  unfold Db.db_call. destruct (db_faults w) as [| [d |] rest];
    intros H; injection H as <- <-; repeat split.
Qed.

Lemma query_first_run what p w r w' :
  Db.query_first what p w = (r, w') ->
  quiet_by [EvDb (SELECT what)] w w'
  /\ (forall a, r = Ok a -> a = head (List.filter p (table w))).
Proof.
  unfold Db.query_first, mbind, M_bind, bind.
  destruct (Db.db_call (SELECT what) w) as [[[] | e] w1] eqn:E;
    apply db_call_run in E; destruct E as (Ht & Hr & Hb); cbn;
    intros H; injection H as <- <-.
  - split.
    + split; [exact Ht |]. split; [reflexivity |].
      split; [intros k; left; rewrite Hr; reflexivity | exact Hb].
    + intros a Ha. injection Ha as <-. rewrite Hb. reflexivity.
  - split.
    + split; [exact Ht |]. split; [reflexivity |].
      split; [intros k; left; rewrite Hr; reflexivity | exact Hb].
    + intros a Ha. discriminate Ha.
Qed.

Lemma query_page_run skip limit w r w' :
  Db.query_page skip limit w = (r, w') ->
  quiet_by [EvDb (SELECT "offset/limit")] w w'
  /\ (forall a, r = Ok a -> a = take (Z.to_nat limit) (drop (Z.to_nat skip) (table w))).
Proof.
  unfold Db.query_page, mbind, M_bind, bind.
  destruct (Db.db_call (SELECT "offset/limit") w) as [[[] | e] w1] eqn:E;
    apply db_call_run in E; destruct E as (Ht & Hr & Hb); cbn;
    intros H; injection H as <- <-.
  - split.
    + split; [exact Ht |]. split; [reflexivity |].
      split; [intros k; left; rewrite Hr; reflexivity | exact Hb].
    + intros a Ha. injection Ha as <-. rewrite Hb. reflexivity.
  - split.
    + split; [exact Ht |]. split; [reflexivity |].
      split; [intros k; left; rewrite Hr; reflexivity | exact Hb].
    + intros a Ha. discriminate Ha.
Qed.

Lemma User_init_run kwargs w r w' : User_init kwargs w = (r, w') -> w' = w.
Proof.
  unfold User_init. destruct (List.filter _ _); intros H; injection H as _ <-; reflexivity.
Qed.

Lemma User_of_run v w r w' : User_of v w = (r, w') -> w' = w.
Proof.
  destruct v; cbn [User_of]; try (intros H; injection H as _ <-; reflexivity).
  apply User_init_run.
Qed.

Lemma users_of_items_run items w r w' :
  users_of_items items w = (r, w') ->
  w' = w /\ (forall us, r = Ok us -> length us = length items).
Proof.
  revert r w'. induction items as [| x items IH]; intros r w' H.
  - injection H as <- <-. split; [reflexivity |]. intros us Hus. injection Hus as <-. reflexivity.
  - cbn [users_of_items] in H. apply bind_inv in H.
    destruct H as [(u & w1 & Hu & H) | (e & Hu & ->)].
    + apply User_of_run in Hu. subst w1.
      apply bind_inv in H. destruct H as [(us & w2 & Hus & H) | (e & Hus & ->)].
      * destruct (IH _ _ Hus) as [-> Hlen]. injection H as <- <-.
        split; [reflexivity |]. intros us' Heq. injection Heq as <-.
        cbn. rewrite (Hlen us eq_refl). reflexivity.
      * destruct (IH _ _ Hus) as [-> _]. split; [reflexivity | discriminate].
    + apply User_of_run in Hu. subst w'. split; [reflexivity | discriminate].
Qed.






Lemma users_of_run v w r w' : users_of v w = (r, w') -> w' = w.
Proof.
  destruct v; cbn [users_of]; try (intros H; injection H as _ <-; reflexivity).
  intros H. exact (proj1 (users_of_items_run _ _ _ _ H)).
Qed.






(** ** No Redis error leaves the repository *)

Lemma check_row_integrity others u e :
  Db.check_row others u = Some e -> is_RedisError e = false.
Proof.
  unfold Db.check_row.
  repeat (destruct (_ : bool); [intros H; injection H as <-; reflexivity |]).
  discriminate.
Qed.

Lemma flush_new_integrity stamp pending rows next e :
  Db.flush_new stamp pending rows next = inl e -> is_RedisError e = false.
Proof.
  revert rows next. induction pending as [| u rest IH]; intros rows next H.
  - discriminate H.
  - cbn [Db.flush_new] in H.
    destruct (Db.check_row rows u) as [e' |] eqn:Hc.
    + injection H as <-. exact (check_row_integrity _ _ _ Hc).
    + destruct (Db.flush_new stamp rest _ _) as [e' | [[rows' next'] done]] eqn:Hf.
      * injection H as <-. exact (IH _ _ Hf).
      * discriminate H.
Qed.

Lemma flush_dirty_integrity stamp dirty rows e :
  Db.flush_dirty stamp dirty rows = inl e -> is_RedisError e = false.
Proof.
  revert rows. induction dirty as [| u rest IH]; intros rows H.
  - discriminate H.
  - cbn [Db.flush_dirty] in H.
    destruct (Db.check_row _ u) as [e' |] eqn:Hc.
    + injection H as <-. exact (check_row_integrity _ _ _ Hc).
    + destruct (Db.flush_dirty stamp rest _) as [e' | [rows' done]] eqn:Hf.
      * injection H as <-. exact (IH _ Hf).
      * discriminate H.
Qed.

Lemma raises_only_commit : raises_only (fun e => negb (is_RedisError e)) Db.commit.
Proof.
  intros w e w' H. unfold Db.commit in H.
  destruct (negb _); [discriminate H |].
  destruct (Db.db_call COMMIT w) as [[[] | e1] w1] eqn:Hc.
  - destruct (Db.flush_new _ _ _ _) as [e2 | [[rows1 next1] ins]] eqn:Hn.
    + injection H as <- _. rewrite (flush_new_integrity _ _ _ _ _ Hn). reflexivity.
    + destruct (Db.flush_dirty _ _ _) as [e2 | [rows2 upd]] eqn:Hd.
      * injection H as <- _. rewrite (flush_dirty_integrity _ _ _ _ Hd). reflexivity.
      * discriminate H.
  - injection H as <- _.
    exact (raises_only_db_call (fun e => negb (is_RedisError e)) COMMIT
             (fun _ => eq_refl) _ _ _ Hc).
Qed.

Lemma raises_only_rollback P : raises_only P Db.rollback.
Proof. intros w e w' H. discriminate H. Qed.

Lemma raises_only_transaction_context {A} nested (body : M A) :
  raises_only (fun e => negb (is_RedisError e)) body ->
  raises_only (fun e => negb (is_RedisError e)) (transaction_context nested body).
Proof.
  intros Hb. unfold transaction_context.
  apply raises_only_bind; [apply raises_only_get_world |]. intros w0.
  destruct (nested && in_transaction w0).
  - apply raises_only_bind; [apply raises_only_db_call; reflexivity |]. intros _.
    apply raises_only_bind.
    + intros w e w' H. apply try_except_inv in H.
      destruct H as [(a & _ & H) | [(e1 & w1 & Hbody & _ & H) | (e1 & _ & H & _)]];
        try discriminate H.
      apply bind_inv in H. destruct H as [([] & w2 & _ & H) | (e2 & H & He)].
      * injection H as <- _. exact (Hb _ _ _ Hbody).
      * injection He as <-.
        exact (raises_only_db_call (fun e => negb (is_RedisError e)) ROLLBACK_TO
                 (fun _ => eq_refl) _ _ _ H).
    + intros a. apply raises_only_bind; [apply raises_only_db_call; reflexivity |].
      intros _. apply raises_only_ret.
  - intros w e w' H. apply try_except_inv in H.
    destruct H as [(a & _ & H) | [(e1 & w1 & Hbody & _ & H) | (e1 & _ & H & _)]];
      try discriminate H.
    apply bind_inv in H. destruct H as [([] & w2 & _ & H) | (e2 & H & He)];
      [| discriminate H].
    injection H as <- _.
    assert (Hm : raises_only (fun e => negb (is_RedisError e))
                   (a ← body; f ← Db.commit; ret (a, f))).
    { apply raises_only_bind; [exact Hb |]. intros a.
      apply raises_only_bind; [exact raises_only_commit |]. intros f.
      apply raises_only_ret. }
    exact (Hm _ _ _ Hbody).
Qed.

Lemma raises_only_retry_loop {A} P budget retries (func : M A) :
  raises_only P func -> raises_only P (retry_loop budget retries func).
Proof.
  intros Hf. revert retries. induction budget as [| budget IH]; intros retries w e w' H;
    cbn [retry_loop] in H; apply try_except_inv in H;
    destruct H as [(a & _ & H) | [(e1 & w1 & Hbody & _ & H) | (e1 & Hbody & _ & H)]];
    try discriminate H.
  - destruct (_ || _); injection H as <- _; exact (Hf _ _ _ Hbody).
  - injection H as <-. exact (Hf _ _ _ Hbody).
  - destruct (_ || _).
    + injection H as <- _. exact (Hf _ _ _ Hbody).
    + apply bind_inv in H. destruct H as [([] & w2 & _ & H) | (e2 & H & _)];
        [| discriminate H].
      exact (IH _ _ _ _ H).
  - injection H as <-. exact (Hf _ _ _ Hbody).
Qed.

Lemma get_user_no_redis_error user_id :
  raises_only (fun e => negb (is_RedisError e)) (get_user user_id).
Proof.
  apply (raises_only_weaken store_or_decode_error); [apply get_user_raises |].
  intros [m | m | m | m | m | m]; cbn; congruence.
Qed.

(** Whatever the fault plan of Redis, no [RedisError] leaves a repository
    operation: connectivity failures of the cache are caught. *)
Lemma repository_raises_no_RedisError :
  (forall user_data, raises_only (fun e => negb (is_RedisError e)) (create_user user_data))
  /\ (forall user_id, raises_only (fun e => negb (is_RedisError e)) (get_user user_id))
  /\ (forall email, raises_only (fun e => negb (is_RedisError e)) (get_user_by_email email))
  /\ (forall skip limit,
        raises_only (fun e => negb (is_RedisError e)) (get_users skip limit))
  /\ (forall user_id user_data,
        raises_only (fun e => negb (is_RedisError e)) (update_user user_id user_data))
  /\ (forall user_id, raises_only (fun e => negb (is_RedisError e)) (delete_user user_id)).
Proof.
  split; [| split; [| split; [| split; [| split]]]].
  - intros user_data. apply raises_only_retry_loop. unfold create_user_once.
    apply raises_only_try; [| intros e He; raises_repo].
    apply raises_only_bind; [| intros r; apply raises_only_ret].
    apply (raises_only_weaken (fun e => negb (is_RedisError e)));
      [| intros e He; cbn; rewrite He; reflexivity].
    apply raises_only_transaction_context.
    unfold create_user_body, get_password_hash, Db.add. raises_repo.
  - exact get_user_no_redis_error.
  - intros email. apply (raises_only_weaken store_or_decode_error);
      [apply get_user_by_email_raises |].
    intros [m | m | m | m | m | m]; cbn; congruence.
  - intros skip limit. unfold get_users.
    destruct (skip <? 0); [apply raises_only_raise; reflexivity |].
    destruct (limit <=? 0); [apply raises_only_raise; reflexivity |].
    raises_repo.
  - intros user_id user_data. apply raises_only_retry_loop. unfold update_user_once.
    apply raises_only_bind; [apply get_user_no_redis_error |].
    intros [db_user |]; [| apply raises_only_ret].
    apply raises_only_bind; [unfold get_password_hash; raises_repo |]. intros update_data.
    apply raises_only_bind; [| intros r; apply raises_only_ret].
    apply raises_only_transaction_context.
    apply raises_only_bind.
    + apply raises_only_transaction_context. raises_repo.
    + intros _. unfold Db.mark_dirty, cache_delete_retry. raises_repo.
  - intros user_id. apply raises_only_retry_loop. unfold delete_user_once.
    apply raises_only_bind; [apply get_user_no_redis_error |].
    intros [db_user |]; [| apply raises_only_ret].
    apply raises_only_bind.
    + apply raises_only_transaction_context. unfold Db.delete.
      destruct (User.sa_state db_user); raises_repo.
    + intros _. raises_repo.
Qed.

(** ** The cache lookup of the reads when Redis answers *)

Lemma User_init_pure kwargs w :
  User_init kwargs w = (fst (User_init kwargs empty_world), w).
Proof. unfold User_init. destruct (List.filter _ _); reflexivity. Qed.

Lemma User_of_pure v w : User_of v w = (fst (User_of v empty_world), w).
Proof. destruct v; try reflexivity. apply User_init_pure. Qed.

Lemma users_of_items_pure items w :
  users_of_items items w = (fst (users_of_items items empty_world), w).
Proof.
  induction items as [| x items IH]; [reflexivity |].
  cbn [users_of_items]. unfold mbind, M_bind, bind.
  rewrite (User_of_pure x w), (User_of_pure x empty_world).
  destruct (fst (User_of x empty_world)) as [u | e]; cbn [fst]; [| reflexivity].
  rewrite IH.
  destruct (users_of_items items empty_world) as [[us | e] w0]; reflexivity.
Qed.

Lemma users_of_pure v w : users_of v w = (fst (users_of v empty_world), w).
Proof. destruct v; try reflexivity. apply users_of_items_pure. Qed.

Lemma lookup_or_evict_healthy {X} (decode : pyval -> M X) key w :
  (forall v w1, decode v w1 = (fst (decode v empty_world), w1)) ->
  redis_faults w = [] ->
    try_except
      (cached ← Cache.cache_get key;
       if py_truthy cached then
         try_except
           (u ← decode cached; ret (Some u))
           (fun e => is_TypeError e || is_ValueError e)
           (fun _ => _ ← Cache.cache_delete key; ret None)
       else ret None)
      is_RedisError
      (fun _ => ret None) w
    = match cached_answer (fun v => fst (decode v empty_world)) (payload <$> redis w !! key) with
      | Answer x => (Ok (Some x), log (EvRedis (GET key)) w)
      | Unusable =>
          (Ok None,
           set_redis (delete key (redis w))
                     (log (EvRedis (DEL [key])) (log (EvRedis (GET key)) w)))
      | Nothing => (Ok None, log (EvRedis (GET key)) w)
      | Fails e =>
          if is_RedisError e then (Ok None, log (EvRedis (GET key)) w)
          else (Raised e, log (EvRedis (GET key)) w)
      end.
Proof.
  intros Hpure Hrf.
  unfold try_except at 1. unfold mbind at 1, M_bind at 1, bind at 1.
  rewrite (cache_get_healthy _ _ Hrf).
  unfold cached_answer.
  destruct (payload <$> redis w !! key) as [[v | s] |]; cbn [ret].
  - destruct (py_truthy v); [| reflexivity].
    unfold try_except, mbind, M_bind, bind. rewrite Hpure.
    destruct (fst (decode v empty_world)) as [x | e]; [reflexivity |].
    destruct (is_TypeError e || is_ValueError e) eqn:Hh.
    + destruct (cache_delete_healthy key (log (EvRedis (GET key)) w) Hrf) as [b Hdel].
      rewrite Hdel. reflexivity.
    + destruct (is_RedisError e); reflexivity.
  - destruct (String.eqb s ""); reflexivity.
  - reflexivity.
Qed.

(** ** Runs only add to the trace, and a Redis without faults stays so *)

Lemma steps_ret {A} R (a : A) : (forall w, R w w) -> steps R (ret a).
Proof. intros HR w r w' H. injection H as _ <-. apply HR. Qed.

Lemma steps_raise {A} R e : (forall w, R w w) -> steps R (@raise A e).
Proof. intros HR w r w' H. injection H as _ <-. apply HR. Qed.

Lemma steps_get_world R : (forall w, R w w) -> steps R get_world.
Proof. intros HR w r w' H. injection H as _ <-. apply HR. Qed.

Lemma steps_modify R f : (forall w, R w (f w)) -> steps R (modify f).
Proof. intros HR w r w' H. injection H as _ <-. apply HR. Qed.

Lemma steps_bind {A B} R (m : M A) (k : A -> M B) :
  (forall w1 w2 w3, R w1 w2 -> R w2 w3 -> R w1 w3) ->
  steps R m -> (forall a, steps R (k a)) -> steps R (m ≫= k).
Proof.
  intros Htr Hm Hk w r w' H. apply bind_inv in H.
  destruct H as [(a & w1 & Ha & H) | (e & Ha & _)].
  - exact (Htr _ _ _ (Hm _ _ _ Ha) (Hk a _ _ _ H)).
  - exact (Hm _ _ _ Ha).
Qed.

Lemma steps_try {A} R (body : M A) h handler :
  (forall w1 w2 w3, R w1 w2 -> R w2 w3 -> R w1 w3) ->
  steps R body -> (forall e, steps R (handler e)) -> steps R (try_except body h handler).
Proof.
  intros Htr Hb Hh w r w' H. apply try_except_inv in H.
  destruct H as [(a & H & _) | [(e & w1 & H & _ & Hr) | (e & H & _)]].
  - exact (Hb _ _ _ H).
  - exact (Htr _ _ _ (Hb _ _ _ H) (Hh e _ _ _ Hr)).
  - exact (Hb _ _ _ H).
Qed.

Lemma onward_refl w : onward w w.
Proof. split; [exists []; symmetry; apply app_nil_r | auto]. Qed.

Lemma onward_trans w1 w2 w3 : onward w1 w2 -> onward w2 w3 -> onward w1 w3.
Proof.
  intros [[e1 H1] F1] [[e2 H2] F2]. split; [| auto].
  exists (e1 ++ e2)%list. rewrite H2, H1, app_assoc. reflexivity.
Qed.

Lemma onward_log e w : onward w (log e w).
Proof. split; [exists [e]; reflexivity | auto]. Qed.

Lemma onward_set_redis r w : onward w (set_redis r w).
Proof. split; [exists []; symmetry; apply app_nil_r | auto]. Qed.

Lemma steps_redis_call c : steps onward (Cache.redis_call c).
Proof.
  intros w r w' H. unfold Cache.redis_call in H.
  destruct (redis_faults w) as [| [|] rest] eqn:E; injection H as _ <-;
    (split; [exists [EvRedis c]; reflexivity
            | intros Hf; first [rewrite E in Hf; discriminate Hf | exact E]]).
Qed.

Lemma steps_db_call c : steps onward (Db.db_call c).
Proof.
  intros w r w' H. unfold Db.db_call in H.
  destruct (db_faults w) as [| [d |] rest]; injection H as _ <-;
    (split; [exists [EvDb c]; reflexivity | auto]).
Qed.

(** Structural steps of a [steps onward] goal. *)
Ltac onward_step :=
  first
    [ apply steps_ret; exact onward_refl
    | apply steps_raise; exact onward_refl
    | apply steps_get_world; exact onward_refl
    | apply steps_redis_call
    | apply steps_db_call
    | apply steps_modify; intros ?;
      first [ apply onward_log | apply onward_set_redis | apply onward_refl ]
    | apply steps_bind; [exact onward_trans | | intros ? ]
    | apply steps_try; [exact onward_trans | | intros ? ]
    | match goal with
      | |- steps _ (if ?b then _ else _) => destruct b
      | |- steps _ (match ?x with _ => _ end) => destruct x
      end ].

Lemma steps_cache_get key : steps onward (Cache.cache_get key).
Proof. unfold Cache.cache_get, Cache.client_get, Cache.deserialize_value. repeat onward_step. Qed.

Lemma steps_cache_set key value expire : steps onward (Cache.cache_set key value expire).
Proof.
  unfold Cache.cache_set, Cache.serialize_value, Cache.client_setex. repeat onward_step.
Qed.

Lemma steps_cache_delete key : steps onward (Cache.cache_delete key).
Proof. unfold Cache.cache_delete, Cache.client_delete. repeat onward_step. Qed.

Lemma steps_cache_multi_set data expire : steps onward (Cache.cache_multi_set data expire).
Proof. unfold Cache.cache_multi_set. repeat onward_step. Qed.

Lemma steps_User_of v : steps onward (User_of v).
Proof. intros w r w' H. apply User_of_run in H. subst w'. apply onward_refl. Qed.

Lemma steps_users_of v : steps onward (users_of v).
Proof. intros w r w' H. apply users_of_run in H. subst w'. apply onward_refl. Qed.

Lemma steps_User_init kwargs : steps onward (User_init kwargs).
Proof. intros w r w' H. apply User_init_run in H. subst w'. apply onward_refl. Qed.

Lemma steps_query_first what p : steps onward (Db.query_first what p).
Proof. unfold Db.query_first. repeat onward_step. Qed.

Lemma steps_query_page skip limit : steps onward (Db.query_page skip limit).
Proof. unfold Db.query_page. repeat onward_step. Qed.

(** Steps of a [steps onward] goal about the reads. *)
Ltac onward_repo :=
  repeat first
    [ apply steps_cache_get
    | apply steps_cache_set
    | apply steps_cache_delete
    | apply steps_cache_multi_set
    | apply steps_User_of
    | apply steps_users_of
    | apply steps_User_init
    | apply steps_query_first
    | apply steps_query_page
    | onward_step ].

Lemma steps_get_user user_id : steps onward (get_user user_id).
Proof. unfold get_user. onward_repo. Qed.



(** ** Reading a missing entity twice *)





(** The validation and reconstruction step of [get_user] changes nothing
    and raises nothing. *)
Lemma get_user_rebuild_pure (cached_user : pyval) w :
  (if _validate_cache_data cached_user then
     match cached_user with
     | PyDict d =>
         try_except
           (u ← User_init (delete "_cache_version" d); ret (Some u))
           (fun e => is_TypeError e || is_ValueError e)
           (fun _ => ret None)
     | _ => ret None
     end
   else ret None) w = (Ok (usable_hit cached_user), w).
Proof.
  unfold usable_hit. destruct (_validate_cache_data cached_user); [| reflexivity].
  destruct cached_user; try reflexivity.
  unfold try_except, mbind, M_bind, bind. rewrite User_init_pure.
  destruct (fst (User_init (delete "_cache_version" d) empty_world)) as [u | e] eqn:E;
    [reflexivity |].
  assert (He : is_TypeError e = true).
  { apply (raises_only_User_init is_TypeError (delete "_cache_version" d)
             (fun _ => eq_refl) empty_world e empty_world).
    rewrite User_init_pure, E. reflexivity. }
  rewrite He. reflexivity.
Qed.

Lemma get_user_lookup_healthy key w :
  redis_faults w = [] ->
  try_except (v ← Cache.cache_get key; ret (v, true)) is_RedisError
             (fun _ => ret (PyNone, false)) w
  = (match payload <$> redis w !! key with
     | Some (Json v) => Ok (v, true)
     | Some (Text s) =>
         if String.eqb s "" then Ok (PyNone, true)
         else Raised (ValueError "Could not deserialize value")
     | None => Ok (PyNone, true)
     end, log (EvRedis (GET key)) w).
Proof.
  intros Hrf. unfold try_except, mbind, M_bind, bind.
  rewrite (cache_get_healthy _ _ Hrf).
  destruct (payload <$> redis w !! key) as [[v | s] |]; try reflexivity.
  destruct (String.eqb s ""); reflexivity.
Qed.




(** ** [get_user_by_email] and the entries it writes *)

(** For every entity and every email: when the secondary key holds the
    projection that the repository writes and Redis answers, a call of
    [get_user_by_email] evicts the entry and queries the database; it never
    answers from the entry. *)
Lemma get_user_by_email_evicts_projection email (u : User.t) (t : Z) (w : World) :
  redis_faults w = [] ->
  redis w !! USER_EMAIL_KEY (PyStr email)
  = Some (mkEntry (Json (PyDict (_user_to_dict u))) t) ->
  forall r w',
    get_user_by_email email w = (r, w') ->
    exists evs,
      trace w'
      = (trace w ++ [EvRedis (GET (USER_EMAIL_KEY (PyStr email)));
                     EvRedis (DEL [USER_EMAIL_KEY (PyStr email)]);
                     EvDb (SELECT "email ==")] ++ evs)%list.
Proof.
  intros Hrf Hentry r w' H. unfold get_user_by_email in H.
  apply bind_inv in H. destruct H as [(hit & w0 & Hlook & H) | (e & Hlook & _)];
    rewrite (lookup_or_evict_healthy User_of _ w User_of_pure Hrf), Hentry in Hlook;
    cbn [fmap option_fmap option_map payload] in Hlook;
    unfold cached_answer in Hlook;
    change (py_truthy (PyDict (_user_to_dict u))) with true in Hlook;
    rewrite User_of_projection_raises in Hlook; cbn in Hlook;
    [| discriminate Hlook].
  injection Hlook as <- <-.
  apply bind_inv in H. destruct H as [(db_user & w4 & Hdb & H) | (e & Hdb & _)].
  - pose proof (query_first_run _ _ _ _ _ Hdb) as [(Ht & _) _].
    assert (Hon : onward w4 w').
    { revert H. generalize w4 r w'.
      change (steps onward
                (match db_user with
                 | Some u =>
                     _ ← try_except
                           (let user_dict := PyDict (_user_to_dict u) in
                            _ ← Cache.cache_set (USER_EMAIL_KEY (PyStr email)) user_dict
                                  USER_CACHE_EXPIRE;
                            _ ← Cache.cache_set (USER_KEY (User.id u)) user_dict
                                  USER_CACHE_EXPIRE;
                            ret tt)
                           (fun e => is_RedisError e || is_ValueError e)
                           (fun _ => ret tt);
                     ret (Some u)
                 | None => ret None
                 end)).
      onward_repo. }
    destruct Hon as [[evs Hevs] _]. exists evs.
    rewrite Hevs, Ht. cbn [trace set_redis log]. rewrite <- !app_assoc. reflexivity.
  - pose proof (query_first_run _ _ _ _ _ Hdb) as [(Ht & _) _].
    exists []. rewrite Ht. cbn [trace set_redis log]. rewrite <- !app_assoc. reflexivity.
Qed.


(** * Further properties *)

(** ** The Redis adapter *)

(** X1.  [cache_set], [cache_delete], [cache_multi_set] and
    [cache_clear_pattern] never raise, whatever the state of Redis and
    whatever the value: they answer a boolean. *)
Theorem cache_writes_never_raise (w : World) :
  (forall key value expire, exists b w',
      Cache.cache_set key value expire w = (Ok b, w'))
  /\ (forall key, exists b w', Cache.cache_delete key w = (Ok b, w'))
  /\ (forall data expire, exists b w',
        Cache.cache_multi_set data expire w = (Ok b, w'))
  /\ (forall pattern, exists b w', Cache.cache_clear_pattern pattern w = (Ok b, w')).
Proof.
  split; [| split; [| split]].
  - intros key value expire.
    destruct (Cache.cache_set key value expire w) as [[b | e] w'] eqn:E; [eauto |].
    discriminate (raises_only_cache_set (fun _ => false) _ _ _ _ _ _ E).
  - intros key.
    destruct (Cache.cache_delete key w) as [[b | e] w'] eqn:E; [eauto |].
    discriminate (raises_only_cache_delete (fun _ => false) _ _ _ _ E).
  - intros data expire.
    destruct (Cache.cache_multi_set data expire w) as [[b | e] w'] eqn:E; [eauto |].
    discriminate (raises_only_cache_multi_set (fun _ => false) _ _ _ _ _ E).
  - intros pattern.
    destruct (Cache.cache_clear_pattern pattern w) as [[b | e] w'] eqn:E; [eauto |].
    discriminate (raises_only_cache_clear_pattern (fun _ => false) _ _ _ _ E).
Qed.

(** X2.  With Redis reachable, a serializable value stored by [cache_set]
    with a positive expiry is what [cache_get] answers for that key
    afterwards, and the other keys hold what they held. *)
Theorem cache_set_then_get (key : string) (value : pyval) (expire : Z) (w : World) :
  redis_faults w = [] ->
  json_serializable value = true ->
  0 < expire ->
  exists w1,
    Cache.cache_set key value expire w = (Ok true, w1)
    /\ fst (Cache.cache_get key w1) = Ok value
    /\ redis w1 !! key = Some (mkEntry (Json value) expire)
    /\ (forall other, other <> key -> redis w1 !! other = redis w !! other).
Proof.
  intros Hrf Hj He. eexists. split; [apply cache_set_healthy; assumption |].
  split; [| split].
  - rewrite cache_get_healthy by exact Hrf. cbn [fst redis set_redis log].
    rewrite lookup_insert_eq. reflexivity.
  - cbn [redis set_redis log]. apply lookup_insert_eq.
  - intros other Hne. cbn [redis set_redis log]. apply lookup_insert_ne. congruence.
Qed.

Lemma cache_set_then_get_witness :
  exists w1,
    Cache.cache_set "user:7" (PyDict (_user_to_dict carol)) 3600 empty_world = (Ok true, w1)
    /\ fst (Cache.cache_get "user:7" w1) = Ok (PyDict (_user_to_dict carol))
    /\ redis w1 !! "user:7" = Some (mkEntry (Json (PyDict (_user_to_dict carol))) 3600)
    /\ (forall other, other <> "user:7" -> redis w1 !! other = redis empty_world !! other).
Proof.
  apply (cache_set_then_get "user:7" (PyDict (_user_to_dict carol)) 3600 empty_world).
  - reflexivity.
  - vm_compute. reflexivity.
  - lia.
Defined.

(** X3.  A value that [json.dumps] rejects (one that holds a [datetime]) is
    not cached: [cache_set] answers [False] without sending anything to
    Redis, and the world is as it was. *)
Theorem cache_set_unserializable (key : string) (value : pyval) (expire : Z) (w : World) :
  json_serializable value = false ->
  Cache.cache_set key value expire w = (Ok false, w).
Proof.
  intros Hj. unfold Cache.cache_set, Cache.serialize_value, try_except, mbind, M_bind, bind.
  rewrite Hj. reflexivity.
Qed.

Lemma cache_set_unserializable_witness :
  Cache.cache_set "k" (PyList [PyDatetime "2024-02-19 12:00:00+00:00"]) 3600 empty_world
  = (Ok false, empty_world).
Proof. apply cache_set_unserializable. reflexivity. Defined.

(** X4.  When the connection fails on the next command, [cache_get] raises
    the [RedisError], while [cache_set] (of a serializable value) and
    [cache_delete] answer [False]; in each case the key space is left as it
    was. *)
Theorem cache_calls_on_connection_failure (key : string) (value : pyval) (expire : Z)
    (rest : list bool) (w : World) :
  redis_faults w = true :: rest ->
  (exists m w', Cache.cache_get key w = (Raised (RedisError m), w') /\ redis w' = redis w)
  /\ (exists w', Cache.cache_set key value expire w = (Ok false, w') /\ redis w' = redis w)
  /\ (exists w', Cache.cache_delete key w = (Ok false, w') /\ redis w' = redis w)
  /\ (forall pattern,
        exists w', Cache.cache_clear_pattern pattern w = (Ok false, w') /\ redis w' = redis w).
Proof.
  intros Hrf.
  assert (Hcall : forall c, Cache.redis_call c w
                            = (Raised (RedisError "Error connecting to Redis"),
                               set_redis_faults rest (log (EvRedis c) w))).
  { intros c. unfold Cache.redis_call. rewrite Hrf. reflexivity. }
  split; [| split; [| split]].
  - eexists _, _. unfold Cache.cache_get, Cache.client_get, try_except, mbind, M_bind, bind.
    rewrite Hcall. cbn. split; reflexivity.
  - unfold Cache.cache_set, Cache.serialize_value, Cache.client_setex,
           try_except, mbind, M_bind, bind.
    destruct (json_serializable value); cbn.
    + rewrite Hcall. cbn. eexists. split; reflexivity.
    + eexists. split; reflexivity.
  - eexists. unfold Cache.cache_delete, Cache.client_delete, try_except, mbind, M_bind, bind.
    rewrite Hcall. cbn. split; reflexivity.
  - intros pattern. eexists.
    unfold Cache.cache_clear_pattern, Cache.client_keys, try_except, mbind, M_bind, bind.
    rewrite Hcall. cbn. split; reflexivity.
Qed.

Lemma cache_calls_on_connection_failure_witness :
  (exists m w', Cache.cache_get "user:1" (set_redis_faults [true] after_create)
                = (Raised (RedisError m), w')
                /\ redis w' = redis (set_redis_faults [true] after_create))
  /\ (exists w', Cache.cache_set "user:1" PyNone 3600 (set_redis_faults [true] after_create)
                 = (Ok false, w')
                 /\ redis w' = redis (set_redis_faults [true] after_create))
  /\ (exists w', Cache.cache_delete "user:1" (set_redis_faults [true] after_create)
                 = (Ok false, w')
                 /\ redis w' = redis (set_redis_faults [true] after_create))
  /\ (forall pattern,
        exists w', Cache.cache_clear_pattern pattern (set_redis_faults [true] after_create)
                   = (Ok false, w')
                   /\ redis w' = redis (set_redis_faults [true] after_create)).
Proof.
  apply (cache_calls_on_connection_failure "user:1" PyNone 3600 []
           (set_redis_faults [true] after_create)).
  reflexivity.
Defined.

(** X5.  With Redis reachable, [cache_delete] answers whether the key
    existed; afterwards the key is absent, [cache_get] answers [None] for
    it, and the other keys hold what they held. *)
Theorem cache_delete_removes (key : string) (w : World) :
  redis_faults w = [] ->
  exists w1,
    Cache.cache_delete key w = (Ok (bool_decide (is_Some (redis w !! key))), w1)
    /\ redis w1 !! key = None
    /\ fst (Cache.cache_get key w1) = Ok PyNone
    /\ (forall other, other <> key -> redis w1 !! other = redis w !! other).
Proof.
  intros Hrf. eexists. split; [| split; [| split]].
  - unfold Cache.cache_delete, Cache.client_delete, try_except, mbind, M_bind, bind.
    rewrite (redis_call_healthy _ _ Hrf). cbn -[remove_dups].
    change (remove_dups [key]) with [key].
    rewrite filter_cons, filter_nil.
    destruct (decide (is_Some (redis w !! key))) as [Hs | Hn].
    + rewrite (bool_decide_eq_true_2 _ Hs). reflexivity.
    + rewrite (bool_decide_eq_false_2 _ Hn). reflexivity.
  - cbn. apply lookup_delete_eq.
  - rewrite cache_get_healthy by exact Hrf. cbn [fst redis set_redis log foldr].
    rewrite lookup_delete_eq. reflexivity.
  - intros other Hne. cbn. apply lookup_delete_ne. congruence.
Qed.

Lemma cache_delete_removes_witness :
  exists w1,
    Cache.cache_delete "user:None" after_create
    = (Ok (bool_decide (is_Some (redis after_create !! "user:None"))), w1)
    /\ redis w1 !! "user:None" = None
    /\ fst (Cache.cache_get "user:None" w1) = Ok PyNone
    /\ (forall other, other <> "user:None" -> redis w1 !! other = redis after_create !! other).
Proof. apply (cache_delete_removes "user:None" after_create). reflexivity. Defined.

Lemma glob_keys_spec pattern (m : gmap string entry) k :
  k ∈ filter (fun k => redis_glob pattern k = true) (map fst (map_to_list m))
  <-> redis_glob pattern k = true /\ is_Some (m !! k).
Proof.
  rewrite list_elem_of_filter, list_elem_of_In, in_map_iff. split.
  - intros [Hg ([k' x] & Hk & Hin)]. cbn in Hk. subst k'. split; [exact Hg |].
    apply list_elem_of_In, elem_of_map_to_list in Hin. eauto.
  - intros [Hg [x Hx]]. split; [exact Hg |]. exists (k, x). split; [reflexivity |].
    apply list_elem_of_In, elem_of_map_to_list. exact Hx.
Qed.

Lemma cache_clear_pattern_healthy (pattern : string) (w : World) :
  redis_faults w = [] ->
  exists w1,
    Cache.cache_clear_pattern pattern w = (Ok true, w1)
    /\ (forall k, redis w1 !! k = if redis_glob pattern k then None else redis w !! k)
    /\ ((forall k, is_Some (redis w !! k) -> redis_glob pattern k = false) ->
        trace w1 = (trace w ++ [EvRedis (KEYS pattern)])%list).
Proof.
  intros Hrf.
  unfold Cache.cache_clear_pattern, Cache.client_keys, Cache.client_delete,
         try_except, mbind, M_bind, bind.
  rewrite (redis_call_healthy _ _ Hrf). cbn [get_world ret redis log].
  pose proof (glob_keys_spec pattern (redis w)) as Hspec.
  destruct (filter (fun k => redis_glob pattern k = true) (map fst (map_to_list (redis w))))
    as [| k0 ks] eqn:Hkeys.
  - eexists. split; [reflexivity |]. split; [| reflexivity].
    intros k. cbn [redis log].
    destruct (redis_glob pattern k) eqn:Hg; [| reflexivity].
    destruct (redis w !! k) as [x |] eqn:Hx; [| reflexivity].
    exfalso. assert (Hin : k ∈ @nil string) by (apply Hspec; eauto).
    inversion Hin.
  - rewrite redis_call_healthy by exact Hrf. cbn [get_world ret modify redis log set_redis].
    eexists. split; [| split].
    + f_equal. f_equal.
      apply Z.ltb_lt. apply (inj_lt 0), Nat.neq_0_lt_0. intros Hlen.
      apply length_zero_iff_nil in Hlen.
      assert (Hin : k0 ∈ filter (fun k => is_Some (redis w !! k)) (remove_dups (k0 :: ks))).
      { apply list_elem_of_filter. split.
        - apply (Hspec k0). left.
        - apply elem_of_remove_dups. left. }
      rewrite Hlen in Hin. inversion Hin.
    + intros k. cbn [redis set_redis log].
      destruct (redis_glob pattern k) eqn:Hg.
      * destruct (redis w !! k) as [x |] eqn:Hx.
        -- apply lookup_foldr_delete. apply Hspec. eauto.
        -- destruct (decide (k ∈ k0 :: ks)) as [Hin | Hnin].
           ++ apply lookup_foldr_delete. exact Hin.
           ++ rewrite lookup_foldr_delete_not_elem_of by exact Hnin. exact Hx.
      * apply lookup_foldr_delete_not_elem_of. intros Hin.
        apply Hspec in Hin. destruct Hin as [Hin _]. congruence.
    + intros Hnone. exfalso.
      assert (Hin : k0 ∈ k0 :: ks) by left.
      apply Hspec in Hin. destruct Hin as [Hg Hs].
      rewrite (Hnone _ Hs) in Hg. discriminate Hg.
Qed.

(** X6.  With Redis reachable, for a pattern made of literal characters,
    [*] and [?], [cache_clear_pattern] answers [True] and removes exactly the
    keys that match the pattern: a matching key is absent afterwards, every
    other key holds what it held.  When no key matches, no [DEL] is sent. *)
Theorem cache_clear_pattern_removes_matches (pattern : string) (w : World) :
  redis_faults w = [] ->
  glob_plain pattern = true ->
  exists w1,
    Cache.cache_clear_pattern pattern w = (Ok true, w1)
    /\ (forall k, redis w1 !! k = if redis_glob pattern k then None else redis w !! k)
    /\ ((forall k, is_Some (redis w !! k) -> redis_glob pattern k = false) ->
        trace w1 = (trace w ++ [EvRedis (KEYS pattern)])%list).
Proof. intros Hrf _. exact (cache_clear_pattern_healthy pattern w Hrf). Qed.

Lemma cache_clear_pattern_removes_matches_witness :
  (exists w1,
     Cache.cache_clear_pattern "users:list:*:*" world_with_page = (Ok true, w1)
     /\ redis w1 !! "users:list:0:100" = None)
  /\ (exists w1,
        Cache.cache_clear_pattern "user:?" world_with_page = (Ok true, w1)
        /\ redis w1 !! "users:list:0:100" = redis world_with_page !! "users:list:0:100"
        /\ trace w1 = (trace world_with_page ++ [EvRedis (KEYS "user:?")])%list).
Proof.
  split.
  - destruct (cache_clear_pattern_removes_matches "users:list:*:*" world_with_page
                eq_refl eq_refl) as (w1 & Hrun & Hkeys & _).
    exists w1. split; [exact Hrun |]. rewrite Hkeys. reflexivity.
  - destruct (cache_clear_pattern_removes_matches "user:?" world_with_page
                eq_refl eq_refl) as (w1 & Hrun & Hkeys & Htrace).
    exists w1. split; [exact Hrun |]. split; [rewrite Hkeys; reflexivity |].
    apply Htrace. intros k [x Hx].
    unfold world_with_page in Hx. cbn [redis set_redis] in Hx.
    apply lookup_singleton_Some in Hx. destruct Hx as [<- _]. reflexivity.
Defined.

Lemma foldr_insert_other (expire : Z) (l : list (string * pyval)) (m : gmap string entry) k :
  (forall v, (k, v) ∉ l) ->
  foldr (fun kv r => <[kv.1 := mkEntry (Json kv.2) expire]> r) m l !! k = m !! k.
Proof.
  induction l as [| [k1 v1] l IH]; intros Hn; [reflexivity |].
  cbn [foldr fst snd]. rewrite lookup_insert_ne.
  - apply IH. intros v Hin. apply (Hn v). right. exact Hin.
  - intros ->. apply (Hn v1). left.
Qed.

Lemma foldr_insert_same (expire : Z) (l : list (string * pyval)) (m : gmap string entry) k v :
  (k, v) ∈ l ->
  (forall v', (k, v') ∈ l -> v' = v) ->
  foldr (fun kv r => <[kv.1 := mkEntry (Json kv.2) expire]> r) m l !! k
  = Some (mkEntry (Json v) expire).
Proof.
  induction l as [| [k1 v1] l IH]; intros Hin Hfun; [inversion Hin |].
  cbn [foldr fst snd]. destruct (decide (k1 = k)) as [-> | Hne].
  - rewrite (Hfun v1 ltac:(left)). apply lookup_insert_eq.
  - rewrite lookup_insert_ne by exact Hne. apply IH.
    + apply elem_of_cons in Hin. destruct Hin as [Heq | Hin]; [congruence | exact Hin].
    + intros v' Hv'. apply Hfun. right. exact Hv'.
Qed.

(** X7.  With Redis reachable and a positive expiry, [cache_multi_set]
    answers [True] after one round trip; every item of the dict whose value
    serializes is stored under its key, an item whose value does not
    serialize is skipped, and the keys that are not in the dict hold what
    they held. *)
Theorem cache_multi_set_stores (data : gmap string pyval) (expire : Z) (w : World) :
  redis_faults w = [] ->
  0 < expire ->
  exists w1,
    Cache.cache_multi_set data expire w = (Ok true, w1)
    /\ (forall k,
          redis w1 !! k
          = match data !! k with
            | Some v =>
                if json_serializable v then Some (mkEntry (Json v) expire)
                else redis w !! k
            | None => redis w !! k
            end)
    /\ (exists queued, trace w1 = (trace w ++ [EvRedis (EXEC queued)])%list).
Proof.
  intros Hrf He.
  unfold Cache.cache_multi_set, try_except, mbind, M_bind, bind.
  rewrite (redis_call_healthy _ _ Hrf).
  destruct (Z.leb_spec expire 0) as [Hle | _]; [lia |].
  cbn [andb modify ret]. eexists. split; [reflexivity |]. split; [| eauto].
  intros k. cbn [redis set_redis log].
  destruct (data !! k) as [v |] eqn:Hk.
  - destruct (json_serializable v) eqn:Hj.
    + apply foldr_insert_same.
      * apply list_elem_of_filter. split; [exact Hj |].
        apply elem_of_map_to_list. exact Hk.
      * intros v' Hv'. apply list_elem_of_filter in Hv'. destruct Hv' as [_ Hv'].
        apply elem_of_map_to_list in Hv'. congruence.
    + apply foldr_insert_other. intros v' Hv'.
      apply list_elem_of_filter in Hv'. destruct Hv' as [Hj' Hv'].
      apply elem_of_map_to_list in Hv'. cbn in Hj'. congruence.
  - apply foldr_insert_other. intros v' Hv'.
    apply list_elem_of_filter in Hv'. destruct Hv' as [_ Hv'].
    apply elem_of_map_to_list in Hv'. congruence.
Qed.

Lemma cache_multi_set_stores_witness :
  exists w1,
    Cache.cache_multi_set {[ "user:7" := PyDict (_user_to_dict carol) ]} 3600 empty_world
    = (Ok true, w1)
    /\ (forall k,
          redis w1 !! k
          = match ({[ "user:7" := PyDict (_user_to_dict carol) ]} : gmap string pyval) !! k with
            | Some v =>
                if json_serializable v then Some (mkEntry (Json v) 3600)
                else redis empty_world !! k
            | None => redis empty_world !! k
            end)
    /\ (exists queued, trace w1 = (trace empty_world ++ [EvRedis (EXEC queued)])%list).
Proof.
  apply (cache_multi_set_stores {[ "user:7" := PyDict (_user_to_dict carol) ]} 3600 empty_world).
  - reflexivity.
  - lia.
Defined.

(** ** The retry wrapper *)

Lemma retry_passes_what_is_no_deadlock {A} (func : M A) (w : World) :
  (forall d w', func w = (Raised (OperationalError d), w') ->
                str_contains "deadlock" (str_lower d) = false) ->
  with_transaction_retry func w = func w.
Proof.
  intros H. unfold with_transaction_retry.
  destruct (func w) as [[a | e] w'] eqn:Hf.
  - exact (retry_loop_success func _ _ _ _ _ Hf).
  - destruct e as [m | m | m | d | m | m];
      try (destruct (Z.to_nat MAX_RETRIES); cbn [retry_loop]; unfold try_except;
           rewrite Hf; reflexivity).
    exact (retry_loop_not_deadlock func _ _ _ _ _ Hf (H _ _ eq_refl)).
Qed.

(** X8.  [with_transaction_retry] is transparent for an execution that
    does not dead-lock: when the first execution returns, or raises anything
    but an [OperationalError] whose text mentions a deadlock, the wrapper
    does exactly what that one execution does, without sleeping. *)
Theorem with_transaction_retry_transparent {A} (func : M A) (w : World) :
  (forall d w', func w = (Raised (OperationalError d), w') ->
                str_contains "deadlock" (str_lower d) = false) ->
  with_transaction_retry func w = func w.
Proof. exact (retry_passes_what_is_no_deadlock func w). Qed.

Lemma with_transaction_retry_transparent_witness :
  with_transaction_retry (get_user 1) after_create = get_user 1 after_create.
Proof.
  apply (with_transaction_retry_transparent (get_user 1) after_create).
  intros d w' H. vm_compute in H. discriminate H.
Defined.

(** X9.  An operation that dead-locks on its first two executions and then
    does not is executed three times: the wrapper sleeps [RETRY_BACKOFF] x 1
    and [RETRY_BACKOFF] x 2 in between and ends as the third execution
    does. *)
Theorem with_transaction_retry_recovers {A} (func : M A) (w w1 w2 : World) (d1 d2 : string) :
  func w = (Raised (OperationalError d1), w1) ->
  str_contains "deadlock" (str_lower d1) = true ->
  func (slept 1 w1) = (Raised (OperationalError d2), w2) ->
  str_contains "deadlock" (str_lower d2) = true ->
  (forall d w', func (slept 2 w2) = (Raised (OperationalError d), w') ->
                str_contains "deadlock" (str_lower d) = false) ->
  with_transaction_retry func w = func (slept 2 w2).
Proof.
  intros Hf1 Hd1 Hf2 Hd2 H3. unfold with_transaction_retry.
  change (Z.to_nat MAX_RETRIES) with 3%nat.
  rewrite (retry_loop_deadlock_step func 2 0 w d1 w1 Hf1 Hd1) by (unfold MAX_RETRIES; lia).
  change (0 + 1) with 1.
  rewrite (retry_loop_deadlock_step func 1 1 _ d2 w2 Hf2 Hd2) by (unfold MAX_RETRIES; lia).
  change (1 + 1) with 2.
  destruct (func (slept 2 w2)) as [[a | e] w'] eqn:Hf.
  - exact (retry_loop_success func _ _ _ _ _ Hf).
  - destruct e as [m | m | m | d | m | m];
      try (cbn [retry_loop]; unfold try_except; rewrite Hf; reflexivity).
    exact (retry_loop_not_deadlock func _ _ _ _ _ Hf (H3 _ _ eq_refl)).
Qed.

Lemma with_transaction_retry_recovers_witness :
  with_transaction_retry flaky_commit two_deadlocks
  = flaky_commit
      (slept 2 (snd (flaky_commit (slept 1 (snd (flaky_commit two_deadlocks)))))).
Proof.
  apply (with_transaction_retry_recovers flaky_commit two_deadlocks
           (snd (flaky_commit two_deadlocks))
           (snd (flaky_commit (slept 1 (snd (flaky_commit two_deadlocks)))))
           "Deadlock found" "Deadlock found").
  - reflexivity.
  - vm_compute. reflexivity.
  - reflexivity.
  - vm_compute. reflexivity.
  - intros d w' H. vm_compute in H. discriminate H.
Defined.

Example flaky_commit_three_commits :
  fst (with_transaction_retry flaky_commit two_deadlocks) = Ok tt
  /\ commits (trace (snd (with_transaction_retry flaky_commit two_deadlocks))) = 3%nat.
Proof. split; vm_compute; reflexivity. Qed.

(** ** Reading by id *)

Lemma get_user_hit_healthy user_id v t u w :
  redis_faults w = [] ->
  redis w !! USER_KEY (PyInt user_id) = Some (mkEntry (Json v) t) ->
  py_truthy v = true ->
  usable_hit v = Some u ->
  get_user user_id w = (Ok (Some u), log (EvRedis (GET (USER_KEY (PyInt user_id)))) w).
Proof.
  intros Hrf Hentry Htr Hhit. unfold get_user.
  unfold mbind at 1, M_bind at 1, bind at 1.
  rewrite (get_user_lookup_healthy _ _ Hrf), Hentry.
  cbv beta iota zeta delta [fst snd fmap option_fmap option_map payload].
  rewrite Htr.
  unfold mbind, M_bind, bind. rewrite get_user_rebuild_pure, Hhit. reflexivity.
Qed.

Lemma validate_projection u :
  isinstance_int (User.id u) = true ->
  isinstance_str (User.email u) = true ->
  isinstance_str (User.username u) = true ->
  _validate_cache_data (PyDict (_user_to_dict u)) = true.
Proof.
  intros Hi He Hn. apply validate_cache_data_spec.
  split; [| split; [| split; [| split]]].
  - intros f Hf. cbn in Hf.
    destruct Hf as [<- | [<- | [<- | [<- | [<- | [<- | [<- | [<- | [<- | []]]]]]]]]];
      vm_compute; eauto.
  - exists (User.id u). split; [reflexivity | exact Hi].
  - destruct (User.email u) eqn:E; try discriminate He.
    eexists. unfold _user_to_dict. rewrite E. reflexivity.
  - destruct (User.username u) eqn:E; try discriminate Hn.
    eexists. unfold _user_to_dict. rewrite E. reflexivity.
  - right. reflexivity.
Qed.

Lemma usable_hit_projection u :
  isinstance_int (User.id u) = true ->
  isinstance_str (User.email u) = true ->
  isinstance_str (User.username u) = true ->
  usable_hit (PyDict (_user_to_dict u)) = Some (rebuilt u).
Proof.
  intros Hi He Hn. unfold usable_hit.
  rewrite (validate_projection u Hi He Hn). reflexivity.
Qed.

Lemma row_ok_types row :
  row_ok row = true ->
  isinstance_int (User.id row) = true
  /\ isinstance_str (User.email row) = true
  /\ isinstance_str (User.username row) = true
  /\ (exists s, User.created_at row = PyDatetime s).
Proof.
  unfold row_ok. destruct row as [st i e n h f a s c m].
  cbn [User.id User.email User.username User.full_name User.is_active
       User.is_superuser User.created_at User.updated_at].
  intros H.
  destruct i; try discriminate H; destruct e; try discriminate H;
    destruct n; try discriminate H; destruct a; try discriminate H;
    destruct s; try discriminate H; destruct c; try discriminate H.
  repeat split; eauto.
Qed.

(** X10.  Read-through, then hit.  With Redis and the database reachable,
    no entry under [user:{id}] and a row with that id in the table,
    [get_user] answers with the row after a [GET], a [SELECT] and a [SETEX]
    that stores the row's projection for 3600 s.  The next [get_user]
    sends the one [GET] and no query, and answers with the entity rebuilt
    from the entry, which is not the row: it is a transient instance without
    [hashed_password], and its timestamps are strings. *)
Theorem get_user_read_through_then_hit (user_id : Z) (row : User.t) (w : World) :
  redis_faults w = [] ->
  db_faults w = [] ->
  redis w !! USER_KEY (PyInt user_id) = None ->
  head (List.filter (fun r => Db.id_eq (User.id r) user_id) (table w)) = Some row ->
  row_ok row = true ->
  exists w1,
    get_user user_id w = (Ok (Some row), w1)
    /\ redis w1 !! USER_KEY (PyInt user_id)
       = Some (mkEntry (Json (PyDict (_user_to_dict row))) USER_CACHE_EXPIRE)
    /\ trace w1 = (trace w ++ [EvRedis (GET (USER_KEY (PyInt user_id)));
                                EvDb (SELECT "id ==");
                                EvRedis (SETEX (USER_KEY (PyInt user_id)) USER_CACHE_EXPIRE)])%list
    /\ get_user user_id w1
       = (Ok (Some (rebuilt row)), log (EvRedis (GET (USER_KEY (PyInt user_id)))) w1)
    /\ rebuilt row <> row
    /\ User.hashed_password (rebuilt row) = PyNone.
Proof.
  intros Hrf Hdf Hnone Hrow Hok.
  destruct (row_ok_types row Hok) as (Hi & He & Hn & (s & Hc)).
  eexists. split; [| split; [| split; [| split; [| split]]]].
  - unfold get_user. unfold mbind at 1, M_bind at 1, bind at 1.
    rewrite (get_user_lookup_healthy _ _ Hrf), Hnone.
    cbv beta iota zeta delta [fst snd fmap option_fmap option_map payload py_truthy].
    unfold mbind, M_bind, bind. cbv beta iota zeta delta [ret].
    rewrite query_first_healthy by exact Hdf.
    change (table (log _ w)) with (table w). rewrite Hrow.
    unfold try_except.
    rewrite cache_set_healthy;
      [ | exact Hrf | exact (row_ok_serializable _ Hok) | reflexivity ].
    reflexivity.
  - cbn [redis set_redis set_session log]. apply lookup_insert_eq.
  - cbn [trace set_redis set_session log]. rewrite <- !app_assoc. reflexivity.
  - apply (get_user_hit_healthy user_id (PyDict (_user_to_dict row)) USER_CACHE_EXPIRE).
    + exact Hrf.
    + cbn [redis set_redis set_session log]. apply lookup_insert_eq.
    + reflexivity.
    + exact (usable_hit_projection row Hi He Hn).
  - intros Heq. apply (f_equal User.created_at) in Heq. rewrite Hc in Heq. discriminate Heq.
  - reflexivity.
Qed.

Lemma get_user_read_through_then_hit_witness :
  exists w1,
    get_user 1 (world_without_entry) = (Ok (Some alice_row), w1)
    /\ redis w1 !! USER_KEY (PyInt 1)
       = Some (mkEntry (Json (PyDict (_user_to_dict alice_row))) USER_CACHE_EXPIRE)
    /\ trace w1 = (trace world_without_entry
                     ++ [EvRedis (GET (USER_KEY (PyInt 1)));
                         EvDb (SELECT "id ==");
                         EvRedis (SETEX (USER_KEY (PyInt 1)) USER_CACHE_EXPIRE)])%list
    /\ get_user 1 w1
       = (Ok (Some (rebuilt alice_row)), log (EvRedis (GET (USER_KEY (PyInt 1)))) w1)
    /\ rebuilt alice_row <> alice_row
    /\ User.hashed_password (rebuilt alice_row) = PyNone.
Proof.
  apply (get_user_read_through_then_hit 1 alice_row world_without_entry);
    vm_compute; reflexivity.
Defined.

Lemma cache_get_fault key rest w :
  redis_faults w = true :: rest ->
  Cache.cache_get key w
  = (Raised (RedisError "Error connecting to Redis"),
     set_redis_faults rest (log (EvRedis (GET key)) w)).
Proof.
  intros Hrf.
  unfold Cache.cache_get, Cache.client_get, try_except, mbind, M_bind, bind,
         Cache.redis_call.
  rewrite Hrf. reflexivity.
Qed.

Lemma get_user_lookup_fault key rest w :
  redis_faults w = true :: rest ->
  try_except (v ← Cache.cache_get key; ret (v, true)) is_RedisError
             (fun _ => ret (PyNone, false)) w
  = (Ok (PyNone, false), set_redis_faults rest (log (EvRedis (GET key)) w)).
Proof.
  intros Hrf. unfold try_except, mbind, M_bind, bind.
  rewrite (cache_get_fault _ _ _ Hrf). reflexivity.
Qed.

(** X11.  When the connection to Redis fails on the lookup, [get_user]
    answers from the database alone (the row with that id, or absent) and
    does not try to write the cache: the only commands are the failed [GET]
    and the [SELECT]. *)
Theorem get_user_without_redis (user_id : Z) (rest : list bool) (w : World) :
  redis_faults w = true :: rest ->
  db_faults w = [] ->
  exists w1,
    get_user user_id w
    = (Ok (head (List.filter (fun r => Db.id_eq (User.id r) user_id) (table w))), w1)
    /\ trace w1 = (trace w ++ [EvRedis (GET (USER_KEY (PyInt user_id)));
                                EvDb (SELECT "id ==")])%list
    /\ redis w1 = redis w
    /\ table w1 = table w.
Proof.
  intros Hrf Hdf. eexists. split; [| split; [| split]].
  - unfold get_user. unfold mbind at 1, M_bind at 1, bind at 1.
    rewrite (get_user_lookup_fault _ _ _ Hrf).
    cbv beta iota zeta delta [fst snd py_truthy].
    unfold mbind, M_bind, bind. cbv beta iota zeta delta [ret].
    rewrite query_first_healthy by exact Hdf.
    change (table (set_redis_faults _ _)) with (table w).
    destruct (head _); reflexivity.
  - cbn [trace set_redis set_session set_redis_faults log]. rewrite <- !app_assoc. reflexivity.
  - reflexivity.
  - reflexivity.
Qed.

Lemma get_user_without_redis_witness :
  exists w1,
    get_user 1 (set_redis_faults [true] after_create)
    = (Ok (head (List.filter (fun r => Db.id_eq (User.id r) 1)
                             (table (set_redis_faults [true] after_create)))), w1)
    /\ trace w1 = (trace (set_redis_faults [true] after_create)
                     ++ [EvRedis (GET (USER_KEY (PyInt 1))); EvDb (SELECT "id ==")])%list
    /\ redis w1 = redis (set_redis_faults [true] after_create)
    /\ table w1 = table (set_redis_faults [true] after_create).
Proof.
  apply (get_user_without_redis 1 [] (set_redis_faults [true] after_create)); reflexivity.
Defined.

(** ** The reads and the database *)

Lemma same_store_refl w : same_store w w.
Proof. repeat split. Qed.

Lemma same_store_trans w1 w2 w3 : same_store w1 w2 -> same_store w2 w3 -> same_store w1 w3.
Proof.
  intros (A1 & A2 & A3 & A4 & A5) (B1 & B2 & B3 & B4 & B5).
  repeat split; congruence.
Qed.

Lemma same_store_redis_call c : steps same_store (Cache.redis_call c).
Proof.
  intros w r w' H. unfold Cache.redis_call in H.
  destruct (redis_faults w) as [| [|] rest]; injection H as _ <-; repeat split.
Qed.

Lemma same_store_db_call c : steps same_store (Db.db_call c).
Proof.
  intros w r w' H. unfold Db.db_call in H.
  destruct (db_faults w) as [| [d |] rest]; injection H as _ <-; repeat split.
Qed.

(** Structural steps of a [steps same_store] goal. *)
Ltac store_step :=
  first
    [ apply steps_ret; exact same_store_refl
    | apply steps_raise; exact same_store_refl
    | apply steps_get_world; exact same_store_refl
    | apply same_store_redis_call
    | apply same_store_db_call
    | apply steps_modify; intros ?; repeat split
    | apply steps_bind; [exact same_store_trans | | intros ? ]
    | apply steps_try; [exact same_store_trans | | intros ? ]
    | match goal with
      | |- steps _ (if ?b then _ else _) => destruct b
      | |- steps _ (match ?x with _ => _ end) => destruct x
      end ].

Lemma same_store_cache_get key : steps same_store (Cache.cache_get key).
Proof. unfold Cache.cache_get, Cache.client_get, Cache.deserialize_value. repeat store_step. Qed.

Lemma same_store_cache_set key value expire :
  steps same_store (Cache.cache_set key value expire).
Proof.
  unfold Cache.cache_set, Cache.serialize_value, Cache.client_setex. repeat store_step.
Qed.

Lemma same_store_cache_delete key : steps same_store (Cache.cache_delete key).
Proof. unfold Cache.cache_delete, Cache.client_delete. repeat store_step. Qed.

Lemma same_store_cache_multi_set data expire :
  steps same_store (Cache.cache_multi_set data expire).
Proof. unfold Cache.cache_multi_set. repeat store_step. Qed.

Lemma same_store_cache_clear_pattern pattern :
  steps same_store (Cache.cache_clear_pattern pattern).
Proof.
  unfold Cache.cache_clear_pattern, Cache.client_keys, Cache.client_delete.
  repeat store_step.
Qed.

Lemma same_store_User_init kwargs : steps same_store (User_init kwargs).
Proof. intros w r w' H. apply User_init_run in H. subst w'. apply same_store_refl. Qed.

Lemma same_store_User_of v : steps same_store (User_of v).
Proof. intros w r w' H. apply User_of_run in H. subst w'. apply same_store_refl. Qed.

Lemma same_store_users_of v : steps same_store (users_of v).
Proof. intros w r w' H. apply users_of_run in H. subst w'. apply same_store_refl. Qed.

Lemma same_store_query_first what p : steps same_store (Db.query_first what p).
Proof. unfold Db.query_first. repeat store_step. Qed.

Lemma same_store_query_page skip limit : steps same_store (Db.query_page skip limit).
Proof. unfold Db.query_page. repeat store_step. Qed.

(** Steps of a [steps same_store] goal about the repository. *)
Ltac store_repo :=
  repeat first
    [ apply same_store_cache_get
    | apply same_store_cache_set
    | apply same_store_cache_delete
    | apply same_store_cache_multi_set
    | apply same_store_cache_clear_pattern
    | apply same_store_User_of
    | apply same_store_users_of
    | apply same_store_User_init
    | apply same_store_query_first
    | apply same_store_query_page
    | store_step ].

(** X12.  The three reads never touch the database state: whatever the
    cache holds and whatever fails, [get_user], [get_user_by_email] and
    [get_users] leave the rows, the next id and the session's unit of work as
    they were. *)
Theorem reads_leave_the_store :
  (forall user_id, steps same_store (get_user user_id))
  /\ (forall email, steps same_store (get_user_by_email email))
  /\ (forall skip limit, steps same_store (get_users skip limit)).
Proof.
  split; [| split].
  - intros user_id. unfold get_user. store_repo.
  - intros email. unfold get_user_by_email. store_repo.
  - intros skip limit. unfold get_users. store_repo.
Qed.

(** X14.  Whatever the fault plan of Redis, none of the six repository
    operations raises a [RedisError]: a connectivity failure of the cache
    never reaches the caller. *)
Theorem no_RedisError_reaches_the_caller :
  (forall user_data, raises_only (fun e => negb (is_RedisError e)) (create_user user_data))
  /\ (forall user_id, raises_only (fun e => negb (is_RedisError e)) (get_user user_id))
  /\ (forall email, raises_only (fun e => negb (is_RedisError e)) (get_user_by_email email))
  /\ (forall skip limit,
        raises_only (fun e => negb (is_RedisError e)) (get_users skip limit))
  /\ (forall user_id user_data,
        raises_only (fun e => negb (is_RedisError e)) (update_user user_id user_data))
  /\ (forall user_id, raises_only (fun e => negb (is_RedisError e)) (delete_user user_id)).
Proof. exact repository_raises_no_RedisError. Qed.

(** ** Entries the repository writes and cannot read back *)

(** X15.  For every email and every entity: when the key
    [user:email:{email}] holds the projection that the repository writes
    and Redis is reachable, [get_user_by_email] evicts the entry and queries
    the database; the first three commands of the call are the [GET], the
    [DEL] and the [SELECT]. *)
Theorem get_user_by_email_never_hits (email : string) (u : User.t) (t : Z) (w : World) :
  redis_faults w = [] ->
  redis w !! USER_EMAIL_KEY (PyStr email)
  = Some (mkEntry (Json (PyDict (_user_to_dict u))) t) ->
  exists evs,
    trace (snd (get_user_by_email email w))
    = (trace w ++ [EvRedis (GET (USER_EMAIL_KEY (PyStr email)));
                   EvRedis (DEL [USER_EMAIL_KEY (PyStr email)]);
                   EvDb (SELECT "email ==")] ++ evs)%list.
Proof.
  intros Hrf Hentry.
  destruct (get_user_by_email email w) as [r w'] eqn:H.
  exact (get_user_by_email_evicts_projection email u t w Hrf Hentry r w' H).
Qed.

Lemma get_user_by_email_never_hits_witness :
  exists evs,
    trace (snd (get_user_by_email "a@x.com" after_read))
    = (trace after_read ++ [EvRedis (GET (USER_EMAIL_KEY (PyStr "a@x.com")));
                            EvRedis (DEL [USER_EMAIL_KEY (PyStr "a@x.com")]);
                            EvDb (SELECT "email ==")] ++ evs)%list.
Proof.
  apply (get_user_by_email_never_hits "a@x.com" alice_row 3600 after_read).
  - reflexivity.
  - vm_compute. reflexivity.
Defined.

Lemma users_of_page_raises (u0 : User.t) (rest : list User.t) :
  fst (users_of (PyList (map (fun u => PyDict (_user_to_dict u)) (u0 :: rest))) empty_world)
  = Raised (TypeError "'_cache_version' is an invalid keyword argument for User").
Proof.
  cbn [users_of map users_of_items]. unfold mbind, M_bind, bind.
  rewrite User_of_projection_raises. reflexivity.
Qed.

(** X16.  For every page: when the key [users:list:{skip}:{limit}] holds
    a list of projections as the repository writes it and Redis is
    reachable, [get_users] evicts the entry and queries the database; the
    first three commands of the call are the [GET], the [DEL] and the
    [SELECT]. *)
Theorem get_users_never_hits (skip limit : Z) (u0 : User.t) (rest : list User.t)
    (t : Z) (w : World) :
  0 <= skip ->
  0 < limit ->
  redis_faults w = [] ->
  redis w !! USERS_LIST_KEY (PyInt skip) (PyInt limit)
  = Some (mkEntry (Json (PyList (map (fun u => PyDict (_user_to_dict u)) (u0 :: rest)))) t) ->
  exists evs,
    trace (snd (get_users skip limit w))
    = (trace w ++ [EvRedis (GET (USERS_LIST_KEY (PyInt skip) (PyInt limit)));
                   EvRedis (DEL [USERS_LIST_KEY (PyInt skip) (PyInt limit)]);
                   EvDb (SELECT "offset/limit")] ++ evs)%list.
Proof.
  intros Hs Hl Hrf Hentry.
  destruct (get_users skip limit w) as [r w'] eqn:H. cbn [snd].
  unfold get_users in H.
  destruct (Z.ltb_spec skip 0); [lia |].
  destruct (Z.leb_spec limit 0); [lia |].
  apply bind_inv in H. destruct H as [(hit & w0 & Hlook & H) | (e & Hlook & _)];
    rewrite (lookup_or_evict_healthy users_of _ w users_of_pure Hrf), Hentry in Hlook;
    cbn [fmap option_fmap option_map payload] in Hlook;
    unfold cached_answer in Hlook;
    change (py_truthy (PyList (map (fun u => PyDict (_user_to_dict u)) (u0 :: rest))))
      with true in Hlook;
    rewrite users_of_page_raises in Hlook; cbn in Hlook;
    [| discriminate Hlook].
  injection Hlook as <- <-.
  apply bind_inv in H. destruct H as [(db_users & w4 & Hdb & H) | (e & Hdb & _)].
  - pose proof (query_page_run _ _ _ _ _ Hdb) as [(Ht & _) _].
    assert (Hon : onward w4 w').
    { destruct db_users as [| u1 us]; [injection H as _ <-; apply onward_refl |].
      match type of H with ?m _ = _ => assert (Hm : steps onward m) end.
      { onward_repo. }
      exact (Hm _ _ _ H). }
    destruct Hon as [[evs Hevs] _]. exists evs.
    rewrite Hevs, Ht. cbn [trace set_redis log]. rewrite <- !app_assoc. reflexivity.
  - pose proof (query_page_run _ _ _ _ _ Hdb) as [(Ht & _) _].
    exists []. rewrite Ht. cbn [trace set_redis log]. rewrite <- !app_assoc. reflexivity.
Qed.

Lemma get_users_never_hits_witness :
  exists evs,
    trace (snd (get_users 0 100 world_with_page))
    = (trace world_with_page
         ++ [EvRedis (GET (USERS_LIST_KEY (PyInt 0) (PyInt 100)));
             EvRedis (DEL [USERS_LIST_KEY (PyInt 0) (PyInt 100)]);
             EvDb (SELECT "offset/limit")] ++ evs)%list.
Proof.
  apply (get_users_never_hits 0 100 carol [] 300 world_with_page).
  - lia.
  - lia.
  - reflexivity.
  - vm_compute. reflexivity.
Defined.

(** ** Writes through an entity that came from the cache *)

Lemma get_user_cached_row user_id row t w :
  redis_faults w = [] ->
  redis w !! USER_KEY (PyInt user_id) = Some (mkEntry (Json (PyDict (_user_to_dict row))) t) ->
  row_ok row = true ->
  get_user user_id w
  = (Ok (Some (rebuilt row)), log (EvRedis (GET (USER_KEY (PyInt user_id)))) w).
Proof.
  intros Hrf Hentry Hok.
  destruct (row_ok_types row Hok) as (Hi & He & Hn & _).
  apply (get_user_hit_healthy user_id (PyDict (_user_to_dict row)) t);
    [exact Hrf | exact Hentry | reflexivity | exact (usable_hit_projection row Hi He Hn)].
Qed.

(** X17.  [delete_user] after the entity has been cached.  When the key
    [user:{id}] holds the projection of the row (as [get_user] leaves it
    after a read-through) and Redis is reachable, [delete_user] gets from
    [get_user] an instance rebuilt from the cache, which the session does not
    know: [db.delete] raises [InvalidRequestError], the row stays in the
    table and the cache entries stay as well. *)
Theorem delete_user_of_cached_entity (user_id : Z) (row : User.t) (t : Z) (w : World) :
  redis_faults w = [] ->
  redis w !! USER_KEY (PyInt user_id) = Some (mkEntry (Json (PyDict (_user_to_dict row))) t) ->
  row_ok row = true ->
  exists w',
    delete_user user_id w = (Raised (InvalidRequestError "Instance is not persisted"), w')
    /\ table w' = table w
    /\ redis w' = redis w
    /\ forallb (fun e => match e with EvRedis (DEL _) => false | _ => true end)
               (drop (length (trace w)) (trace w')) = true.
Proof.
  intros Hrf Hentry Hok.
  assert (Honce : exists w',
             delete_user_once user_id w
             = (Raised (InvalidRequestError "Instance is not persisted"), w')
             /\ table w' = table w /\ redis w' = redis w
             /\ forallb (fun e => match e with EvRedis (DEL _) => false | _ => true end)
                        (drop (length (trace w)) (trace w')) = true).
  { unfold delete_user_once. unfold mbind at 1, M_bind at 1, bind at 1.
    rewrite (get_user_cached_row _ _ _ _ Hrf Hentry Hok).
    unfold transaction_context, Db.delete, Db.rollback, try_except, mbind, M_bind, bind.
    cbn [get_world andb rebuilt User.sa_state raise ret].
    destruct (in_transaction (log (EvRedis (GET (USER_KEY (PyInt user_id)))) w)) eqn:Hin;
      cbn [raise]; eexists; (split; [reflexivity |]); (split; [reflexivity |]);
      (split; [reflexivity |]);
      cbn [trace log set_session]; rewrite <- ?app_assoc, drop_app_length; reflexivity. }
  destruct Honce as (w' & Honce & Ht & Hr & Hd). exists w'.
  split; [| auto].
  unfold delete_user. rewrite retry_passes_what_is_no_deadlock; [exact Honce |].
  intros d w'' H. rewrite Honce in H. discriminate H.
Qed.

Lemma delete_user_of_cached_entity_witness :
  exists w',
    delete_user 1 (world_tagged "1.1")
    = (Raised (InvalidRequestError "Instance is not persisted"), w')
    /\ table w' = table (world_tagged "1.1")
    /\ redis w' = redis (world_tagged "1.1")
    /\ forallb (fun e => match e with EvRedis (DEL _) => false | _ => true end)
               (drop (length (trace (world_tagged "1.1"))) (trace w')) = true.
Proof.
  apply (delete_user_of_cached_entity 1 alice_row 3600 (world_tagged "1.1"));
    vm_compute; reflexivity.
Defined.

Lemma db_quiet_ret {A} (a : A) : db_quiet (ret a).
Proof.
  intros w r w' Hc H. injection H as <- <-.
  refine (conj Hc (conj eq_refl (conj eq_refl _))). intros e He. discriminate He.
Qed.

Lemma db_quiet_raise {A} e : is_OperationalError e = false -> db_quiet (@raise A e).
Proof.
  intros He w r w' Hc H. injection H as <- <-.
  refine (conj Hc (conj eq_refl (conj eq_refl _))).
  intros e' Hd. injection Hd as <-. exact He.
Qed.

Lemma db_quiet_get_world : db_quiet get_world.
Proof.
  intros w r w' Hc H. injection H as <- <-.
  refine (conj Hc (conj eq_refl (conj eq_refl _))). intros e He. discriminate He.
Qed.

Lemma db_quiet_modify f :
  (forall w, db_faults (f w) = db_faults w /\ sess_new (f w) = sess_new w
             /\ sess_dirty (f w) = sess_dirty w /\ sess_deleted (f w) = sess_deleted w
             /\ table (f w) = table w /\ next_id (f w) = next_id w) ->
  db_quiet (modify f).
Proof.
  intros Hf w r w' (C1 & C2 & C3 & C4) H. injection H as <- <-.
  destruct (Hf w) as (F1 & F2 & F3 & F4 & F5 & F6).
  split; [repeat split; congruence |].
  split; [exact F5 |]. split; [exact F6 |]. intros e He. discriminate He.
Qed.

Lemma db_quiet_bind {A B} (m : M A) (k : A -> M B) :
  db_quiet m -> (forall a, db_quiet (k a)) -> db_quiet (m ≫= k).
Proof.
  intros Hm Hk w r w' Hc H. apply bind_inv in H.
  destruct H as [(a & w1 & Ha & H) | (e & Ha & ->)].
  - destruct (Hm _ _ _ Hc Ha) as (C1 & T1 & N1 & _).
    destruct (Hk a _ _ _ C1 H) as (C2 & T2 & N2 & R2).
    split; [exact C2 |]. split; [congruence |]. split; [congruence | exact R2].
  - destruct (Hm _ _ _ Hc Ha) as (C1 & T1 & N1 & R1).
    split; [exact C1 |]. split; [exact T1 |]. split; [exact N1 |].
    intros e' He'. injection He' as <-. exact (R1 e eq_refl).
Qed.

Lemma db_quiet_try {A} (body : M A) h handler :
  db_quiet body ->
  (forall e, h e = true -> is_OperationalError e = false -> db_quiet (handler e)) ->
  db_quiet (try_except body h handler).
Proof.
  intros Hb Hh w r w' Hc H. apply try_except_inv in H.
  destruct H as [(a & H & ->) | [(e & w1 & H & He & Hr) | (e & H & _ & ->)]].
  - exact (Hb _ _ _ Hc H).
  - destruct (Hb _ _ _ Hc H) as (C1 & T1 & N1 & R1).
    destruct (Hh e He (R1 e eq_refl) _ _ _ C1 Hr) as (C2 & T2 & N2 & R2).
    split; [exact C2 |]. split; [congruence |]. split; [congruence | exact R2].
  - exact (Hb _ _ _ Hc H).
Qed.

Lemma db_quiet_redis_call c : db_quiet (Cache.redis_call c).
Proof.
  intros w r w' Hc H. unfold Cache.redis_call in H.
  destruct (redis_faults w) as [| [|] rest]; injection H as <- <-;
    refine (conj Hc (conj eq_refl (conj eq_refl _))); intros e He;
    first [discriminate He | injection He as <-; reflexivity].
Qed.

Lemma db_quiet_db_call c : db_quiet (Db.db_call c).
Proof.
  intros w r w' Hc H. unfold Db.db_call in H. rewrite (proj1 Hc) in H.
  injection H as <- <-.
  refine (conj Hc (conj eq_refl (conj eq_refl _))). intros e He. discriminate He.
Qed.

Lemma flush_deleted_nil rows : Db.flush_deleted [] rows = rows.
Proof.
  unfold Db.flush_deleted. induction rows as [| r rows IH]; [reflexivity |].
  cbn. f_equal. exact IH.
Qed.

Lemma db_quiet_commit : db_quiet Db.commit.
Proof.
  intros w r w' Hc H. pose proof Hc as (C1 & C2 & C3 & C4). unfold Db.commit in H.
  destruct (negb _).
  - injection H as <- <-.
    refine (conj Hc (conj eq_refl (conj eq_refl _))). intros e He. discriminate He.
  - unfold Db.db_call in H. rewrite C1 in H.
    cbn [sess_new sess_dirty sess_deleted set_session log table next_id now] in H.
    rewrite C2, C3, C4 in H. cbn [Db.flush_new Db.flush_dirty] in H.
    rewrite flush_deleted_nil in H. injection H as <- <-.
    split; [repeat split; assumption |].
    split; [reflexivity |]. split; [reflexivity |]. intros e He. discriminate He.
Qed.

Lemma db_quiet_rollback : db_quiet Db.rollback.
Proof.
  intros w r w' Hc H. pose proof Hc as (C1 & C2 & C3 & C4). unfold Db.rollback in H.
  injection H as <- <-.
  split; [destruct (in_transaction w); repeat split; assumption |].
  split; [destruct (in_transaction w); reflexivity |].
  split; [destruct (in_transaction w); reflexivity |]. intros e He. discriminate He.
Qed.

(** Structural steps of a [db_quiet] goal. *)
Ltac quiet_step :=
  first
    [ assumption
    | apply db_quiet_ret
    | apply db_quiet_get_world
    | apply db_quiet_redis_call
    | apply db_quiet_db_call
    | apply db_quiet_commit
    | apply db_quiet_rollback
    | apply db_quiet_raise; first [ assumption | reflexivity ]
    | apply db_quiet_modify; intros ?; repeat split
    | apply db_quiet_bind; [| intros ? ]
    | apply db_quiet_try; [| intros ? ? ? ]
    | match goal with
      | |- db_quiet (if ?b then _ else _) => destruct b
      | |- db_quiet (match ?x with _ => _ end) => destruct x
      end ].

Lemma db_quiet_cache_get key : db_quiet (Cache.cache_get key).
Proof. unfold Cache.cache_get, Cache.client_get, Cache.deserialize_value. repeat quiet_step. Qed.

Lemma db_quiet_cache_set key value expire : db_quiet (Cache.cache_set key value expire).
Proof.
  unfold Cache.cache_set, Cache.serialize_value, Cache.client_setex. repeat quiet_step.
Qed.

Lemma db_quiet_cache_delete key : db_quiet (Cache.cache_delete key).
Proof. unfold Cache.cache_delete, Cache.client_delete. repeat quiet_step. Qed.

Lemma db_quiet_cache_clear_pattern pattern : db_quiet (Cache.cache_clear_pattern pattern).
Proof.
  unfold Cache.cache_clear_pattern, Cache.client_keys, Cache.client_delete.
  repeat quiet_step.
Qed.

Lemma db_quiet_query_first what p : db_quiet (Db.query_first what p).
Proof. unfold Db.query_first. repeat quiet_step. Qed.

Lemma db_quiet_User_init kwargs : db_quiet (User_init kwargs).
Proof.
  unfold User_init. destruct (List.filter _ _); repeat quiet_step.
Qed.

Ltac quiet_repo :=
  repeat first
    [ apply db_quiet_cache_get
    | apply db_quiet_cache_set
    | apply db_quiet_cache_delete
    | apply db_quiet_cache_clear_pattern
    | apply db_quiet_query_first
    | apply db_quiet_User_init
    | quiet_step ].

Lemma db_quiet_get_user user_id : db_quiet (get_user user_id).
Proof. unfold get_user. quiet_repo. Qed.

Lemma db_quiet_transaction_context {A} nested (body : M A) :
  db_quiet body -> db_quiet (transaction_context nested body).
Proof.
  intros Hb. unfold transaction_context.
  apply db_quiet_bind; [apply db_quiet_get_world |]. intros w0.
  destruct (nested && in_transaction w0); quiet_repo.
Qed.

Lemma db_quiet_retry_loop {A} budget retries (func : M A) :
  db_quiet func -> db_quiet (retry_loop budget retries func).
Proof.
  intros Hf w r w' Hc H.
  assert (Heq : retry_loop budget retries func w = func w).
  { destruct (func w) as [[a | e] w1] eqn:E.
    - exact (retry_loop_success func _ _ _ _ _ E).
    - destruct (Hf _ _ _ Hc E) as (_ & _ & _ & Hne).
      specialize (Hne e eq_refl).
      destruct budget; cbn [retry_loop]; unfold try_except; rewrite E, Hne; reflexivity. }
  rewrite Heq in H. exact (Hf _ _ _ Hc H).
Qed.


(** X18.  [update_user] after the entity has been cached.  When the key
    [user:{id}] holds the projection of the row, Redis is reachable, the
    database answers and the session has nothing staged, [update_user] works
    on an instance rebuilt from the cache, which the session does not track:
    whatever the update data, the commit writes nothing, the table is the
    same afterwards, and no [OperationalError] is raised. *)
Theorem update_user_of_cached_entity (user_id : Z) (row : User.t) (t : Z)
    (user_data : UserUpdate) (w : World) :
  redis_faults w = [] ->
  clean w ->
  redis w !! USER_KEY (PyInt user_id) = Some (mkEntry (Json (PyDict (_user_to_dict row))) t) ->
  row_ok row = true ->
  table (snd (update_user user_id user_data w)) = table w
  /\ clean (snd (update_user user_id user_data w))
  /\ (forall e, fst (update_user user_id user_data w) = Raised e ->
                is_OperationalError e = false).
Proof.
  intros Hrf Hc Hentry Hok.
  assert (Hq : forall r w',
             update_user_once user_id user_data w = (r, w') ->
             clean w' /\ table w' = table w /\ next_id w' = next_id w
             /\ (forall e, r = Raised e -> is_OperationalError e = false)).
  { intros r w' H. unfold update_user_once in H.
    unfold mbind at 1, M_bind at 1, bind at 1 in H.
    rewrite (get_user_cached_row _ _ _ _ Hrf Hentry Hok) in H.
    cbn [rebuilt User.sa_state] in H.
    change (bool_decide (Transient = Persistent)) with false in H.
    cbn [andb] in H.
    match type of H with ?m _ = _ => assert (Hm : db_quiet m) end.
    { unfold get_password_hash, cache_delete_retry.
      repeat first
        [ apply db_quiet_transaction_context
        | apply db_quiet_cache_get
        | apply db_quiet_cache_set
        | apply db_quiet_cache_delete
        | apply db_quiet_cache_clear_pattern
        | apply db_quiet_query_first
        | quiet_step ]. }
    assert (Hc0 : clean (log (EvRedis (GET (USER_KEY (PyInt user_id)))) w)) by exact Hc.
    destruct (Hm _ _ _ Hc0 H) as (C & T & N & R).
    split; [exact C |]. split; [exact T |]. split; [exact N | exact R]. }
  assert (Heq : update_user user_id user_data w = update_user_once user_id user_data w).
  { unfold update_user. apply retry_passes_what_is_no_deadlock.
    intros d w' H. destruct (Hq _ _ H) as (_ & _ & _ & R).
    discriminate (R _ eq_refl). }
  rewrite Heq.
  destruct (Hq _ _ (surjective_pairing _)) as (C & T & N & R).
  split; [exact T |]. split; [exact C | exact R].
Qed.

Lemma update_user_of_cached_entity_witness :
  table (snd (update_user 1 (new_email "z@x.com") (world_tagged "1.1")))
  = table (world_tagged "1.1")
  /\ clean (snd (update_user 1 (new_email "z@x.com") (world_tagged "1.1")))
  /\ (forall e, fst (update_user 1 (new_email "z@x.com") (world_tagged "1.1")) = Raised e ->
                is_OperationalError e = false).
Proof.
  apply (update_user_of_cached_entity 1 alice_row 3600 (new_email "z@x.com")
           (world_tagged "1.1")).
  - reflexivity.
  - repeat split.
  - vm_compute. reflexivity.
  - reflexivity.
Defined.

(** At a concrete input: the caller and the cache get the new email, the
    table keeps the old one. *)
Example cached_update_is_lost :
  (exists u, fst (update_user 1 (new_email "z@x.com") (world_tagged "1.1")) = Ok (Some u)
             /\ User.email u = PyStr "z@x.com")
  /\ map User.email (table (snd (update_user 1 (new_email "z@x.com") (world_tagged "1.1"))))
     = [PyStr "a@x.com"]
  /\ is_Some (redis (snd (update_user 1 (new_email "z@x.com") (world_tagged "1.1")))
                !! "user:email:z@x.com").
Proof.
  split; [eexists; split; vm_compute; reflexivity |].
  split; [vm_compute; reflexivity |].
  vm_compute. eauto.
Qed.

(** ** Writes for an entity that is not there, and conflicting creates *)

(** X19.  When [get_user] finds no entity (it answers absent), [update_user]
    answers absent and [delete_user] answers [False], and neither does
    anything more than that one [get_user]: the world they leave is the one
    [get_user] leaves. *)
Theorem writes_on_a_missing_user (user_id : Z) (user_data : UserUpdate) (w w1 : World) :
  get_user user_id w = (Ok None, w1) ->
  update_user user_id user_data w = (Ok None, w1)
  /\ delete_user user_id w = (Ok false, w1).
Proof.
  intros H. split.
  - unfold update_user. rewrite retry_passes_what_is_no_deadlock;
      unfold update_user_once, mbind, M_bind, bind; rewrite H; [reflexivity |].
    intros d w' Hd. discriminate Hd.
  - unfold delete_user. rewrite retry_passes_what_is_no_deadlock;
      unfold delete_user_once, mbind, M_bind, bind; rewrite H; [reflexivity |].
    intros d w' Hd. discriminate Hd.
Qed.

Lemma writes_on_a_missing_user_witness :
  update_user 9 (new_email "z@x.com") after_create
  = (Ok None, snd (get_user 9 after_create))
  /\ delete_user 9 after_create = (Ok false, snd (get_user 9 after_create)).
Proof.
  apply (writes_on_a_missing_user 9 (new_email "z@x.com") after_create).
  vm_compute. reflexivity.
Defined.

Lemma head_filter_found {A} (p : A -> bool) (l : list A) x :
  In x l -> p x = true -> exists y, head (List.filter p l) = Some y /\ p y = true.
Proof.
  induction l as [| a l IH]; intros Hin Hp; [destruct Hin |].
  cbn [List.filter]. destruct (p a) eqn:Ha.
  - exists a. split; [reflexivity | exact Ha].
  - destruct Hin as [-> | Hin]; [congruence |]. exact (IH Hin Hp).
Qed.





(** ** A create without conflict *)

Lemma db_side_kept_refl w : db_side_kept w w.
Proof. repeat split. Qed.

Lemma db_side_kept_trans w1 w2 w3 :
  db_side_kept w1 w2 -> db_side_kept w2 w3 -> db_side_kept w1 w3.
Proof.
  intros (A1 & A2 & A3 & A4 & A5 & A6 & A7 & A8 & A9)
         (B1 & B2 & B3 & B4 & B5 & B6 & B7 & B8 & B9).
  repeat split; congruence.
Qed.

Lemma db_side_kept_redis_call c : steps db_side_kept (Cache.redis_call c).
Proof.
  intros w r w' H. unfold Cache.redis_call in H.
  destruct (redis_faults w) as [| [|] rest]; injection H as _ <-; repeat split.
Qed.

(** Structural steps of a [steps db_side_kept] goal. *)
Ltac kept_step :=
  first
    [ apply steps_ret; exact db_side_kept_refl
    | apply steps_raise; exact db_side_kept_refl
    | apply steps_get_world; exact db_side_kept_refl
    | apply db_side_kept_redis_call
    | apply steps_modify; intros ?; repeat split
    | apply steps_bind; [exact db_side_kept_trans | | intros ? ]
    | apply steps_try; [exact db_side_kept_trans | | intros ? ]
    | match goal with
      | |- steps _ (if ?b then _ else _) => destruct b
      | |- steps _ (match ?x with _ => _ end) => destruct x
      end ].


Lemma db_side_kept_cache_delete key : steps db_side_kept (Cache.cache_delete key).
Proof. unfold Cache.cache_delete, Cache.client_delete. repeat kept_step. Qed.

Lemma db_side_kept_cache_clear_pattern pattern :
  steps db_side_kept (Cache.cache_clear_pattern pattern).
Proof.
  unfold Cache.cache_clear_pattern, Cache.client_keys, Cache.client_delete.
  repeat kept_step.
Qed.

Lemma bind_run_ok {A B} (m : M A) (k : A -> M B) w a w1 :
  m w = (Ok a, w1) -> (m ≫= k) w = k a w1.
Proof. intros H. unfold mbind, M_bind, bind. rewrite H. reflexivity. Qed.

(** *** [ILIKE] of a string with itself *)



















(** The email is stored as [str.lower] gives it, also beyond ASCII: the
    capital E with acute accent (code point 201) becomes the small one
    (233). *)
Example create_user_lowers_the_email :
  let user_data := mkUserCreate (String "201" "@x.com") "eve" None true false "password4" in
  fst (create_user user_data after_create) = Ok (inserted_row user_data after_create)
  /\ User.email (inserted_row user_data after_create) = PyStr (String "233" "@x.com").
Proof. split; vm_compute; reflexivity. Qed.

(** ** A delete that reaches the database *)

Lemma get_user_miss_row user_id row w :
  redis_faults w = [] -> db_faults w = [] ->
  redis w !! USER_KEY (PyInt user_id) = None ->
  head (List.filter (fun r => Db.id_eq (User.id r) user_id) (table w)) = Some row ->
  exists w1, get_user user_id w = (Ok (Some row), w1).
Proof.
  intros Hrf Hdf Hnone Hrow. unfold get_user.
  erewrite bind_run_ok by (rewrite (get_user_lookup_healthy _ _ Hrf), Hnone; reflexivity).
  cbv beta iota zeta delta [fst snd py_truthy].
  erewrite (bind_run_ok (ret None)) by reflexivity.
  cbv beta iota.
  erewrite bind_run_ok by (apply query_first_healthy; exact Hdf).
  cbn [table set_session log]. rewrite Hrow.
  unfold mbind at 1, M_bind at 1, bind at 1.
  destruct (try_except _ _ _ _) as [r2 w2] eqn:Hc.
  destruct r2 as [[] | e]; [eexists; reflexivity | exfalso].
  revert Hc.
  match goal with
  | |- ?m _ = _ -> _ => assert (Hm : raises_only (fun _ => false) m)
  end.
  { apply raises_only_try.
    - apply raises_only_bind; [apply raises_only_cache_set | intros ?; apply raises_only_ret].
    - intros e1 _. apply raises_only_ret. }
  intros Hc. specialize (Hm _ _ _ Hc). discriminate Hm.
Qed.

(** The transaction around [db.delete] of a persistent instance, in a
    fresh session with the database reachable. *)
Lemma delete_in_transaction (row : User.t) (w : World) :
  clean w -> User.sa_state row = Persistent ->
  exists f w2,
    transaction_context false (Db.delete row) w = (Ok (tt, f), w2)
    /\ table w2 = Db.flush_deleted [User.id row] (table w)
    /\ clean w2 /\ redis w2 = redis w /\ redis_faults w2 = redis_faults w.
Proof.
  intros (Hdf & Hsn & Hsd & Hsx) Hp.
  unfold transaction_context, try_except, Db.delete, mbind, M_bind, bind.
  rewrite Hp. cbn [get_world andb modify].
  unfold Db.commit.
  assert (Hw : forall b w0, Db.has_work (set_session (sess_new w) (sess_dirty w)
                        (sess_deleted w ++ [User.id row]) b w0) = true).
  { intros b w0. unfold Db.has_work. cbn [sess_deleted sess_new sess_dirty set_session].
    rewrite Hsx. cbn. rewrite !andb_false_r. reflexivity. }
  rewrite Hw, orb_true_r. cbn [negb].
  rewrite db_call_healthy by exact Hdf.
  cbn [now sess_new sess_dirty sess_deleted table next_id set_session log].
  rewrite Hsn, Hsd, Hsx. cbn [Db.flush_new Db.flush_dirty app].
  eexists. eexists. split; [reflexivity |]. split; [reflexivity |].
  split; [| split; reflexivity]. repeat split. exact Hdf.
Qed.

Lemma flush_deleted_one i rows (uid : Z) :
  i = PyInt uid ->
  Db.flush_deleted [i] rows = List.filter (fun r => negb (Db.id_eq (User.id r) uid)) rows.
Proof.
  intros ->. unfold Db.flush_deleted. apply List.filter_ext. intros r.
  cbn [existsb]. rewrite orb_false_r. destruct (User.id r); reflexivity.
Qed.

Lemma head_filter_holds {A} (p : A -> bool) (l : list A) x :
  head (List.filter p l) = Some x -> p x = true.
Proof.
  intros H. apply head_Some_elem_of, list_elem_of_In, filter_In in H. apply H.
Qed.

(** X22.  A delete that reaches the database.  With Redis and the database
    reachable, a fresh session, no entry under [user:{id}] and a persistent
    row with that id, [delete_user] answers [True]; afterwards the table is
    the old one without the rows of that id, the session is clean, and Redis
    holds no entry under [user:{id}], under [user:email:{email}] or under a
    key of the list pattern. *)
Theorem delete_user_removes_the_row (user_id : Z) (row : User.t) (w : World) :
  redis_faults w = [] -> clean w ->
  redis w !! USER_KEY (PyInt user_id) = None ->
  head (List.filter (fun r => Db.id_eq (User.id r) user_id) (table w)) = Some row ->
  User.sa_state row = Persistent ->
  exists w',
    delete_user user_id w = (Ok true, w')
    /\ table w' = List.filter (fun r => negb (Db.id_eq (User.id r) user_id)) (table w)
    /\ clean w'
    /\ redis w' !! USER_KEY (PyInt user_id) = None
    /\ redis w' !! USER_EMAIL_KEY (User.email row) = None
    /\ (forall k, redis_glob "users:list:*:*" k = true -> redis w' !! k = None).
Proof.
  intros Hrf Hc Hnone Hrow Hp.
  destruct (get_user_miss_row _ _ _ Hrf (proj1 Hc) Hnone Hrow) as (w1 & Hg).
  destruct (db_quiet_get_user user_id w _ _ Hc Hg) as (Hc1 & Ht1 & _ & _).
  pose proof (proj2 (steps_get_user user_id _ _ _ Hg) Hrf) as Hrf1.
  destruct (delete_in_transaction row w1 Hc1 Hp) as (f & w2 & Htx & Ht2 & Hc2 & Hr2 & Hrf2).
  rewrite Hrf1 in Hrf2.
  destruct (cache_delete_healthy (USER_KEY (PyInt user_id)) w2 Hrf2) as (b1 & Hd1).
  set (w3 := set_redis _ _) in Hd1.
  destruct (cache_delete_healthy (USER_EMAIL_KEY (User.email row)) w3 Hrf2) as (b2 & Hd2).
  set (w4 := set_redis _ _) in Hd2.
  destruct (cache_clear_pattern_healthy (USERS_LIST_KEY (PyStr "*") (PyStr "*")) w4 Hrf2)
    as (w5 & Hd3 & Hkeys & _).
  pose proof (db_side_kept_cache_clear_pattern _ _ _ _ Hd3)
    as (K1 & K2 & K3 & K4 & K5 & K6 & K7 & K8 & K9).
  assert (Honce : delete_user_once user_id w = (Ok true, w5)).
  { unfold delete_user_once.
    rewrite (bind_run_ok _ _ _ _ _ Hg).
    rewrite (bind_run_ok _ _ _ _ _ Htx).
    unfold mbind at 1, M_bind at 1, bind at 1. unfold try_except.
    rewrite (bind_run_ok _ _ _ _ _ Hd1).
    rewrite (bind_run_ok _ _ _ _ _ Hd2).
    rewrite (bind_run_ok _ _ _ _ _ Hd3). reflexivity. }
  exists w5. split; [| split; [| split; [| split; [| split]]]].
  - unfold delete_user. rewrite retry_passes_what_is_no_deadlock; [exact Honce |].
    intros d w'' H. rewrite Honce in H. discriminate H.
  - rewrite K1. cbn [table w4 w3 set_redis log]. rewrite Ht2, Ht1.
    apply flush_deleted_one.
    pose proof (head_filter_holds _ _ _ Hrow) as Hid.
    unfold Db.id_eq in Hid. destruct (User.id row); try discriminate Hid.
    apply Z.eqb_eq in Hid. congruence.
  - destruct Hc2 as (C1 & C2 & C3 & C4).
    repeat split; [rewrite K3 | rewrite K4 | rewrite K5 | rewrite K6]; assumption.
  - rewrite Hkeys. destruct (redis_glob _ _); [reflexivity |].
    cbn [redis w4 w3 set_redis log]. apply lookup_delete_None.
    destruct (decide (USER_EMAIL_KEY (User.email row) = USER_KEY (PyInt user_id)));
      [left; assumption | right; apply lookup_delete_eq].
  - rewrite Hkeys. destruct (redis_glob _ _); [reflexivity |].
    cbn [redis w4 w3 set_redis log]. apply lookup_delete_eq.
  - intros k Hk. rewrite Hkeys.
    change (USERS_LIST_KEY (PyStr "*") (PyStr "*")) with "users:list:*:*".
    rewrite Hk. reflexivity.
Qed.

Lemma delete_user_removes_the_row_witness :
  exists w',
    delete_user 1 world_without_entry = (Ok true, w')
    /\ table w'
       = List.filter (fun r => negb (Db.id_eq (User.id r) 1)) (table world_without_entry)
    /\ clean w'
    /\ redis w' !! USER_KEY (PyInt 1) = None
    /\ redis w' !! USER_EMAIL_KEY (User.email alice_row) = None
    /\ (forall k, redis_glob "users:list:*:*" k = true -> redis w' !! k = None).
Proof.
  apply (delete_user_removes_the_row 1 alice_row world_without_entry).
  - vm_compute. reflexivity.
  - split; [| split; [| split]]; vm_compute; reflexivity.
  - vm_compute. reflexivity.
  - vm_compute. reflexivity.
  - reflexivity.
Defined.

(** ** An update that conflicts *)

Lemma fails_with_bind_left {A B} e rows (m : M A) (k : A -> M B) :
  fails_with e rows m -> fails_with e rows (m ≫= k).
Proof.
  intros Hm w Hc Ht. destruct (Hm w Hc Ht) as (w' & Heq & Hc' & Ht').
  exists w'. split; [| split; assumption].
  unfold mbind, M_bind, bind. rewrite Heq. reflexivity.
Qed.

Lemma fails_with_query_raise e rows what p (k : option User.t -> M unit) x :
  head (List.filter p rows) = Some x ->
  (forall w, k (Some x) w = (Raised e, w)) ->
  fails_with e rows (Db.query_first what p ≫= k).
Proof.
  intros Hh Hk w (Hdf & Hsn & Hsd & Hsx) Ht.
  erewrite bind_run_ok by (apply query_first_healthy; exact Hdf).
  rewrite Ht, Hh, Hk. eexists. split; [reflexivity |].
  split; [| exact Ht]. repeat split; cbn; assumption.
Qed.

Lemma fails_with_transaction_context {A} e rows nested (body : M A) :
  fails_with e rows body -> fails_with e rows (transaction_context nested body).
Proof.
  intros Hb w Hc Ht. unfold transaction_context.
  erewrite (bind_run_ok get_world) by reflexivity.
  destruct (nested && in_transaction w).
  - destruct Hc as (Hdf & Hsn & Hsd & Hsx).
    erewrite bind_run_ok by (apply db_call_healthy; exact Hdf).
    destruct (Hb (set_session (sess_new w) (sess_dirty w) (sess_deleted w) true
                              (log (EvDb SAVEPOINT) w)))
      as (w' & Heq & (Hdf' & Hsn' & Hsd' & Hsx') & Ht');
      [repeat split; cbn; assumption | exact Ht |].
    unfold mbind at 1, M_bind at 1, bind at 1. unfold try_except. rewrite Heq.
    erewrite bind_run_ok by (apply db_call_healthy; exact Hdf').
    eexists. split; [reflexivity |]. split; [| exact Ht'].
    repeat split; cbn; assumption.
  - destruct (Hb w Hc Ht) as (w' & Heq & (Hdf' & Hsn' & Hsd' & Hsx') & Ht').
    unfold try_except. unfold mbind at 1, M_bind at 1, bind at 1. rewrite Heq.
    erewrite (bind_run_ok Db.rollback) by reflexivity.
    eexists. split; [reflexivity |]. split.
    + repeat split. cbn. destruct (in_transaction w'); exact Hdf'.
    + cbn. destruct (in_transaction w'); exact Ht'.
Qed.

Lemma model_dump_email u : model_dump u !! "email" = PyStr <$> uu_email u.
Proof.
  unfold model_dump, put_if. destruct (uu_email u); [apply lookup_insert_eq |].
  destruct (uu_username u), (uu_full_name u), (uu_is_active u), (uu_is_superuser u),
           (uu_password u); vm_compute; reflexivity.
Qed.

Lemma model_dump_username u : model_dump u !! "username" = PyStr <$> uu_username u.
Proof.
  unfold model_dump, put_if.
  destruct (uu_email u); [rewrite lookup_insert_ne by discriminate |];
    (destruct (uu_username u); [apply lookup_insert_eq |]);
    destruct (uu_full_name u), (uu_is_active u), (uu_is_superuser u), (uu_password u);
    vm_compute; reflexivity.
Qed.

(** Hashing the password of an update changes neither the world nor the
    email and the username of the update. *)
Lemma update_data_of (u : UserUpdate) (w : World) :
  exists d,
    match model_dump u !! "password" with
    | Some p =>
        h ← get_password_hash (py_str p);
        ret (<["hashed_password" := PyStr h]> (delete "password" (model_dump u)))
    | None => ret (model_dump u)
    end w = (Ok d, w)
    /\ d !! "email" = PyStr <$> uu_email u
    /\ d !! "username" = PyStr <$> uu_username u.
Proof.
  destruct (model_dump u !! "password") as [p |].
  - eexists. split; [reflexivity |]. split.
    + rewrite lookup_insert_ne by discriminate. rewrite lookup_delete_ne by discriminate.
      apply model_dump_email.
    + rewrite lookup_insert_ne by discriminate. rewrite lookup_delete_ne by discriminate.
      apply model_dump_username.
  - eexists. split; [reflexivity |]. split; [apply model_dump_email | apply model_dump_username].
Qed.

Lemma update_user_once_fails (user_id : Z) (user_data : UserUpdate) (db_user : User.t)
    (e : exn) (w w1 : World) :
  clean w ->
  get_user user_id w = (Ok (Some db_user), w1) ->
  (forall d : gmap string pyval, d !! "email" = PyStr <$> uu_email user_data ->
             d !! "username" = PyStr <$> uu_username user_data ->
     fails_with e (table w)
       (_ ← match d !! "email" with
             | Some (PyStr new) =>
                 if py_ne_str new (User.email db_user) then
                   existing_user ← Db.query_first "email ==, id !="
                     (fun r => Db.col_eq (User.email r) new
                               && negb (Db.id_eq (User.id r) user_id));
                   if bool_decide (is_Some existing_user)
                   then raise (ValueError ("Email " ++ new ++ " is already in use"))
                   else ret tt
                 else ret tt
             | _ => ret tt
             end;
        match d !! "username" with
        | Some (PyStr new) =>
            existing_user ← Db.query_first "username ==, id !="
              (fun r => Db.col_eq (User.username r) new
                        && negb (Db.id_eq (User.id r) user_id));
            if bool_decide (is_Some existing_user)
            then raise (ValueError ("Username " ++ new ++ " is already in use"))
            else ret tt
        | _ => ret tt
        end)) ->
  is_OperationalError e = false ->
  exists w',
    update_user user_id user_data w = (Raised e, w')
    /\ table w' = table w /\ clean w'.
Proof.
  intros Hc Hg Hchecks He.
  destruct (db_quiet_get_user user_id w _ _ Hc Hg) as (Hc1 & Ht1 & _ & _).
  destruct (update_data_of user_data w1) as (d & Hd & Hde & Hdu).
  assert (Honce : exists w', update_user_once user_id user_data w = (Raised e, w')
                             /\ table w' = table w /\ clean w').
  { unfold update_user_once.
    rewrite (bind_run_ok _ _ _ _ _ Hg).
    cbv zeta. rewrite (bind_run_ok _ _ _ _ _ Hd).
    match goal with
    | |- context [(transaction_context false ?body ≫= ?k) w1] =>
        assert (Hf : fails_with e (table w) (transaction_context false body ≫= k))
    end.
    { apply fails_with_bind_left, fails_with_transaction_context, fails_with_bind_left,
            fails_with_transaction_context.
      exact (Hchecks d Hde Hdu). }
    destruct (Hf w1 Hc1 Ht1) as (w' & Heq & Hc' & Ht').
    exists w'. split; [exact Heq | split; assumption]. }
  destruct Honce as (w' & Honce & Hrest). exists w'. split; [| exact Hrest].
  unfold update_user. rewrite retry_passes_what_is_no_deadlock; [exact Honce |].
  intros d0 w'' H. rewrite Honce in H. injection H as -> _. discriminate He.
Qed.

(** X23.  An update that conflicts is refused and writes nothing to the
    table.  In a fresh session with the database reachable, when
    [get_user] finds the entity: an update whose email differs from the
    entity's and is the email of a row with another id raises "Email ... is
    already in use"; an update without email whose username is the username
    of a row with another id raises "Username ... is already in use".  The
    table is as it was and the session is fresh again. *)
Theorem update_user_conflict (user_id : Z) (user_data : UserUpdate) (db_user : User.t)
    (new : string) (w : World) :
  clean w ->
  fst (get_user user_id w) = Ok (Some db_user) ->
  (uu_email user_data = Some new ->
   py_ne_str new (User.email db_user) = true ->
   (exists r, In r (table w) /\ Db.col_eq (User.email r) new = true
              /\ Db.id_eq (User.id r) user_id = false) ->
   exists w',
     update_user user_id user_data w
     = (Raised (ValueError ("Email " ++ new ++ " is already in use")), w')
     /\ table w' = table w /\ clean w')
  /\ (uu_email user_data = None ->
      uu_username user_data = Some new ->
      (exists r, In r (table w) /\ Db.col_eq (User.username r) new = true
                 /\ Db.id_eq (User.id r) user_id = false) ->
      exists w',
        update_user user_id user_data w
        = (Raised (ValueError ("Username " ++ new ++ " is already in use")), w')
        /\ table w' = table w /\ clean w').
Proof.
  intros Hc Hg.
  destruct (get_user user_id w) as [r0 w1] eqn:Hg1. cbn [fst] in Hg. subst r0.
  split.
  - intros Hmail Hne (r & Hin & Hr1 & Hr2).
    apply (update_user_once_fails user_id user_data db_user _ w w1 Hc Hg1); [| reflexivity].
    intros d Hde _. rewrite Hde, Hmail. cbn [fmap option_fmap option_map]. rewrite Hne.
    apply fails_with_bind_left.
    destruct (head_filter_found
                (fun r => Db.col_eq (User.email r) new && negb (Db.id_eq (User.id r) user_id))
                (table w) r Hin) as (y & Hy & _); [rewrite Hr1, Hr2; reflexivity |].
    apply (fails_with_query_raise _ _ _ _ _ y Hy). intros w0. reflexivity.
  - intros Hmail Hname (r & Hin & Hr1 & Hr2).
    apply (update_user_once_fails user_id user_data db_user _ w w1 Hc Hg1); [| reflexivity].
    intros d Hde Hdu. rewrite Hde, Hdu, Hmail, Hname. cbn [fmap option_fmap option_map].
    intros w0 Hc0 Ht0. erewrite (bind_run_ok (ret tt)) by reflexivity.
    destruct (head_filter_found
                (fun r => Db.col_eq (User.username r) new && negb (Db.id_eq (User.id r) user_id))
                (table w) r Hin) as (y & Hy & _); [rewrite Hr1, Hr2; reflexivity |].
    apply (fails_with_query_raise _ _ _ _ _ y Hy); [| exact Hc0 | exact Ht0].
    intros w2. reflexivity.
Qed.

Lemma update_user_conflict_witness :
  (exists w',
     update_user 2 (new_email "a@x.com") two_users
     = (Raised (ValueError ("Email " ++ "a@x.com" ++ " is already in use")), w')
     /\ table w' = table two_users /\ clean w')
  /\ (exists w',
        update_user 2 (mkUserUpdate None (Some "alice") None None None None) two_users
        = (Raised (ValueError ("Username " ++ "alice" ++ " is already in use")), w')
        /\ table w' = table two_users /\ clean w').
Proof.
  assert (Ht : table two_users = [alice_row; inserted_row bob after_create])
    by (vm_compute; reflexivity).
  assert (Hc : clean two_users)
    by (split; [| split; [| split]]; vm_compute; reflexivity).
  assert (Hg : fst (get_user 2 two_users) = Ok (Some (inserted_row bob after_create)))
    by (vm_compute; reflexivity).
  split.
  - apply (proj1 (update_user_conflict 2 (new_email "a@x.com") _ "a@x.com" two_users Hc Hg)).
    + reflexivity.
    + vm_compute. reflexivity.
    + exists alice_row. rewrite Ht.
      split; [left; reflexivity | split; vm_compute; reflexivity].
  - apply (proj2 (update_user_conflict 2 (mkUserUpdate None (Some "alice") None None None None)
                    _ "alice" two_users Hc Hg)).
    + reflexivity.
    + reflexivity.
    + exists alice_row. rewrite Ht.
      split; [left; reflexivity | split; vm_compute; reflexivity].
Defined.

(** ** The route layer *)

Lemma request_run {A} (m : M A) w r w1 :
  m (set_session [] [] [] false w) = (r, w1) ->
  request m w = (r, set_session [] [] [] false w1).
Proof. intros H. unfold request. rewrite H. reflexivity. Qed.

(** X24.  The bounds of [GET /users/].  Outside them (a negative [skip], a
    [limit] below 1 or above 100) the answer is the 422 of the framework and
    the world is untouched: nothing is sent to Redis or to the database.
    Inside them the handler runs [get_users], and an exception that comes
    out is never one of the two invalid-argument errors of [get_users]:
    through the route, the checks of the service never fire. *)
Theorem route_get_users_bounds (skip limit : Z) (w : World) :
  (skip < 0 \/ limit < 1 \/ 100 < limit ->
   Routes.get_users skip limit w = (Ok Unprocessable, w))
  /\ (0 <= skip -> 1 <= limit <= 100 ->
      forall e, fst (Routes.get_users skip limit w) = Raised e ->
                invalid_argument e = false).
Proof.
  split.
  - intros H. unfold Routes.get_users.
    destruct (Z.ltb_spec skip 0), (Z.ltb_spec limit 1), (Z.ltb_spec 100 limit);
      try reflexivity; lia.
  - intros Hs Hl. unfold Routes.get_users.
    destruct (Z.ltb_spec skip 0); [lia |].
    destruct (Z.ltb_spec limit 1); [lia |].
    destruct (Z.ltb_spec 100 limit); [lia |].
    cbn [orb].
    intros e He. unfold request in He.
    destruct ((get_users skip limit ≫= λ us, ret (Returned us)) (set_session [] [] [] false w))
      as [r w1] eqn:Hrun.
    cbn [fst] in He. subst r.
    apply bind_inv in Hrun.
    destruct Hrun as [(a & w2 & _ & Hret) | (e' & Hraise & Heq)]; [discriminate Hret |].
    injection Heq as <-.
    assert (Hm : raises_only store_or_decode_error (get_users skip limit))
      by (apply get_users_raises; lia).
    specialize (Hm _ _ _ Hraise).
    destruct e; try reflexivity; try discriminate Hm.
    cbn in Hm. apply String.eqb_eq in Hm. subst. reflexivity.
Qed.

Lemma route_get_users_bounds_witness :
  Routes.get_users 0 101 after_create = (Ok Unprocessable, after_create)
  /\ (forall e, fst (Routes.get_users 0 100 after_create) = Raised e ->
                 invalid_argument e = false).
Proof.
  split.
  - apply (proj1 (route_get_users_bounds 0 101 after_create)). lia.
  - apply (proj2 (route_get_users_bounds 0 100 after_create)); lia.
Defined.

Lemma get_user_undecodable user_id s t w :
  redis_faults w = [] ->
  redis w !! USER_KEY (PyInt user_id) = Some (mkEntry (Text s) t) ->
  s <> "" ->
  get_user user_id w
  = (Raised (ValueError "Could not deserialize value"),
     log (EvRedis (GET (USER_KEY (PyInt user_id)))) w).
Proof.
  intros Hrf Hentry Hs. unfold get_user.
  unfold mbind at 1, M_bind at 1, bind at 1.
  rewrite (get_user_lookup_healthy _ _ Hrf), Hentry.
  cbn [fmap option_fmap option_map payload].
  destruct (String.eqb_spec s ""); [contradiction | reflexivity].
Qed.

(** X25.  An entry under [user:{id}] that is not JSON, seen through the
    routes.  With Redis reachable, the [ValueError] of the cache layer
    leaves [GET /users/{id}] and [DELETE /users/{id}] as an unhandled
    exception, while [PUT /users/{id}] answers 400 with its message; in the
    three cases the one command sent is the [GET] of the entry, so the
    database is not asked and the row, if any, is neither read, changed nor
    deleted. *)
Theorem routes_on_an_undecodable_entry (user_id : Z) (user_data : UserUpdate)
    (s : string) (t : Z) (w : World) :
  redis_faults w = [] ->
  redis w !! USER_KEY (PyInt user_id) = Some (mkEntry (Text s) t) ->
  s <> "" ->
  Routes.get_user user_id w
  = (Raised (ValueError "Could not deserialize value"), after_lookup user_id w)
  /\ Routes.update_user user_id user_data w
     = (Ok (HTTPException 400 "Could not deserialize value"), after_lookup user_id w)
  /\ Routes.delete_user user_id w
     = (Raised (ValueError "Could not deserialize value"), after_lookup user_id w)
  /\ table (after_lookup user_id w) = table w
  /\ trace (after_lookup user_id w)
     = (trace w ++ [EvRedis (GET (USER_KEY (PyInt user_id)))])%list.
Proof.
  intros Hrf Hentry Hs. unfold after_lookup.
  pose proof (get_user_undecodable user_id s t (set_session [] [] [] false w) Hrf Hentry Hs)
    as Hg.
  split; [| split; [| split; [| split; reflexivity]]].
  - unfold Routes.get_user. apply request_run.
    unfold mbind, M_bind, bind. rewrite Hg. reflexivity.
  - unfold Routes.update_user. apply request_run.
    unfold try_except. unfold mbind at 1, M_bind at 1, bind at 1.
    unfold update_user. rewrite retry_passes_what_is_no_deadlock;
      unfold update_user_once, mbind, M_bind, bind; rewrite Hg; [reflexivity |].
    intros d w0 H. discriminate H.
  - unfold Routes.delete_user. apply request_run.
    unfold mbind at 1, M_bind at 1, bind at 1.
    unfold delete_user. rewrite retry_passes_what_is_no_deadlock;
      unfold delete_user_once, mbind, M_bind, bind; rewrite Hg; [reflexivity |].
    intros d w0 H. discriminate H.
Qed.

Lemma routes_on_an_undecodable_entry_witness :
  Routes.get_user 1 world_with_garbage
  = (Raised (ValueError "Could not deserialize value"), after_lookup 1 world_with_garbage)
  /\ Routes.update_user 1 (new_email "z@x.com") world_with_garbage
     = (Ok (HTTPException 400 "Could not deserialize value"),
        after_lookup 1 world_with_garbage)
  /\ Routes.delete_user 1 world_with_garbage
     = (Raised (ValueError "Could not deserialize value"), after_lookup 1 world_with_garbage)
  /\ table (after_lookup 1 world_with_garbage) = table world_with_garbage
  /\ trace (after_lookup 1 world_with_garbage)
     = (trace world_with_garbage ++ [EvRedis (GET (USER_KEY (PyInt 1)))])%list.
Proof.
  apply (routes_on_an_undecodable_entry 1 (new_email "z@x.com") "{'id': 1" 3600
           world_with_garbage).
  - vm_compute. reflexivity.
  - vm_compute. reflexivity.
  - discriminate.
Defined.

(** X26.  The 404 of the routes.  When [get_user], run in the session of
    the request, finds no entity, [GET], [PUT] and [DELETE] on
    [/users/{id}] all answer 404 "User not found", and each leaves the world
    that this one [get_user] leaves, with the session closed. *)
Theorem routes_answer_404 (user_id : Z) (user_data : UserUpdate) (w w1 : World) :
  get_user user_id (set_session [] [] [] false w) = (Ok None, w1) ->
  Routes.get_user user_id w
  = (Ok (HTTPException 404 "User not found"), set_session [] [] [] false w1)
  /\ Routes.update_user user_id user_data w
     = (Ok (HTTPException 404 "User not found"), set_session [] [] [] false w1)
  /\ Routes.delete_user user_id w
     = (Ok (HTTPException 404 "User not found"), set_session [] [] [] false w1).
Proof.
  intros Hg. split; [| split].
  - unfold Routes.get_user. apply request_run.
    unfold mbind, M_bind, bind. rewrite Hg. reflexivity.
  - unfold Routes.update_user. apply request_run.
    unfold try_except. unfold mbind at 1, M_bind at 1, bind at 1.
    unfold update_user. rewrite retry_passes_what_is_no_deadlock;
      unfold update_user_once, mbind, M_bind, bind; rewrite Hg; [reflexivity |].
    intros d w0 H. discriminate H.
  - unfold Routes.delete_user. apply request_run.
    unfold mbind at 1, M_bind at 1, bind at 1.
    unfold delete_user. rewrite retry_passes_what_is_no_deadlock;
      unfold delete_user_once, mbind, M_bind, bind; rewrite Hg; [reflexivity |].
    intros d w0 H. discriminate H.
Qed.

Lemma routes_answer_404_witness :
  Routes.get_user 9 after_create
  = (Ok (HTTPException 404 "User not found"),
     set_session [] [] [] false (snd (get_user 9 (set_session [] [] [] false after_create))))
  /\ Routes.update_user 9 (new_email "z@x.com") after_create
     = (Ok (HTTPException 404 "User not found"),
        set_session [] [] [] false (snd (get_user 9 (set_session [] [] [] false after_create))))
  /\ Routes.delete_user 9 after_create
     = (Ok (HTTPException 404 "User not found"),
        set_session [] [] [] false (snd (get_user 9 (set_session [] [] [] false after_create)))).
Proof.
  apply (routes_answer_404 9 (new_email "z@x.com") after_create).
  vm_compute. reflexivity.
Defined.

(** ** The uniqueness invariant *)

(** *** Lists without clashes *)




(** *** What the constraints of the table give *)










(** *** Every operation keeps the invariant *)
















(** *** Conflicting data is refused *)












(** The table of the first run above: the update and the second create were
    refused, the two rows are as they were created. *)
Example case_variants_are_refused :
  table (run_ops [Create alice; Create bob; Update 2 (new_email "A@x.com");
                  Create (mkUserCreate "B@x.com" "dave" None true false "password3")]
                 empty_world)
  = [alice_row; bob_row]
  /\ fst (request (update_user 2 (new_email "A@x.com")) two_users)
     = Raised (ValueError "Email A@x.com is already in use").
Proof. split; vm_compute; reflexivity. Qed.
